(** * Retell caller: sharded polling worker

    A shallow embedding of the survey-dispatch service: the sharding
    manager (partition predicate, example enumeration, shard monitoring),
    the Retell client (in-flight tracking maps, duplicate guard, staleness
    sweep, retry with backoff), the database client (the locked dequeue)
    and the processing loop that ties them together.

    JavaScript numbers that the service handles are integers (row ids, shard
    counts, millisecond timestamps) and are embedded as [Z]; the jittered
    backoff delay is a real number and is embedded as [Q]. *)

From Stdlib Require Import ZArith QArith List String Ascii Bool Lia Lqa.
From Stdlib Require Import DecimalString Sorting.Sorted Sorting.Permutation.
Import ListNotations.

Local Open Scope string_scope.
Local Open Scope list_scope.
Local Open Scope Z_scope.

(* ================================================================== *)
(** ** JavaScript values, thrown values and completions *)
(* ================================================================== *)

(** The values that reach the tracking maps as keys and the log records as
    fields.  [JInt z] is a number whose value is the integer [z]; [JNaN] and
    [JInfinity] are the numbers that are not finite.  Finite numbers with a
    fractional part do not occur as row ids and are not represented. *)
Inductive JsValue : Type :=
| JUndefined
| JNull
| JBool (b : bool)
| JInt (z : Z)
| JNaN
| JInfinity (negative : bool)
| JStr (s : string).

(** SameValueZero, the key equality of a JavaScript [Map]. *)
Definition JsValue_eqb (a b : JsValue) : bool :=
  match a, b with
  | JUndefined, JUndefined => true
  | JNull, JNull => true
  | JBool x, JBool y => Bool.eqb x y
  | JInt x, JInt y => x =? y
  | JNaN, JNaN => true
  | JInfinity x, JInfinity y => Bool.eqb x y
  | JStr x, JStr y => String.eqb x y
  | _, _ => false
  end.

(** [Number.isInteger(x)]. *)
Definition Number_isInteger (x : JsValue) : bool :=
  match x with
  | JInt _ => true
  | _ => false
  end.

(** Decimal rendering of an integer-valued number. *)
Definition Z_toString (z : Z) : string :=
  NilZero.string_of_int (Z.to_int z).

(** String conversion inside a template literal: [`${v}`]. *)
Definition template (v : JsValue) : string :=
  match v with
  | JUndefined => "undefined"
  | JNull => "null"
  | JBool true => "true"
  | JBool false => "false"
  | JInt z => Z_toString z
  | JNaN => "NaN"
  | JInfinity false => "Infinity"
  | JInfinity true => "-Infinity"
  | JStr s => s
  end.

(** An error object, with the properties the service reads from it. *)
Record ErrorObj : Type := mkError {
  err_name : string;
  err_message : option string;
  err_status : option Z;
  err_code : option string
}.

(** [new Error(message)]. *)
Definition new_Error (message : string) : ErrorObj :=
  mkError "Error" (Some message) None None.

Definition new_TypeError (message : string) : ErrorObj :=
  mkError "TypeError" (Some message) None None.

(** What a [throw] can carry: an error object, or [undefined] (the initial
    value of [lastError] in the retry helpers). *)
Inductive Exn : Type :=
| ThrowUndefined
| ThrowObj (e : ErrorObj).

(** How a call ends: it returns a value or it throws. *)
Inductive Completion (A : Type) : Type :=
| Returned (a : A)
| Thrown (e : Exn).

Arguments Returned {A} a.
Arguments Thrown {A} e.

(** [v.toString()]: a property access on [undefined] or [null] throws. *)
Definition toString (v : JsValue) : Completion string :=
  match v with
  | JUndefined =>
      Thrown (ThrowObj (new_TypeError
        "Cannot read properties of undefined (reading 'toString')"))
  | JNull =>
      Thrown (ThrowObj (new_TypeError
        "Cannot read properties of null (reading 'toString')"))
  | _ => Returned (template v)
  end.

(* ================================================================== *)
(** ** Strings *)
(* ================================================================== *)

(** [hay.includes(needle)]. *)
Fixpoint includes (needle hay : string) : bool :=
  prefix needle hay ||
  match hay with
  | EmptyString => false
  | String _ rest => includes needle rest
  end.

(** ASCII lower-casing, as used by a case-insensitive match. *)
Definition lower_ascii (c : ascii) : ascii :=
  let n := nat_of_ascii c in
  if (andb (Nat.leb 65 n) (Nat.leb n 90)) then ascii_of_nat (n + 32) else c.

Fixpoint lower (s : string) : string :=
  match s with
  | EmptyString => EmptyString
  | String c rest => String (lower_ascii c) (lower rest)
  end.

(* ================================================================== *)
(** ** JavaScript [Map]: an insertion-ordered association list *)
(* ================================================================== *)

(** [keys()] and [entries()] of a [Map] enumerate in insertion order, and the
    service spreads the keys into an array, so the order is kept. *)
Module JsMap.
Definition t (K V : Type) : Type := list (K * V).

Section WithKey.
Context {K V : Type}.
Variable eqb : K -> K -> bool.

Definition empty : t K V := [].

Fixpoint get (k : K) (m : t K V) : option V :=
  match m with
  | [] => None
  | (k', v) :: rest => if eqb k k' then Some v else get k rest
  end.

Definition has (k : K) (m : t K V) : bool :=
  match get k m with
  | Some _ => true
  | None => false
  end.

(** [m.set(k, v)]: an existing key keeps its position, a new key goes last. *)
Fixpoint set (k : K) (v : V) (m : t K V) : t K V :=
  match m with
  | [] => [(k, v)]
  | (k', v') :: rest =>
      if eqb k k' then (k, v) :: rest else (k', v') :: set k v rest
  end.

(** [m.delete(k)]. *)
Definition delete (k : K) (m : t K V) : t K V :=
  filter (fun kv => negb (eqb k (fst kv))) m.

Definition keys (m : t K V) : list K := map fst m.

Definition entries (m : t K V) : list (K * V) := m.

Definition size (m : t K V) : Z := Z.of_nat (List.length m).

(** The invariant of a [Map]: no key occurs twice. *)
Fixpoint unique_keys (m : t K V) : bool :=
  match m with
  | [] => true
  | (k, _) :: rest => negb (has k rest) && unique_keys rest
  end.
End WithKey.
End JsMap.

(* ================================================================== *)
(** ** Sharding manager *)
(* ================================================================== *)

Module Sharding.

(** The remainder operator [a % b] on integer-valued numbers: the result
    takes the sign of the dividend, and [a % 0] is [NaN] ([None]). *)
Definition js_rem (a b : Z) : option Z :=
  if b =? 0 then None else Some (Z.rem a b).

(** [x === z] where [x] may be [NaN]: [NaN] is equal to nothing. *)
Definition strict_eq_num (x : option Z) (z : Z) : bool :=
  match x with
  | Some r => r =? z
  | None => false
  end.

Record ShardInfo : Type := mkShardInfo {
  shardIndex : Z;
  totalShards : Z
}.

(** [ShardingManager.shouldProcessId]. *)
Definition shouldProcessId (id shardIndex totalShards : Z) : bool :=
  let zeroBasedIndex := shardIndex - 1 in
  strict_eq_num (js_rem id totalShards) zeroBasedIndex.

(** The loop of [getExampleIds], one unit of fuel per iteration; [None]
    when the fuel runs out before the loop ends. *)
Fixpoint getExampleIds_loop (fuel : nat) (maxExamples : Z)
    (info : ShardInfo) (i : Z) (examples : list Z) : option (list Z) :=
  match fuel with
  | O => None
  | S fuel' =>
      if i <=? maxExamples * totalShards info then
        if shouldProcessId i (shardIndex info) (totalShards info) then
          let examples' := examples ++ [i] in
          if Z.of_nat (List.length examples') >=? maxExamples
          then Some examples'
          else getExampleIds_loop fuel' maxExamples info (i + 1) examples'
        else getExampleIds_loop fuel' maxExamples info (i + 1) examples
      else Some examples
  end.

(** Iterations that [getExampleIds] can need: [i] runs from 1 to the bound,
    and one more test leaves the loop. *)
Definition getExampleIds_fuel (maxExamples : Z) (info : ShardInfo) : nat :=
  S (Z.to_nat (maxExamples * totalShards info)).

(** [getExampleIds(maxExamples)], given what [getShardInfo()] gave; a
    failure of [getShardInfo] is caught and yields the empty array. *)
Definition getExampleIds (shardInfo : Completion ShardInfo)
    (maxExamples : Z) : option (list Z) :=
  match shardInfo with
  | Returned info =>
      getExampleIds_loop (getExampleIds_fuel maxExamples info)
        maxExamples info 1 []
  | Thrown _ => Some []
  end.

(** The argument object of the monitoring callback. *)
Record ShardChange : Type := mkShardChange {
  oldShards : Z;
  newShards : Z
}.

(** What one run of [checkShards] does that can be seen from outside. *)
Inductive MonitorEvent : Type :=
| ShardCountChanged (oldShards newShards : Z)
| CallbackInvoked (change : ShardChange)
| MonitoringError (e : Exn).

(** One run of the [checkShards] closure of [startShardMonitoring]:
    [observed] is the completion of [getShardInfo()], [lastTotalShards] the
    closure variable ([None] is [null]).  A throwing callback lands in the
    catch block, before [lastTotalShards] is assigned. *)
Definition checkShards
    (callback : option (ShardChange -> Completion unit))
    (observed : Completion ShardInfo)
    (lastTotalShards : option Z) : option Z * list MonitorEvent :=
  match observed with
  | Thrown e => (lastTotalShards, [MonitoringError e])
  | Returned info =>
      let total := totalShards info in
      match lastTotalShards with
      | Some last =>
          if negb (last =? total) then
            match callback with
            | Some cb =>
                let change := mkShardChange last total in
                match cb change with
                | Returned _ =>
                    (Some total,
                     [ShardCountChanged last total; CallbackInvoked change])
                | Thrown e =>
                    (lastTotalShards,
                     [ShardCountChanged last total; CallbackInvoked change;
                      MonitoringError e])
                end
            | None => (Some total, [ShardCountChanged last total])
            end
          else (Some total, [])
      | None => (Some total, [])
      end
  end.

(** Successive runs of [checkShards], oldest first. *)
Fixpoint monitor_runs
    (callback : option (ShardChange -> Completion unit))
    (observations : list (Completion ShardInfo))
    (lastTotalShards : option Z) : option Z * list MonitorEvent :=
  match observations with
  | [] => (lastTotalShards, [])
  | o :: rest =>
      let '(last', evs) := checkShards callback o lastTotalShards in
      let '(final, evs') := monitor_runs callback rest last' in
      (final, evs ++ evs')
  end.


(** The callback invocations among the events, as (old, new) pairs. *)
Definition callback_invocations (evs : list MonitorEvent) : list (Z * Z) :=
  flat_map (fun ev =>
    match ev with
    | CallbackInvoked c => [(oldShards c, newShards c)]
    | _ => []
    end) evs.




End Sharding.

(* ================================================================== *)
(** ** Process state and the monad of effectful code *)
(* ================================================================== *)

Inductive Level : Type := LvlDebug | LvlInfo | LvlWarn | LvlError.

(** A record written through the logger: level, message and the scalar
    fields of the structured part (error objects among them are left out). *)
Record LogRecord : Type := mkLog {
  log_level : Level;
  log_message : string;
  log_fields : list (string * JsValue)
}.

(** A nullable text column or property as a JavaScript value. *)
Definition text (s : option string) : JsValue :=
  match s with
  | Some x => JStr x
  | None => JNull
  end.

Definition number (z : option Z) : JsValue :=
  match z with
  | Some x => JInt x
  | None => JNull
  end.

(** The row that the dequeue hands to the dispatcher: the columns of the
    [SELECT] list. *)
Record SurveyData : Type := mkSurveyData {
  survey_id : JsValue;
  customer_id : option Z;
  customer_name : option string;
  client_email : option string;
  client_phone_number : option string;
  business_type : option string;
  employee_count : option string;
  revenue : option string;
  operational_frustration : option string;
  time_consuming_tasks : option string;
  inefficiencies : option string;
  automation_area : option string;
  one_task_to_automate : option string;
  hours_to_save : option string;
  growth_obstacle : option string;
  important_outcome : option string;
  survey_date : option Z;
  days_since_survey : option Z
}.

(** Value of [activeCalls]: call id to call correlation. *)
Record CallInfo : Type := mkCallInfo {
  ci_surveyId : JsValue;
  ci_createdAt : Z;
  ci_customerName : option string;
  ci_phoneNumber : option string
}.

(** Value of [activeSurveys]: survey id to the call made for it. *)
Record SurveyInfo : Type := mkSurveyInfo {
  si_callId : string;
  si_createdAt : Z;
  si_customerName : option string;
  si_phoneNumber : option string
}.

Record DynamicVariables : Type := mkDynamicVariables {
  dv_name : option string;
  dv_phone_number : option string;
  dv_email : option string;
  dv_service : option string;
  dv_budget : option string;
  dv_frustration : option string;
  dv_inefficiencies : option string;
  dv_priority_automation : option string;
  dv_important_outcome : option string;
  dv_survey_date : option Z
}.

Record CallPayload : Type := mkCallPayload {
  from_number : string;
  to_number : option string;
  retell_llm_dynamic_variables : DynamicVariables;
  metadata_survey_id : string;
  override_agent_id : string
}.

Record PhoneCallResponse : Type := mkPhoneCallResponse {
  call_id : string;
  agent_id : option string
}.

(** Rows of the two tables, with the columns the dequeue reads. *)
Record SurveyResponseRow : Type := mkSurveyResponseRow {
  sr_id : Z;
  sr_customer_id : option Z;
  sr_business_type : option string;
  sr_employee_count : option string;
  sr_revenue : option string;
  sr_operational_frustration : option string;
  sr_time_consuming_tasks : option string;
  sr_inefficiencies : option string;
  sr_automation_area : option string;
  sr_one_task_to_automate : option string;
  sr_hours_to_save : option string;
  sr_growth_obstacle : option string;
  sr_important_outcome : option string;
  sr_created_at : option Z;
  sr_processed : option bool;
  sr_data_sent_to_retell : option bool
}.

Record CustomerRow : Type := mkCustomerRow {
  c_id : Z;
  c_name : option string;
  c_email : option string;
  c_phone_number : option string;
  c_phone_number_validated : option bool
}.

(** The statements that the database client sends. *)
Inductive Statement : Type :=
| StBegin
| StSelectNext (shardIndex totalShards : Z) (activeSurveyIds : list JsValue)
| StCommit
| StRollback.

(** The database as the service sees it: the two tables in their physical
    order, the rows that concurrent transactions hold locked, the server
    clock, and the faults that the connection pool and the statements can
    meet. *)
Record Database : Type := mkDatabase {
  survey_responses : list SurveyResponseRow;
  customers : list CustomerRow;
  locked_survey_responses : list Z;
  locked_customers : list Z;
  db_NOW : Z;
  connect_fault : option ErrorObj;
  query_fault : Statement -> option ErrorObj
}.

Record RetellClient : Type := mkRetellClient {
  fromNumber : string;
  agentId : string;
  activeCalls : JsMap.t string CallInfo;
  activeSurveys : JsMap.t JsValue SurveyInfo
}.

(** Everything a processing cycle reads or writes.
    [retell_service n payload] is the answer of the remote API to the
    request number [n]; [shard_info] is what [getShardInfo()] resolves to. *)
Record World : Type := mkWorld {
  retellClient : RetellClient;
  isShuttingDown : bool;
  clock : Z;
  logs : list LogRecord;
  retell_service : nat -> CallPayload -> Completion PhoneCallResponse;
  retell_requests : list CallPayload;
  db : Database;
  db_statements : list Statement;
  shard_info : Completion Sharding.ShardInfo
}.

Definition set_retellClient (c : RetellClient) (w : World) : World :=
  mkWorld c (isShuttingDown w) (clock w) (logs w) (retell_service w)
    (retell_requests w) (db w) (db_statements w) (shard_info w).

Definition set_isShuttingDown (b : bool) (w : World) : World :=
  mkWorld (retellClient w) b (clock w) (logs w) (retell_service w)
    (retell_requests w) (db w) (db_statements w) (shard_info w).

Definition set_logs (l : list LogRecord) (w : World) : World :=
  mkWorld (retellClient w) (isShuttingDown w) (clock w) l (retell_service w)
    (retell_requests w) (db w) (db_statements w) (shard_info w).

Definition set_retell_requests (l : list CallPayload) (w : World) : World :=
  mkWorld (retellClient w) (isShuttingDown w) (clock w) (logs w)
    (retell_service w) l (db w) (db_statements w) (shard_info w).

Definition set_db_statements (l : list Statement) (w : World) : World :=
  mkWorld (retellClient w) (isShuttingDown w) (clock w) (logs w)
    (retell_service w) (retell_requests w) (db w) l (shard_info w).

Definition set_activeCalls (m : JsMap.t string CallInfo) (c : RetellClient)
    : RetellClient :=
  mkRetellClient (fromNumber c) (agentId c) m (activeSurveys c).

Definition set_activeSurveys (m : JsMap.t JsValue SurveyInfo)
    (c : RetellClient) : RetellClient :=
  mkRetellClient (fromNumber c) (agentId c) (activeCalls c) m.

(** Code with effects: it reads and writes the world and returns or throws. *)
Definition M (A : Type) : Type := World -> Completion A * World.

Definition ret {A : Type} (a : A) : M A := fun w => (Returned a, w).

Definition throw {A : Type} (e : Exn) : M A := fun w => (Thrown e, w).

Definition bind {A B : Type} (c : M A) (k : A -> M B) : M B :=
  fun w =>
    match c w with
    | (Returned a, w') => k a w'
    | (Thrown e, w') => (Thrown e, w')
    end.

(** [try { body } catch (error) { handler }]. *)
Definition try_catch {A : Type} (body : M A) (handler : Exn -> M A) : M A :=
  fun w =>
    match body w with
    | (Returned a, w') => (Returned a, w')
    | (Thrown e, w') => handler e w'
    end.

(** [try { body } finally { cleanup }]: a cleanup that throws replaces the
    completion of the body. *)
Definition try_finally {A : Type} (body : M A) (cleanup : M unit) : M A :=
  fun w =>
    let '(r, w') := body w in
    match cleanup w' with
    | (Returned _, w'') => (r, w'')
    | (Thrown e, w'') => (Thrown e, w'')
    end.

Definition lift {A : Type} (c : Completion A) : M A := fun w => (c, w).

Definition gets {A : Type} (f : World -> A) : M A := fun w => (Returned (f w), w).

Definition modify (f : World -> World) : M unit := fun w => (Returned tt, f w).

Declare Scope js_scope.
Delimit Scope js_scope with js.

Notation "'let!' x ':=' c 'in' k" := (bind c (fun x => k))
  (at level 10, x name, c at level 100, k at level 200) : js_scope.
Notation "c ';;' k" := (bind c (fun _ => k))
  (at level 100, k at level 200, right associativity) : js_scope.

Local Open Scope js_scope.

(** [for (const x of xs) { body }]. *)
Fixpoint for_of {A : Type} (xs : list A) (body : A -> M unit) : M unit :=
  match xs with
  | [] => ret tt
  | x :: rest => body x ;; for_of rest body
  end.

Definition write_log (record : LogRecord) : M unit :=
  modify (fun w => set_logs (logs w ++ [record]) w).

Definition logger (lvl : Level) (message : string)
    (fields : list (string * JsValue)) : M unit :=
  write_log (mkLog lvl message fields).

(** [new Date()], as milliseconds since the epoch. *)
Definition new_Date : M Z := gets clock.

(* ================================================================== *)
(** ** Retry with exponential backoff *)
(* ================================================================== *)

(** What a retry helper does that can be seen from outside: it invokes the
    operation, it logs a warning, it waits on a timer. *)
Inductive RetryEvent : Type :=
| Attempted (attempt : Z)
| Warned (attempt : Z) (delayMs : Q)
| Slept (delayMs : Q).

(** The three retry helpers of the service ([RetellClient.withRetry],
    [DatabaseClient.withRetry], [RetellCaller.retryOperation]) are the same
    loop; they differ in the tests at the head of the catch block. *)
Module Retry.
Section Loop.
Context {St A : Type}.

(** The tests at the head of the catch block: [Returned true] rethrows the
    error at once, [Returned false] goes on, [Thrown] is a test that throws
    itself (a property read on [undefined]). *)
Variable rethrow_at_once : Exn -> Completion bool.

(** [Math_random attempt] is the value of [Math.random()] drawn in the
    iteration [attempt]. *)
Variable Math_random : Z -> Q.

(** What the rest of the process does to the state while this task waits
    on its timer. *)
Variable while_suspended : St -> St.

Variable operation : St -> Completion A * St.
Variables maxRetries baseDelay : Z.

(** [baseDelay * Math.pow(2, attempt - 1) + Math.random() * 1000]. *)
Definition delay (attempt : Z) : Q :=
  (inject_Z (baseDelay * 2 ^ (attempt - 1)) + Math_random attempt * 1000)%Q.

(** The [for] loop with its catch block, one unit of fuel per iteration;
    [None] when the fuel runs out.  On leaving the loop, [throw lastError]. *)
Fixpoint loop (fuel : nat) (attempt : Z) (lastError : Exn) (st : St)
    : option (Completion A * St * list RetryEvent) :=
  match fuel with
  | O => None
  | S fuel' =>
      if attempt <=? maxRetries then
        match operation st with
        | (Returned a, st') => Some (Returned a, st', [Attempted attempt])
        | (Thrown error, st') =>
            match rethrow_at_once error with
            | Thrown e => Some (Thrown e, st', [Attempted attempt])
            | Returned true => Some (Thrown error, st', [Attempted attempt])
            | Returned false =>
                if attempt =? maxRetries
                then Some (Thrown error, st', [Attempted attempt])
                else
                  match loop fuel' (attempt + 1) error (while_suspended st')
                  with
                  | Some (r, st'', evs) =>
                      Some (r, st'',
                            Attempted attempt :: Warned attempt (delay attempt)
                              :: Slept (delay attempt) :: evs)
                  | None => None
                  end
            end
        end
      else Some (Thrown lastError, st, [])
  end.

(** One iteration for each attempt, and one more test to leave the loop. *)
Definition run (st : St) : option (Completion A * St * list RetryEvent) :=
  loop (S (Z.to_nat maxRetries)) 1 ThrowUndefined st.
End Loop.

(** Reference definition: the events of a retry that starts at [attempt]
    and is followed by [retries] further attempts, with one warning and
    one sleep of [delay k] between the attempts [k] and [k + 1]. *)
Fixpoint backoff_schedule (delay : Z -> Q) (retries : nat) (attempt : Z)
    : list RetryEvent :=
  match retries with
  | O => [Attempted attempt]
  | S retries' =>
      Attempted attempt :: Warned attempt (delay attempt)
        :: Slept (delay attempt)
        :: backoff_schedule delay retries' (attempt + 1)
  end.

Definition attempts (evs : list RetryEvent) : list Z :=
  flat_map (fun ev => match ev with Attempted a => [a] | _ => [] end) evs.

Definition sleeps (evs : list RetryEvent) : list Q :=
  flat_map (fun ev => match ev with Slept d => [d] | _ => [] end) evs.

(** Reference definition: a retry helper backs off on an operation when
    it makes [1 + n <= maxRetries] attempts with a sleep of [delay k] after
    each failed attempt [k] but the last, and, when it throws, has made all
    [maxRetries] attempts and throws the error of the last one. *)
Definition backs_off {St A : Type} (operation : St -> Completion A * St)
    (delay : Z -> Q) (maxRetries : Z)
    (result : option (Completion A * St * list RetryEvent)) : Prop :=
  exists r st' n,
    result = Some (r, st', backoff_schedule delay n 1)
    /\ 1 + Z.of_nat n <= maxRetries
    /\ forall e, r = Thrown e ->
         1 + Z.of_nat n = maxRetries
         /\ exists st_last, operation st_last = (Thrown e, st').

(** Two worlds that differ at most in the shutdown flag. *)
Definition same_up_to_shutdown (w1 w2 : World) : Prop :=
  set_isShuttingDown false w1 = set_isShuttingDown false w2.

(** Two runs of a retry helper with the same completion and the same
    attempts, warnings and sleeps, ending in worlds that differ at most in
    the shutdown flag. *)
Definition same_retry {A : Type}
    (r1 r2 : option (Completion A * World * list RetryEvent)) : Prop :=
  match r1, r2 with
  | Some (c1, w1, evs1), Some (c2, w2, evs2) =>
      c1 = c2 /\ evs1 = evs2 /\ same_up_to_shutdown w1 w2
  | None, None => True
  | _, _ => False
  end.
End Retry.

(* ================================================================== *)
(** ** Retell client *)
(* ================================================================== *)

Module Retell.

Definition get_activeCalls : M (JsMap.t string CallInfo) :=
  gets (fun w => activeCalls (retellClient w)).

Definition get_activeSurveys : M (JsMap.t JsValue SurveyInfo) :=
  gets (fun w => activeSurveys (retellClient w)).

Definition put_activeCalls (m : JsMap.t string CallInfo) : M unit :=
  modify (fun w => set_retellClient (set_activeCalls m (retellClient w)) w).

Definition put_activeSurveys (m : JsMap.t JsValue SurveyInfo) : M unit :=
  modify (fun w => set_retellClient (set_activeSurveys m (retellClient w)) w).

(** [isSurveyBeingProcessed(surveyId)]. *)
Definition isSurveyBeingProcessed (surveyId : JsValue) : M bool :=
  let! m := get_activeSurveys in
  ret (JsMap.has JsValue_eqb surveyId m).

(** The request [this.client.call.createPhoneCall(callPayload)] to the
    remote API. *)
Definition client_call_createPhoneCall (callPayload : CallPayload)
    : M PhoneCallResponse :=
  fun w =>
    (retell_service w (List.length (retell_requests w)) callPayload,
     set_retell_requests (retell_requests w ++ [callPayload]) w).

Definition already_being_processed : string := "already being processed".

(** [createPhoneCall(surveyData)]. *)
Definition createPhoneCall (surveyData : SurveyData) : M PhoneCallResponse :=
  let surveyId := survey_id surveyData in
  let! being := isSurveyBeingProcessed surveyId in
  if being then
    let! m := get_activeSurveys in
    let! existingCallId :=
      match JsMap.get JsValue_eqb surveyId m with
      | Some existingCall => ret (si_callId existingCall)
      | None =>
          throw (ThrowObj (new_TypeError
            "Cannot read properties of undefined (reading 'callId')"))
      end in
    logger LvlWarn
      "Survey is already being processed - skipping duplicate call creation"
      [("surveyId", surveyId); ("existingCallId", JStr existingCallId);
       ("customerName", text (customer_name surveyData))] ;;
    throw (ThrowObj (new_Error
      ("Survey " ++ template surveyId ++ " is " ++ already_being_processed)))
  else
    try_catch
      (let! sid := lift (toString surveyId) in
       let! from := gets (fun w => fromNumber (retellClient w)) in
       let! agent := gets (fun w => agentId (retellClient w)) in
       let callPayload :=
         mkCallPayload from (client_phone_number surveyData)
           (mkDynamicVariables
              (customer_name surveyData)
              (client_phone_number surveyData)
              (client_email surveyData)
              (business_type surveyData)
              (revenue surveyData)
              (operational_frustration surveyData)
              (inefficiencies surveyData)
              (one_task_to_automate surveyData)
              (important_outcome surveyData)
              (survey_date surveyData))
           sid agent in
       logger LvlInfo "Creating Retell phone call"
         [("surveyId", surveyId);
          ("toNumber", text (client_phone_number surveyData));
          ("customerName", text (customer_name surveyData))] ;;
       let! phoneCallResponse := client_call_createPhoneCall callPayload in
       let! calls := get_activeCalls in
       let! created := new_Date in
       put_activeCalls
         (JsMap.set String.eqb (call_id phoneCallResponse)
            (mkCallInfo surveyId created (customer_name surveyData)
               (client_phone_number surveyData)) calls) ;;
       let! surveys := get_activeSurveys in
       let! created' := new_Date in
       put_activeSurveys
         (JsMap.set JsValue_eqb surveyId
            (mkSurveyInfo (call_id phoneCallResponse) created'
               (customer_name surveyData) (client_phone_number surveyData))
            surveys) ;;
       logger LvlInfo "Retell phone call created successfully"
         [("surveyId", surveyId);
          ("callId", JStr (call_id phoneCallResponse));
          ("agentId", text (agent_id phoneCallResponse))] ;;
       ret phoneCallResponse)
      (fun error =>
         logger LvlError "Failed to create Retell phone call"
           [("surveyId", surveyId);
            ("toNumber", text (client_phone_number surveyData))] ;;
         throw error).

(** The keys pushed by the first two loops of [cleanupOldCalls]: those
    whose entry has [now - createdAt > maxAgeMs]. *)
Definition keys_older_than {K V : Type} (createdAt : V -> Z)
    (now maxAgeMs : Z) (m : JsMap.t K V) : list K :=
  map fst
    (filter (fun kv => now - createdAt (snd kv) >? maxAgeMs)
       (JsMap.entries m)).

(** The warning written for an evicted call. *)
Definition cleaned_up_call (now : Z) (callId : string) (info : CallInfo)
    : LogRecord :=
  mkLog LvlWarn "Cleaned up old active call (possible missed webhook)"
    [("callId", JStr callId); ("surveyId", ci_surveyId info);
     ("age", JInt (now - ci_createdAt info))].

(** The warning written for an evicted survey. *)
Definition cleaned_up_survey (now : Z) (surveyId : JsValue)
    (info : SurveyInfo) : LogRecord :=
  mkLog LvlWarn
    "Cleaned up old active survey (possible missed webhook) - will allow retry"
    [("surveyId", surveyId); ("callId", JStr (si_callId info));
     ("age", JInt (now - si_createdAt info))].

(** The body of the loop that removes the old calls. *)
Definition remove_call (now : Z) (callId : string) : M unit :=
  let! calls := get_activeCalls in
  let callInfo := JsMap.get String.eqb callId calls in
  put_activeCalls (JsMap.delete String.eqb callId calls) ;;
  match callInfo with
  | Some info => write_log (cleaned_up_call now callId info)
  | None =>
      throw (ThrowObj (new_TypeError
        "Cannot read properties of undefined (reading 'surveyId')"))
  end.

(** The body of the loop that removes the old surveys. *)
Definition remove_survey (now : Z) (surveyId : JsValue) : M unit :=
  let! surveys := get_activeSurveys in
  let surveyInfo := JsMap.get JsValue_eqb surveyId surveys in
  put_activeSurveys (JsMap.delete JsValue_eqb surveyId surveys) ;;
  match surveyInfo with
  | Some info => write_log (cleaned_up_survey now surveyId info)
  | None =>
      throw (ThrowObj (new_TypeError
        "Cannot read properties of undefined (reading 'callId')"))
  end.

(** [cleanupOldCalls(maxAgeMs)].  The function has no [return] statement:
    it completes with [undefined]. *)
Definition cleanupOldCalls (maxAgeMs : Z) : M JsValue :=
  let! now := new_Date in
  let! calls := get_activeCalls in
  let callsToRemove := keys_older_than ci_createdAt now maxAgeMs calls in
  let! surveys := get_activeSurveys in
  let surveysToRemove := keys_older_than si_createdAt now maxAgeMs surveys in
  for_of callsToRemove (remove_call now) ;;
  for_of surveysToRemove (remove_survey now) ;;
  (if (0 <? Z.of_nat (List.length callsToRemove))
      || (0 <? Z.of_nat (List.length surveysToRemove))
   then
     logger LvlInfo "Cleaned up old active calls and surveys"
       [("cleanedUpCalls", JInt (Z.of_nat (List.length callsToRemove)));
        ("cleanedUpSurveys", JInt (Z.of_nat (List.length surveysToRemove)))]
   else ret tt) ;;
  ret JUndefined.

(** Reference definitions: the entries that a sweep at time [now] evicts
    are those with [now - createdAt > maxAgeMs]; it keeps the others. *)
Definition evicted {K V : Type} (createdAt : V -> Z) (now maxAgeMs : Z)
    (m : JsMap.t K V) : list (K * V) :=
  filter (fun kv => now - createdAt (snd kv) >? maxAgeMs) m.

Definition kept {K V : Type} (createdAt : V -> Z) (now maxAgeMs : Z)
    (m : JsMap.t K V) : JsMap.t K V :=
  filter (fun kv => negb (now - createdAt (snd kv) >? maxAgeMs)) m.

(** Reference definition: the summary record, written when the sweep
    evicted [calls] calls and [surveys] surveys and one of the two is not
    zero. *)
Definition cleaned_up_summary (calls surveys : nat) : list LogRecord :=
  match calls, surveys with
  | O, O => []
  | _, _ =>
      [mkLog LvlInfo "Cleaned up old active calls and surveys"
         [("cleanedUpCalls", JInt (Z.of_nat calls));
          ("cleanedUpSurveys", JInt (Z.of_nat surveys))]]
  end.

Definition getActiveCallsCount : M Z :=
  let! calls := get_activeCalls in ret (JsMap.size calls).

Definition getActiveSurveysCount : M Z :=
  let! surveys := get_activeSurveys in ret (JsMap.size surveys).

Definition getActiveSurveyIds : M (list JsValue) :=
  let! surveys := get_activeSurveys in ret (JsMap.keys surveys).

Definition status_is (e : ErrorObj) (code : Z) : bool :=
  match err_status e with
  | Some s => s =? code
  | None => false
  end.

(** The errors that [withRetry] does not retry "on certain HTTP status
    codes". *)
Definition permanent (e : ErrorObj) : bool :=
  status_is e 400 || status_is e 401 || status_is e 403.

(** [error.message && error.message.includes('already being processed')]. *)
Definition duplicate (e : ErrorObj) : bool :=
  match err_message e with
  | Some m => negb (String.eqb m "") && includes already_being_processed m
  | None => false
  end.

(** The two tests at the head of the catch block of [withRetry]. *)
Definition rethrow_at_once (error : Exn) : Completion bool :=
  match error with
  | ThrowUndefined =>
      Thrown (ThrowObj (new_TypeError
        "Cannot read properties of undefined (reading 'status')"))
  | ThrowObj e => Returned (permanent e || duplicate e)
  end.

(** [withRetry(operation, maxRetries, baseDelay)]. *)
Definition withRetry {St A : Type} (Math_random : Z -> Q)
    (while_suspended : St -> St) (operation : St -> Completion A * St)
    (maxRetries baseDelay : Z) (st : St)
    : option (Completion A * St * list RetryEvent) :=
  Retry.run rethrow_at_once Math_random while_suspended operation
    maxRetries baseDelay st.

End Retell.

(* ================================================================== *)
(** ** Database client *)
(* ================================================================== *)

Module Db.

(** *** The SQL of the dequeue *)

(** Three-valued conjunction; [None] is SQL [NULL]. *)
Definition sql_and (a b : option bool) : option bool :=
  match a, b with
  | Some false, _ => Some false
  | _, Some false => Some false
  | Some true, Some true => Some true
  | _, _ => None
  end.

Definition IS_TRUE (b : option bool) : bool :=
  match b with
  | Some true => true
  | _ => false
  end.

Definition IS_NOT_TRUE (b : option bool) : bool := negb (IS_TRUE b).

Definition IS_NOT_NULL {A : Type} (x : option A) : bool :=
  match x with
  | Some _ => true
  | None => false
  end.

(** [x <> y] on text, [NULL] when [x] is. *)
Definition text_ne (x : option string) (y : string) : option bool :=
  option_map (fun s => negb (String.eqb s y)) x.

(** Integer [a % b]: the quotient truncates toward zero; [None] is the
    error [division_by_zero]. *)
Definition sql_mod (a b : Z) : option Z :=
  if b =? 0 then None else Some (a - b * (a ÷ b)).

(** [(sr.id % $2) = ($1 - 1)]; [None] when the modulus raises. *)
Definition sql_shard_condition (id shardIndex totalShards : Z)
    : option bool :=
  option_map (fun r => r =? shardIndex - 1) (sql_mod id totalShards).

(** [sr.id <> ALL($3::int[])]. *)
Definition ne_all (id : Z) (excluded : list Z) : bool :=
  forallb (fun x => negb (id =? x)) excluded.

(** [x ILIKE '%word%']: a case-insensitive substring test, [NULL] on
    [NULL]. *)
Definition ILIKE_contains (x : option string) (word : string)
    : option bool :=
  option_map (fun s => includes (lower word) (lower s)) x.

Definition Joined : Type := (SurveyResponseRow * CustomerRow)%type.

(** [FROM survey_responses sr JOIN customers c ON c.id = sr.customer_id]. *)
Definition join (srs : list SurveyResponseRow) (cs : list CustomerRow)
    : list Joined :=
  flat_map (fun sr =>
    map (fun c => (sr, c))
      (filter (fun c =>
         match sr_customer_id sr with
         | Some cid => c_id c =? cid
         | None => false
         end) cs)) srs.

(** The [WHERE] clause; a row passes when the conjunction is true. *)
Definition where_clause (shardIndex totalShards : Z) (excluded : list Z)
    (row : Joined) : bool :=
  let '(sr, c) := row in
  IS_TRUE
    (sql_and (Some (IS_NOT_NULL (c_phone_number c)))
    (sql_and (text_ne (c_phone_number c) "")
    (sql_and (Some (IS_NOT_TRUE (sr_processed sr)))
    (sql_and (Some (IS_NOT_TRUE (sr_data_sent_to_retell sr)))
    (sql_and (Some (IS_TRUE (c_phone_number_validated c)))
    (sql_and (sql_shard_condition (sr_id sr) shardIndex totalShards)
             (Some (ne_all (sr_id sr) excluded)))))))).

(** The [CASE] of the [ORDER BY]: a [WHEN] whose test is [NULL] is not
    taken. *)
Definition urgency_tier (sr : SurveyResponseRow) : Z :=
  if IS_TRUE (ILIKE_contains (sr_operational_frustration sr) "extremely")
  then 1
  else if IS_TRUE (ILIKE_contains (sr_operational_frustration sr) "very")
  then 2
  else if IS_TRUE
            (ILIKE_contains (sr_operational_frustration sr) "frustrated")
  then 3
  else 4.

(** [created_at DESC]: later first, and [NULL] before every value. *)
Definition created_desc_le (a b : option Z) : bool :=
  match a, b with
  | None, _ => true
  | Some _, None => false
  | Some x, Some y => y <=? x
  end.

(** [r1] comes no later than [r2] in the [ORDER BY]. *)
Definition order_le (r1 r2 : Joined) : bool :=
  (urgency_tier (fst r1) <? urgency_tier (fst r2))
  || ((urgency_tier (fst r1) =? urgency_tier (fst r2))
      && created_desc_le (sr_created_at (fst r1)) (sr_created_at (fst r2))).


Fixpoint insert_row (r : Joined) (sorted : list Joined) : list Joined :=
  match sorted with
  | [] => [r]
  | x :: rest =>
      if order_le r x then r :: sorted else x :: insert_row r rest
  end.

(** The sort of [ORDER BY]; rows that tie keep their physical order. *)
Fixpoint order_by (rows : list Joined) : list Joined :=
  match rows with
  | [] => []
  | r :: rest => insert_row r (order_by rest)
  end.

(** [FOR UPDATE SKIP LOCKED] passes over a joined row when a concurrent
    transaction holds either of its two rows. *)
Definition lockable (d : Database) (row : Joined) : bool :=
  negb (existsb (Z.eqb (sr_id (fst row))) (locked_survey_responses d))
  && negb (existsb (Z.eqb (c_id (snd row))) (locked_customers d)).

(** [EXTRACT(DAY FROM (NOW() - sr.created_at))], timestamps in
    milliseconds. *)
Definition days_since (now : Z) (created_at : option Z) : option Z :=
  option_map (fun t => (now - t) ÷ 86400000) created_at.

(** The [SELECT] list. *)
Definition project (d : Database) (row : Joined) : SurveyData :=
  let '(sr, c) := row in
  mkSurveyData (JInt (sr_id sr)) (sr_customer_id sr) (c_name c) (c_email c)
    (c_phone_number c) (sr_business_type sr) (sr_employee_count sr)
    (sr_revenue sr) (sr_operational_frustration sr)
    (sr_time_consuming_tasks sr) (sr_inefficiencies sr)
    (sr_automation_area sr) (sr_one_task_to_automate sr)
    (sr_hours_to_save sr) (sr_growth_obstacle sr) (sr_important_outcome sr)
    (sr_created_at sr) (days_since (db_NOW d) (sr_created_at sr)).

(** An element of the [int[]] parameter: an integer-valued number in the
    range of [int4]. *)
Definition int4 (v : JsValue) : option Z :=
  match v with
  | JInt z =>
      if (-2147483648 <=? z) && (z <=? 2147483647) then Some z else None
  | _ => None
  end.

Fixpoint int4_array (vs : list JsValue) : option (list Z) :=
  match vs with
  | [] => Some []
  | v :: rest =>
      match int4 v, int4_array rest with
      | Some z, Some zs => Some (z :: zs)
      | _, _ => None
      end
  end.

Definition invalid_parameter : ErrorObj :=
  mkError "error" (Some "invalid input for type integer") None
    (Some "22P02").

Definition division_by_zero : ErrorObj :=
  mkError "error" (Some "division by zero") None (Some "22012").

(** The rows that the [WHERE] clause lets through. *)
Definition candidates (d : Database) (shardIndex totalShards : Z)
    (excluded : list Z) : list Joined :=
  filter (where_clause shardIndex totalShards excluded)
    (join (survey_responses d) (customers d)).

(** The dequeue statement on a database.  The modulus raises when there is
    a joined row to test it on and the divisor is zero. *)
Definition select_next (d : Database) (shardIndex totalShards : Z)
    (activeSurveyIds : list JsValue) : Completion (list SurveyData) :=
  match int4_array activeSurveyIds with
  | None => Thrown (ThrowObj invalid_parameter)
  | Some excluded =>
      match totalShards =? 0, join (survey_responses d) (customers d) with
      | true, _ :: _ => Thrown (ThrowObj division_by_zero)
      | _, _ =>
          Returned
            (map (project d)
               (firstn 1
                  (filter (lockable d)
                     (order_by
                        (candidates d shardIndex totalShards excluded)))))
      end
  end.

(** Reference definition, after the wording of the dequeue's contract: a
    joined row is eligible when it is not processed, not marked as sent,
    has a phone number that is present and validated, belongs to this
    shard's partition and is not in the exclusion list. *)
Definition eligible (shardIndex totalShards : Z)
    (activeSurveyIds : list JsValue) (row : Joined) : Prop :=
  let '(sr, c) := row in
  sr_customer_id sr = Some (c_id c)
  /\ sr_processed sr <> Some true
  /\ sr_data_sent_to_retell sr <> Some true
  /\ (exists phone, c_phone_number c = Some phone /\ phone <> "")
  /\ c_phone_number_validated c = Some true
  /\ Sharding.shouldProcessId (sr_id sr) shardIndex totalShards = true
  /\ ~ In (JInt (sr_id sr)) activeSurveyIds.


(** *** The client *)

Definition pool_connect : M unit :=
  fun w =>
    match connect_fault (db w) with
    | Some e => (Thrown (ThrowObj e), w)
    | None => (Returned tt, w)
    end.

Definition client_release : M unit := ret tt.

(** [client.query(statement)]: the rows of the result. *)
Definition client_query (statement : Statement) : M (list SurveyData) :=
  fun w =>
    let w' := set_db_statements (db_statements w ++ [statement]) w in
    match query_fault (db w) statement with
    | Some e => (Thrown (ThrowObj e), w')
    | None =>
        match statement with
        | StSelectNext shardIndex totalShards activeSurveyIds =>
            (select_next (db w) shardIndex totalShards activeSurveyIds, w')
        | _ => (Returned [], w')
        end
    end.

(** The exclusion list built from the in-flight map. *)
Definition activeSurveyIds_of (activeSurveys : JsMap.t JsValue SurveyInfo)
    : list JsValue :=
  filter (fun x => Number_isInteger x) (JsMap.keys activeSurveys).

(** [getNextSurveyResponse(shardIndex, totalShards, activeSurveys)];
    [None] is [null]. *)
Definition getNextSurveyResponse (shardIndex totalShards : Z)
    (activeSurveys : JsMap.t JsValue SurveyInfo) : M (option SurveyData) :=
  pool_connect ;;
  try_finally
    (try_catch
       (client_query StBegin ;;
        let activeSurveyIds := activeSurveyIds_of activeSurveys in
        let! rows :=
          client_query (StSelectNext shardIndex totalShards activeSurveyIds) in
        client_query StCommit ;;
        match rows with
        | [] =>
            logger LvlDebug
              "No eligible survey responses found for this shard"
              [("shardIndex", JInt shardIndex);
               ("totalShards", JInt totalShards)] ;;
            ret None
        | row :: _ => ret (Some row)
        end)
       (fun error =>
          client_query StRollback ;;
          logger LvlError "Failed to get next survey response"
            [("shardIndex", JInt shardIndex);
             ("totalShards", JInt totalShards)] ;;
          throw error))
    client_release.

Definition code_is (e : ErrorObj) (code : string) : bool :=
  match err_code e with
  | Some c => String.eqb c code
  | None => false
  end.

(** Unique violation and foreign key violation are not retried. *)
Definition rethrow_at_once (error : Exn) : Completion bool :=
  match error with
  | ThrowUndefined =>
      Thrown (ThrowObj (new_TypeError
        "Cannot read properties of undefined (reading 'code')"))
  | ThrowObj e => Returned (code_is e "23505" || code_is e "23503")
  end.

(** [withRetry(operation, maxRetries, baseDelay)] of the database client. *)
Definition withRetry {St A : Type} (Math_random : Z -> Q)
    (while_suspended : St -> St) (operation : St -> Completion A * St)
    (maxRetries baseDelay : Z) (st : St)
    : option (Completion A * St * list RetryEvent) :=
  Retry.run rethrow_at_once Math_random while_suspended operation
    maxRetries baseDelay st.

End Db.

(* ================================================================== *)
(** ** The processing loop *)
(* ================================================================== *)

Module Caller.

(** [retryOperation(operation, maxRetries, baseDelay)]: every error is
    retried. *)
Definition retryOperation {St A : Type} (Math_random : Z -> Q)
    (while_suspended : St -> St) (operation : St -> Completion A * St)
    (maxRetries baseDelay : Z) (st : St)
    : option (Completion A * St * list RetryEvent) :=
  Retry.run (fun _ => Returned false) Math_random while_suspended operation
    maxRetries baseDelay st.

Definition status_is_permanent (error : Exn) : bool :=
  match error with
  | ThrowObj e => Retell.permanent e
  | ThrowUndefined => false
  end.

Definition is_duplicate (error : Exn) : bool :=
  match error with
  | ThrowObj e => Retell.duplicate e
  | ThrowUndefined => false
  end.

(** The catch block of [processSingleSurvey]. *)
Definition processSingleSurvey_catch (surveyData : SurveyData)
    (error : Exn) : M JsValue :=
  let surveyId := survey_id surveyData in
  match error with
  | ThrowUndefined =>
      throw (ThrowObj (new_TypeError
        "Cannot read properties of undefined (reading 'message')"))
  | ThrowObj e =>
      if is_duplicate error then
        logger LvlDebug
          "Survey already being processed by another instance - skipping"
          [("surveyId", surveyId);
           ("customerName", text (customer_name surveyData))] ;;
        ret JUndefined
      else
        logger LvlError "Failed to process survey response"
          [("surveyId", surveyId);
           ("customerName", text (customer_name surveyData))] ;;
        (if status_is_permanent error then
           logger LvlWarn "Permanent error - survey will not be retried"
             [("surveyId", surveyId);
              ("errorStatus", match err_status e with
                              | Some status => JInt status
                              | None => JUndefined
                              end)]
         else ret tt) ;;
        ret JUndefined
  end.

(** [processSingleSurvey(surveyData)]; [None] when the retry loop runs out
    of fuel.  The retry events of the dispatch are returned next to the
    completion. *)
Definition processSingleSurvey (Math_random : Z -> Q)
    (while_suspended : World -> World) (surveyData : SurveyData)
    (w : World) : option (Completion JsValue * World * list RetryEvent) :=
  let surveyId := survey_id surveyData in
  match Retell.isSurveyBeingProcessed surveyId w with
  | (Returned true, w1) =>
      let '(r, w2) :=
        (logger LvlDebug "Survey is already being processed - skipping"
           [("surveyId", surveyId);
            ("customerName", text (customer_name surveyData))] ;;
         ret JUndefined) w1 in
      Some (r, w2, [])
  | (Returned false, w1) =>
      let '(_, w2) :=
        logger LvlInfo "Processing survey response"
          [("surveyId", surveyId);
           ("customerName", text (customer_name surveyData));
           ("phoneNumber", text (client_phone_number surveyData))] w1 in
      match Retell.withRetry Math_random while_suspended
              (Retell.createPhoneCall surveyData) 3 2000 w2 with
      | None => None
      | Some (Returned callResponse, w3, evs) =>
          let '(r, w4) :=
            (logger LvlInfo
               "Retell call created successfully - waiting for webhook completion"
               [("surveyId", surveyId);
                ("callId", JStr (call_id callResponse));
                ("agentId", text (agent_id callResponse))] ;;
             ret JUndefined) w3 in
          Some (r, w4, evs)
      | Some (Thrown error, w3, evs) =>
          let '(r, w4) := processSingleSurvey_catch surveyData error w3 in
          Some (r, w4, evs)
      end
  | (Thrown error, w1) =>
      let '(r, w2) := processSingleSurvey_catch surveyData error w1 in
      Some (r, w2, [])
  end.

(** [processSurveyResponses()]: one cycle of the processing loop. *)
Definition processSurveyResponses (Math_random : Z -> Q)
    (while_suspended : World -> World) (w : World)
    : option (Completion JsValue * World * list RetryEvent) :=
  if isShuttingDown w then Some (Returned JUndefined, w, [])
  else
    let on_error (w' : World) (evs : list RetryEvent) :=
      let '(_, w'') :=
        logger LvlError "Error in survey processing loop" [] w' in
      Some (Returned JUndefined, w'', evs) in
    match shard_info w with
    | Thrown _ => on_error w []
    | Returned info =>
        let shardIndex := Sharding.shardIndex info in
        let totalShards := Sharding.totalShards info in
        let '(_, w1) :=
          logger LvlInfo "Processing survey responses for shard"
            [("shardIndex", JInt shardIndex);
             ("totalShards", JInt totalShards)] w in
        match Db.getNextSurveyResponse shardIndex totalShards
                (activeSurveys (retellClient w1)) w1 with
        | (Thrown _, w2) => on_error w2 []
        | (Returned None, w2) =>
            let '(_, w3) :=
              logger LvlDebug
                "No eligible survey responses found for this shard"
                [("shardIndex", JInt shardIndex);
                 ("totalShards", JInt totalShards)] w2 in
            Some (Returned JUndefined, w3, [])
        | (Returned (Some surveyData), w2) =>
            match processSingleSurvey Math_random while_suspended
                    surveyData w2 with
            | None => None
            | Some (Returned v, w3, evs) => Some (Returned v, w3, evs)
            | Some (Thrown _, w3, evs) => on_error w3 evs
            end
        end
    end.

(** [cleanupOldCalls()] of the processing loop: the sweep with the default
    age of 30 minutes, errors logged. *)
Definition cleanupOldCalls : M JsValue :=
  try_catch
    (Retell.cleanupOldCalls (30 * 60 * 1000) ;; ret JUndefined)
    (fun error =>
       logger LvlError "Error during call cleanup" [] ;; ret JUndefined).

End Caller.

(* ================================================================== *)
(** ** Sample data *)
(* ================================================================== *)

Module Examples.

Definition minute : Z := 60 * 1000.

Definition now0 : Z := 100 * minute.

Definition server_error : ErrorObj :=
  mkError "Error" (Some "Internal Server Error") (Some 500) None.

Definition bad_request : ErrorObj :=
  mkError "Error" (Some "Bad Request") (Some 400) None.

(** A remote API that accepts every call. *)
Definition service_up (n : nat) (payload : CallPayload)
    : Completion PhoneCallResponse :=
  Returned (mkPhoneCallResponse ("call_" ++ metadata_survey_id payload)
              (Some (override_agent_id payload))).

(** A remote API that is down. *)
Definition service_down (n : nat) (payload : CallPayload)
    : Completion PhoneCallResponse :=
  Thrown (ThrowObj server_error).

(** A remote API that fails the first request and accepts the others. *)
Definition service_flaky (n : nat) (payload : CallPayload)
    : Completion PhoneCallResponse :=
  match n with
  | O => Thrown (ThrowObj server_error)
  | S _ => service_up n payload
  end.

Definition survey (id customer : Z) (frustration : option string)
    (created_at : Z) : SurveyResponseRow :=
  mkSurveyResponseRow id (Some customer) (Some "retail") None None
    frustration None None None None None None None (Some created_at)
    None None.

Definition sr5 : SurveyResponseRow :=
  survey 5 1 (Some "Very frustrated with invoicing") 1000.
Definition sr6 : SurveyResponseRow :=
  survey 6 1 (Some "Extremely annoying") 3000.
Definition sr7 : SurveyResponseRow :=
  survey 7 2 (Some "EXTREMELY slow reporting") 900.
Definition sr9 : SurveyResponseRow := survey 9 1 None 2000.

Definition c1 : CustomerRow :=
  mkCustomerRow 1 (Some "Ada") (Some "ada@example.com") (Some "+15550001")
    (Some true).
Definition c2 : CustomerRow :=
  mkCustomerRow 2 (Some "Bob") None (Some "+15550002") (Some true).

Definition database0 : Database :=
  mkDatabase [sr5; sr6; sr7; sr9] [c1; c2] [] [] now0 None (fun _ => None).

(** The same tables while a peer holds the row of survey 7. *)
Definition database_peer_lock : Database :=
  mkDatabase [sr5; sr6; sr7; sr9] [c1; c2] [7] [] now0 None (fun _ => None).

Definition client0 : RetellClient :=
  mkRetellClient "+17787691188" "agent_826371748c85ca36277cae28c2" [] [].

Definition shard_2_of_2 : Sharding.ShardInfo := Sharding.mkShardInfo 2 2.

Definition world0 : World :=
  mkWorld client0 false now0 [] service_up [] database0 []
    (Returned shard_2_of_2).

Definition tracked (callId : string) (age : Z) : SurveyInfo :=
  mkSurveyInfo callId (now0 - age) (Some "Ada") (Some "+15550001").

Definition correlated (surveyId : Z) (age : Z) : CallInfo :=
  mkCallInfo (JInt surveyId) (now0 - age) (Some "Ada") (Some "+15550001").

(** Survey 5 is in flight. *)
Definition client_tracking_5 : RetellClient :=
  mkRetellClient "+17787691188" "agent_826371748c85ca36277cae28c2"
    [("call_5", correlated 5 minute)] [(JInt 5, tracked "call_5" minute)].

Definition world_tracking_5 : World :=
  mkWorld client_tracking_5 false now0 [] service_up [] database0 []
    (Returned shard_2_of_2).

(** Survey 7 is in flight, tracked under the string "7". *)
Definition client_tracking_string_7 : RetellClient :=
  mkRetellClient "+17787691188" "agent_826371748c85ca36277cae28c2"
    [("call_7", correlated 7 minute)] [(JStr "7", tracked "call_7" minute)].

(** Entries aged 10, 31 and 45 minutes in both maps. *)
Definition client_aged : RetellClient :=
  mkRetellClient "+17787691188" "agent_826371748c85ca36277cae28c2"
    [("call_a", correlated 1 (10 * minute));
     ("call_b", correlated 2 (31 * minute));
     ("call_c", correlated 3 (45 * minute))]
    [(JInt 1, tracked "call_a" (10 * minute));
     (JInt 2, tracked "call_b" (31 * minute));
     (JInt 3, tracked "call_c" (45 * minute))].

Definition world_aged : World :=
  mkWorld client_aged false now0 [] service_up [] database0 []
    (Returned shard_2_of_2).

(** The shutdown flag is set and the remote API is down. *)
Definition world_shutting_down : World :=
  mkWorld client0 true now0 [] service_down [] database0 []
    (Returned shard_2_of_2).

Definition half : Z -> Q := fun _ => (1 # 2)%Q.

(** An operation that always fails with a server error. *)
Definition always_failing {St : Type} (st : St) : Completion string * St :=
  (Thrown (ThrowObj server_error), st).

(** An operation on a call counter that fails twice, then succeeds. *)
Definition third_time_lucky (calls : nat) : Completion string * nat :=
  match calls with
  | O | S O => (Thrown (ThrowObj server_error), S calls)
  | _ => (Returned "done", S calls)
  end.

(** An operation that is refused with a permanent status. *)
Definition refused (calls : nat) : Completion string * nat :=
  (Thrown (ThrowObj bad_request), S calls).

Definition survey_data_5 : SurveyData := Db.project database0 (sr5, c1).

End Examples.

(* ================================================================== *)
(** ** Reference definitions for the enumeration of a shard *)
(* ================================================================== *)

(** The [count] consecutive integers from [first] on. *)
Definition ids_from (first : Z) (count : nat) : list Z :=
  map (fun k => first + Z.of_nat k) (seq 0 count).

(** The smallest positive id of the shard [index] of [total]. *)
Definition first_id_of_shard (index total : Z) : Z :=
  if index =? 1 then total else index - 1.

(* ================================================================== *)
(** ** Sharding manager: membership discovery *)
(* ================================================================== *)

Module Membership.

(** A pod of the listing, with the two properties that are read. *)
Record Pod : Type := mkPod {
  metadata_name : string;
  status_phase : string
}.

(** The fields of a [ShardingManager]; [None] is [undefined] for [podName]
    and [null] for the two cache fields. *)
Record Manager : Type := mkManager {
  podName : option string;
  podNamespace : string;
  daemonSetName : string;
  shardInfo : option Sharding.ShardInfo;
  lastShardUpdate : option Z;
  shardCacheTtl : Z
}.

(** The constructor, given [POD_NAME], [POD_NAMESPACE] and
    [DAEMONSET_NAME] of the environment. *)
Definition new_ShardingManager (POD_NAME POD_NAMESPACE DAEMONSET_NAME
    : option string) : Manager :=
  mkManager POD_NAME
    (match POD_NAMESPACE with
     | Some ns => if String.eqb ns "" then "default" else ns
     | None => "default"
     end)
    (match DAEMONSET_NAME with
     | Some ds => if String.eqb ds "" then "retell-caller" else ds
     | None => "retell-caller"
     end)
    None None 60000.

Definition set_cache (info : Sharding.ShardInfo) (now : Z) (m : Manager)
    : Manager :=
  mkManager (podName m) (podNamespace m) (daemonSetName m) (Some info)
    (Some now) (shardCacheTtl m).

Fixpoint insert_name (name : string) (sorted : list string) : list string :=
  match sorted with
  | [] => [name]
  | x :: rest =>
      if String.leb name x then name :: sorted else x :: insert_name name rest
  end.

(** [names.sort()]: the default order of strings, by code unit. *)
Fixpoint sort (names : list string) : list string :=
  match names with
  | [] => []
  | name :: rest => insert_name name (sort rest)
  end.

(** [pods.indexOf(name)], [-1] when absent. *)
Fixpoint indexOf_from (position : Z) (name : string) (pods : list string) : Z :=
  match pods with
  | [] => -1
  | x :: rest =>
      if String.eqb x name then position
      else indexOf_from (position + 1) name rest
  end.

(** [pods.indexOf(this.podName)]; an [undefined] name equals no string. *)
Definition indexOf (name : option string) (pods : list string) : Z :=
  match name with
  | Some n => indexOf_from 0 n pods
  | None => -1
  end.

(** The names of the running pods, sorted. *)
Definition running_pods (items : list Pod) : list string :=
  sort (map metadata_name
          (filter (fun pod => String.eqb (status_phase pod) "Running") items)).

(** The cached value is served when all three conjuncts are truthy; a
    timestamp of 0 is not. *)
Definition cache_is_fresh (now : Z) (m : Manager) : bool :=
  match shardInfo m, lastShardUpdate m with
  | Some _, Some updated =>
      negb (updated =? 0) && (now - updated <? shardCacheTtl m)
  | _, _ => false
  end.

(** [this.podName] as a value: [undefined] when [POD_NAME] is not set. *)
Definition this_podName (m : Manager) : JsValue :=
  match podName m with
  | Some n => JStr n
  | None => JUndefined
  end.

(** The catch block of [getShardInfo]. *)
Definition getShardInfo_catch (error : Exn) (m : Manager)
    : Completion Sharding.ShardInfo * Manager * list LogRecord :=
  let failed :=
    mkLog LvlError "Failed to get shard information"
      [("podName", this_podName m); ("namespace", JStr (podNamespace m))] in
  match shardInfo m with
  | Some cached =>
      (Returned cached, m,
       [failed; mkLog LvlWarn "Using cached shard info due to API error" []])
  | None => (Thrown error, m, [failed])
  end.

(** The [try] block of [getShardInfo] with its catch block: the listing is
    fetched and the position of this pod computed.
    [listNamespacedPod namespace selector] is the answer of the cluster API,
    the [items] of its body. *)
Definition getShardInfo_refresh (now : Z)
    (listNamespacedPod : string -> string -> Completion (list Pod))
    (m : Manager)
    : Completion Sharding.ShardInfo * Manager * list LogRecord :=
  let labelSelector := ("app=" ++ daemonSetName m)%string in
  match listNamespacedPod (podNamespace m) labelSelector with
  | Thrown error => getShardInfo_catch error m
  | Returned items =>
      let pods := running_pods items in
      let totalShards := Z.of_nat (List.length pods) in
      let shardIndex := indexOf (podName m) pods + 1 in
      if shardIndex =? 0 then
        getShardInfo_catch
          (ThrowObj (new_Error
             ("Current pod " ++ template (this_podName m)
              ++ " not found in running pods list"))) m
      else
        let info := Sharding.mkShardInfo shardIndex totalShards in
        (Returned info, set_cache info now m,
         [mkLog LvlInfo "Updated shard information"
            [("podName", this_podName m); ("shardIndex", JInt shardIndex);
             ("totalShards", JInt totalShards)]])
  end.

(** [getShardInfo()] at time [now]. *)
Definition getShardInfo (now : Z)
    (listNamespacedPod : string -> string -> Completion (list Pod))
    (m : Manager)
    : Completion Sharding.ShardInfo * Manager * list LogRecord :=
  match cache_is_fresh now m, shardInfo m with
  | true, Some cached => (Returned cached, m, [])
  | _, _ => getShardInfo_refresh now listNamespacedPod m
  end.

(** [!this.podName]: unset or empty. *)
Definition podName_missing (m : Manager) : bool :=
  match podName m with
  | Some n => String.eqb n ""
  | None => true
  end.

(** [validateShardConfig()]. *)
Definition validateShardConfig (now : Z)
    (listNamespacedPod : string -> string -> Completion (list Pod))
    (m : Manager) : bool * Manager * list LogRecord :=
  if podName_missing m then
    (false, m, [mkLog LvlError "POD_NAME environment variable not set" []])
  else
    match getShardInfo now listNamespacedPod m with
    | (Returned info, m', logs) =>
        let shardIndex := Sharding.shardIndex info in
        let totalShards := Sharding.totalShards info in
        if (shardIndex <? 1) || (shardIndex >? totalShards) then
          (false, m',
           logs ++ [mkLog LvlError "Invalid shard index"
                      [("shardIndex", JInt shardIndex);
                       ("totalShards", JInt totalShards)]])
        else if totalShards <? 1 then
          (false, m',
           logs ++ [mkLog LvlError "Invalid total shards count"
                      [("totalShards", JInt totalShards)]])
        else
          (true, m',
           logs ++ [mkLog LvlInfo "Shard configuration validated successfully"
                      [("shardIndex", JInt shardIndex);
                       ("totalShards", JInt totalShards)]])
    | (Thrown _, m', logs) =>
        (false, m',
         logs ++ [mkLog LvlError "Failed to validate shard configuration" []])
    end.

(** Reference definitions: a shard pair in range, and a manager whose cache
    holds nothing or a pair in range. *)
Definition in_range (info : Sharding.ShardInfo) : Prop :=
  1 <= Sharding.shardIndex info <= Sharding.totalShards info.

Definition cache_in_range (m : Manager) : Prop :=
  match shardInfo m with
  | Some info => in_range info
  | None => True
  end.

(** Reference definitions: a list of names in the order of [sort], and the
    number of names that come strictly before a given one. *)
Definition names_sorted : list string -> Prop :=
  StronglySorted (fun a b => String.leb a b = true).

Definition names_before (name : string) (names : list string) : nat :=
  List.length (filter (fun n => String.ltb n name) names).

End Membership.

(* ================================================================== *)
(** ** Reference definitions for a dispatch *)
(* ================================================================== *)

(** The request that [createPhoneCall] builds for a survey whose id renders
    as [sid]. *)
Definition call_payload (c : RetellClient) (surveyData : SurveyData)
    (sid : string) : CallPayload :=
  mkCallPayload (fromNumber c) (client_phone_number surveyData)
    (mkDynamicVariables
       (customer_name surveyData)
       (client_phone_number surveyData)
       (client_email surveyData)
       (business_type surveyData)
       (revenue surveyData)
       (operational_frustration surveyData)
       (inefficiencies surveyData)
       (one_task_to_automate surveyData)
       (important_outcome surveyData)
       (survey_date surveyData))
    sid (agentId c).

(** The client after a call [response] was accepted for [surveyData] at
    time [now]. *)
Definition client_tracking (c : RetellClient) (surveyData : SurveyData)
    (response : PhoneCallResponse) (now : Z) : RetellClient :=
  mkRetellClient (fromNumber c) (agentId c)
    (JsMap.set String.eqb (call_id response)
       (mkCallInfo (survey_id surveyData) now (customer_name surveyData)
          (client_phone_number surveyData))
       (activeCalls c))
    (JsMap.set JsValue_eqb (survey_id surveyData)
       (mkSurveyInfo (call_id response) now (customer_name surveyData)
          (client_phone_number surveyData))
       (activeSurveys c)).

(* ================================================================== *)
(** ** The retry helpers, side by side *)
(* ================================================================== *)

(** The three retry helpers of the service. *)
Inductive Helper : Type :=
| RetellWithRetry
| DbWithRetry
| RetryOperation.

Definition retry_helper (h : Helper) {St A : Type} (Math_random : Z -> Q)
    (while_suspended : St -> St) (operation : St -> Completion A * St)
    (maxRetries baseDelay : Z) (st : St)
    : option (Completion A * St * list RetryEvent) :=
  match h with
  | RetellWithRetry =>
      Retell.withRetry Math_random while_suspended operation maxRetries
        baseDelay st
  | DbWithRetry =>
      Db.withRetry Math_random while_suspended operation maxRetries
        baseDelay st
  | RetryOperation =>
      Caller.retryOperation Math_random while_suspended operation maxRetries
        baseDelay st
  end.

(** The time a retry spends on its timers, in milliseconds. *)
Definition total_sleep (evs : list RetryEvent) : Q :=
  fold_right Qplus 0%Q (Retry.sleeps evs).

(* ================================================================== *)
(** ** Start-up *)
(* ================================================================== *)

Module Startup.

(** [process.env]: the value of a variable, [None] when it is not set. *)
Definition Env : Type := string -> option string.

Definition required : list string :=
  ["DB_HOST"; "DB_PORT"; "DB_NAME"; "POSTGRES_USER"; "POSTGRES_PASSWORD";
   "RETELL_API_KEY"; "POD_NAME"].

(** [!process.env[env]]: not set, or set to the empty string. *)
Definition not_set (env : Env) (name : string) : bool :=
  match env name with
  | Some v => String.eqb v ""
  | None => true
  end.

(** [validateEnvironment()]. *)
Definition validateEnvironment (env : Env) : M JsValue :=
  let missing := filter (not_set env) required in
  if Z.of_nat (List.length missing) >? 0 then
    throw (ThrowObj (new_Error
      ("Missing required environment variables: "
       ++ String.concat ", " missing)%string))
  else
    logger LvlInfo "Environment validation passed" [] ;;
    ret JUndefined.

(** [new ShardingManager()] in that environment. *)
Definition shardingManager (env : Env) : Membership.Manager :=
  Membership.new_ShardingManager (env "POD_NAME") (env "POD_NAMESPACE")
    (env "DAEMONSET_NAME").

End Startup.

(* ================================================================== *)
(** ** Properties of the sharding manager *)
(* ================================================================== *)

Import Sharding.

Lemma shouldProcessId_spec (id index total : Z) :
  total <> 0 ->
  shouldProcessId id index total = true <-> Z.rem id total = index - 1.
Proof.
  intros Ht. unfold shouldProcessId, js_rem, strict_eq_num.
  destruct (Z.eqb_spec total 0) as [E | _]; [contradiction |].
  apply Z.eqb_eq.
Qed.

(** C1. For id >= 0 and total >= 1, [shouldProcessId id index total] holds
    exactly when [id mod total = index - 1] for every index in [1, total];
    hence exactly one index in that range owns the id; and
    [shouldProcessId 7 2 2] holds while [shouldProcessId 8 2 2] does not. *)
Theorem shouldProcessId_partition (id total : Z) :
  0 <= id -> 1 <= total ->
  (forall index, 1 <= index <= total ->
     (shouldProcessId id index total = true <-> id mod total = index - 1))
  /\ (exists! index,
        1 <= index <= total /\ shouldProcessId id index total = true)
  /\ shouldProcessId 7 2 2 = true
  /\ shouldProcessId 8 2 2 = false.
Proof.
  intros Hid Htot.
  assert (Hrem : Z.rem id total = id mod total)
    by (apply Z.rem_mod_nonneg; lia).
  assert (Hspec : forall index,
            shouldProcessId id index total = true <-> id mod total = index - 1).
  { intro index. rewrite <- Hrem. apply shouldProcessId_spec. lia. }
  split; [intros index _; apply Hspec |].
  split; [| split; reflexivity].
  pose proof (Z.mod_pos_bound id total ltac:(lia)) as Hb.
  exists (id mod total + 1). split.
  - split; [lia |]. apply Hspec. lia.
  - intros index [_ Hi]. apply Hspec in Hi. lia.
Qed.

Lemma shouldProcessId_partition_witness :
  (0 <= 7 /\ 1 <= 2) /\
  (exists! index, 1 <= index <= 2 /\ shouldProcessId 7 index 2 = true).
Proof.
  split; [lia |].
  apply (shouldProcessId_partition 7 2); lia.
Defined.

(** *** Shard monitoring *)

Section Monitoring.
Variable cb : ShardChange -> Completion unit.
Hypothesis cb_returns : forall change, cb change = Returned tt.



End Monitoring.




(** *** Example enumeration and the SQL shard condition *)

Lemma getExampleIds_loop_sound (maxExamples : Z) (info : ShardInfo) :
  forall fuel i examples ids,
    getExampleIds_loop fuel maxExamples info i examples = Some ids ->
    Forall (fun x => shouldProcessId x (shardIndex info) (totalShards info)
                     = true) examples ->
    Forall (fun x => shouldProcessId x (shardIndex info) (totalShards info)
                     = true) ids.
Proof.
  induction fuel as [| fuel IH]; intros i examples ids Hrun Hex;
    [discriminate |].
  cbn [getExampleIds_loop] in Hrun.
  destruct (i <=? maxExamples * totalShards info).
  - destruct (shouldProcessId i (shardIndex info) (totalShards info)) eqn:Hi.
    + assert (Hex' : Forall (fun x => shouldProcessId x (shardIndex info)
                                        (totalShards info) = true)
                       (examples ++ [i])).
      { apply Forall_app. split; [exact Hex | constructor; [exact Hi | constructor]]. }
      destruct (Z.of_nat (List.length (examples ++ [i])) >=? maxExamples).
      * injection Hrun as <-. exact Hex'.
      * eapply IH; eassumption.
    + eapply IH; eassumption.
  - injection Hrun as <-. exact Hex.
Qed.

Lemma getExampleIds_loop_total (maxExamples : Z) (info : ShardInfo) :
  forall fuel i examples,
    (Z.to_nat (maxExamples * totalShards info + 1 - i) < fuel)%nat ->
    exists ids, getExampleIds_loop fuel maxExamples info i examples = Some ids.
Proof.
  induction fuel as [| fuel IH]; intros i examples Hfuel; [lia |].
  cbn [getExampleIds_loop].
  destruct (Z.leb_spec i (maxExamples * totalShards info)) as [Hle | Hgt].
  - assert (Hnext : (Z.to_nat (maxExamples * totalShards info + 1 - (i + 1))
                     < fuel)%nat) by lia.
    destruct (shouldProcessId i (shardIndex info) (totalShards info)).
    + destruct (Z.of_nat (List.length (examples ++ [i])) >=? maxExamples);
        [eexists; reflexivity | apply IH; exact Hnext].
    + apply IH; exact Hnext.
  - eexists; reflexivity.
Qed.

Lemma sql_mod_rem (a b : Z) : Db.sql_mod a b = js_rem a b.
Proof.
  unfold Db.sql_mod, js_rem. destruct (Z.eqb_spec b 0) as [E | N];
    [reflexivity |].
  f_equal. pose proof (Z.quot_rem' a b). lia.
Qed.

Lemma sql_shard_condition_shouldProcessId (id index total : Z) :
  Db.sql_shard_condition id index total = Some true
  <-> shouldProcessId id index total = true.
Proof.
  unfold Db.sql_shard_condition, shouldProcessId. rewrite sql_mod_rem.
  destruct (js_rem id total) as [r |]; cbn.
  - split; [intro H; injection H as H; exact H | intros ->; reflexivity].
  - split; discriminate.
Qed.

(** C9. For total >= 1 and 1 <= index <= total, the SQL shard condition
    [(sr.id % totalShards) = (shardIndex - 1)] is true exactly when
    [shouldProcessId] is, every row that the [WHERE] clause of the dequeue
    lets through satisfies [shouldProcessId], and [getExampleIds] returns a
    list whose every id satisfies [shouldProcessId] for that shard. *)
Theorem shard_filter_agrees (id index total : Z) :
  1 <= total -> 1 <= index <= total ->
  (Db.sql_shard_condition id index total = Some true
   <-> shouldProcessId id index total = true)
  /\ (forall excluded row,
        Db.where_clause index total excluded row = true ->
        shouldProcessId (sr_id (fst row)) index total = true)
  /\ (forall maxExamples,
        exists ids,
          getExampleIds (Returned (mkShardInfo index total)) maxExamples
          = Some ids
          /\ Forall (fun x => shouldProcessId x index total = true) ids).
Proof.
  intros Htotal Hindex.
  split; [apply sql_shard_condition_shouldProcessId |].
  split.
  - intros excluded [sr c] Hw. cbn [fst].
    apply sql_shard_condition_shouldProcessId.
    unfold Db.where_clause in Hw.
    destruct (Db.sql_shard_condition (sr_id sr) index total) as [[|] |];
      [reflexivity | exfalso | exfalso];
      destruct (Db.IS_NOT_NULL (c_phone_number c));
      destruct (Db.text_ne (c_phone_number c) "") as [[|] |];
      destruct (Db.IS_NOT_TRUE (sr_processed sr));
      destruct (Db.IS_NOT_TRUE (sr_data_sent_to_retell sr));
      destruct (Db.IS_TRUE (c_phone_number_validated c));
      destruct (Db.ne_all (sr_id sr) excluded);
      discriminate Hw.
  - intro maxExamples. unfold getExampleIds.
    destruct (getExampleIds_loop_total maxExamples (mkShardInfo index total)
                (getExampleIds_fuel maxExamples (mkShardInfo index total))
                1 []) as [ids Hids].
    { unfold getExampleIds_fuel. cbn [totalShards]. lia. }
    exists ids. split; [exact Hids |].
    change (Forall (fun x => shouldProcessId x
                       (shardIndex (mkShardInfo index total))
                       (totalShards (mkShardInfo index total)) = true) ids).
    eapply getExampleIds_loop_sound; [exact Hids | constructor].
Qed.

Lemma shard_filter_agrees_witness :
  (1 <= 3 /\ 1 <= 2 <= 3) /\
  (Db.sql_shard_condition 7 2 3 = Some true
   <-> shouldProcessId 7 2 3 = true).
Proof.
  split; [lia |].
  apply (shard_filter_agrees 7 2 3); lia.
Defined.

(* ================================================================== *)
(** ** Properties of the tracking maps *)
(* ================================================================== *)

Lemma JsValue_eqb_eq (a b : JsValue) : JsValue_eqb a b = true <-> a = b.
Proof.
  destruct a, b; cbn; split; intro H; try discriminate H; try reflexivity.
  - apply Bool.eqb_prop in H. now subst.
  - injection H as ->. apply Bool.eqb_reflx.
  - apply Z.eqb_eq in H. now subst.
  - injection H as ->. apply Z.eqb_refl.
  - apply Bool.eqb_prop in H. now subst.
  - injection H as ->. apply Bool.eqb_reflx.
  - apply String.eqb_eq in H. now subst.
  - injection H as ->. apply String.eqb_refl.
Qed.

Section MapFacts.
Context {K V : Type}.
Variable eqb : K -> K -> bool.
Hypothesis eqb_eq : forall a b, eqb a b = true <-> a = b.

Lemma eqb_refl_true (k : K) : eqb k k = true.
Proof. now apply eqb_eq. Qed.

Lemma eqb_neq_false (a b : K) : a <> b -> eqb a b = false.
Proof.
  intro N. destruct (eqb a b) eqn:E; [| reflexivity].
  apply eqb_eq in E. contradiction.
Qed.

Lemma get_Some_In (k : K) (v : V) (m : JsMap.t K V) :
  JsMap.get eqb k m = Some v -> In (k, v) m.
Proof.
  induction m as [| [k' v'] rest IH]; cbn; [discriminate |].
  destruct (eqb k k') eqn:E.
  - intro H. injection H as ->. apply eqb_eq in E. subst. now left.
  - intro H. right. now apply IH.
Qed.

Lemma has_true_iff (k : K) (m : JsMap.t K V) :
  JsMap.has eqb k m = true <-> In k (JsMap.keys m).
Proof.
  unfold JsMap.has, JsMap.keys.
  induction m as [| [k' v'] rest IH]; cbn.
  - split; [discriminate | contradiction].
  - destruct (eqb k k') eqn:E.
    + apply eqb_eq in E. subst. split; [now left | reflexivity].
    + rewrite IH. split; [now right |].
      intros [-> | H]; [| exact H].
      rewrite eqb_refl_true in E. discriminate.
Qed.

Lemma In_unique_get (k : K) (v : V) (m : JsMap.t K V) :
  JsMap.unique_keys eqb m = true -> In (k, v) m ->
  JsMap.get eqb k m = Some v.
Proof.
  induction m as [| [k' v'] rest IH]; cbn; [contradiction |].
  intros Hu Hin. apply andb_true_iff in Hu as [Hk Hu].
  destruct Hin as [E | Hin].
  - injection E as -> ->. now rewrite eqb_refl_true.
  - destruct (eqb k k') eqn:E.
    + apply eqb_eq in E. subst k'.
      assert (Hhas : JsMap.has eqb k rest = true).
      { apply has_true_iff. unfold JsMap.keys.
        change k with (fst (k, v)). now apply in_map. }
      rewrite Hhas in Hk. discriminate.
    + now apply IH.
Qed.

Lemma get_delete_other (k k' : K) (m : JsMap.t K V) :
  k <> k' -> JsMap.get eqb k (JsMap.delete eqb k' m) = JsMap.get eqb k m.
Proof.
  intro N. unfold JsMap.delete.
  induction m as [| [k0 v0] rest IH]; cbn; [reflexivity |].
  destruct (eqb k' k0) eqn:E; cbn.
  - apply eqb_eq in E. subst k0. rewrite (eqb_neq_false k k' N). exact IH.
  - destruct (eqb k k0); [reflexivity | exact IH].
Qed.

Lemma unique_keys_filter (p : K * V -> bool) (m : JsMap.t K V) :
  JsMap.unique_keys eqb m = true ->
  JsMap.unique_keys eqb (filter p m) = true.
Proof.
  induction m as [| [k v] rest IH]; cbn; [reflexivity |].
  intro Hu. apply andb_true_iff in Hu as [Hk Hu].
  destruct (p (k, v)); cbn; [| now apply IH].
  apply andb_true_iff. split; [| now apply IH].
  apply negb_true_iff. apply negb_true_iff in Hk.
  destruct (JsMap.has eqb k (filter p rest)) eqn:Hhas; [| reflexivity].
  apply has_true_iff in Hhas. unfold JsMap.keys in Hhas.
  apply in_map_iff in Hhas as [[k0 v0] [Hfst Hin]]. cbn in Hfst. subst k0.
  apply filter_In in Hin as [Hin _].
  assert (Hr : JsMap.has eqb k rest = true).
  { apply has_true_iff. unfold JsMap.keys.
    change k with (fst (k, v0)). now apply in_map. }
  rewrite Hr in Hk. discriminate.
Qed.

(** [set] and [delete] keep the invariant. *)
Lemma unique_keys_delete (k : K) (m : JsMap.t K V) :
  JsMap.unique_keys eqb m = true ->
  JsMap.unique_keys eqb (JsMap.delete eqb k m) = true.
Proof. apply unique_keys_filter. Qed.

Lemma keys_set (k : K) (v : V) (m : JsMap.t K V) :
  JsMap.keys (JsMap.set eqb k v m)
  = if JsMap.has eqb k m then JsMap.keys m else JsMap.keys m ++ [k].
Proof.
  unfold JsMap.has, JsMap.keys.
  induction m as [| [k' v'] rest IH]; cbn; [reflexivity |].
  destruct (eqb k k') eqn:E; cbn.
  - apply eqb_eq in E. now subst.
  - rewrite IH. now destruct (JsMap.get eqb k rest).
Qed.

Lemma unique_keys_set (k : K) (v : V) (m : JsMap.t K V) :
  JsMap.unique_keys eqb m = true ->
  JsMap.unique_keys eqb (JsMap.set eqb k v m) = true.
Proof.
  induction m as [| [k' v'] rest IH]; cbn; [reflexivity |].
  intro Hu. apply andb_true_iff in Hu as [Hk Hu].
  destruct (eqb k k') eqn:E; cbn.
  - apply eqb_eq in E. subst k'. now rewrite Hk, Hu.
  - rewrite (IH Hu), andb_true_r.
    apply negb_true_iff. apply negb_true_iff in Hk.
    destruct (JsMap.has eqb k' (JsMap.set eqb k v rest)) eqn:Hhas;
      [| reflexivity].
    apply has_true_iff in Hhas. rewrite keys_set in Hhas.
    destruct (JsMap.has eqb k rest).
    + apply has_true_iff in Hhas. rewrite Hhas in Hk. discriminate.
    + apply in_app_iff in Hhas as [Hhas | [-> | []]].
      * apply has_true_iff in Hhas. rewrite Hhas in Hk. discriminate.
      * rewrite eqb_refl_true in E. discriminate.
Qed.
End MapFacts.

(* ================================================================== *)
(** ** Properties of the dequeue *)
(* ================================================================== *)

(** *** The exclusion list *)

Lemma activeSurveyIds_of_set_non_integer
    (k : JsValue) (info : SurveyInfo) (m : JsMap.t JsValue SurveyInfo) :
  Number_isInteger k = false ->
  Db.activeSurveyIds_of (JsMap.set JsValue_eqb k info m)
  = Db.activeSurveyIds_of m.
Proof.
  intro Hk. unfold Db.activeSurveyIds_of, JsMap.keys.
  induction m as [| [k' v'] rest IH]; cbn.
  - now rewrite Hk.
  - destruct (JsValue_eqb k k') eqn:E; cbn.
    + apply JsValue_eqb_eq in E. now subst k'.
    + now rewrite IH.
Qed.

(** C10. The exclusion list built by [getNextSurveyResponse] consists of
    exactly the keys of the in-flight map that are integers: a key that is
    not an integer (a string, [null], [undefined]) is left out of it, and
    tracking a task under such a key changes nothing in what the dequeue
    does, so that task can be claimed again. *)
Theorem activeSurveyIds_integer_keys_only (m : JsMap.t JsValue SurveyInfo) :
  (forall k, In k (Db.activeSurveyIds_of m)
             <-> In k (JsMap.keys m) /\ Number_isInteger k = true)
  /\ (forall k, Number_isInteger k = false ->
                ~ In k (Db.activeSurveyIds_of m))
  /\ (forall s, ~ In (JStr s) (Db.activeSurveyIds_of m))
  /\ ~ In JNull (Db.activeSurveyIds_of m)
  /\ ~ In JUndefined (Db.activeSurveyIds_of m)
  /\ (forall k info shardIndex totalShards w,
        Number_isInteger k = false ->
        Db.getNextSurveyResponse shardIndex totalShards
          (JsMap.set JsValue_eqb k info m) w
        = Db.getNextSurveyResponse shardIndex totalShards m w).
Proof.
  assert (Hin : forall k, In k (Db.activeSurveyIds_of m)
                          <-> In k (JsMap.keys m) /\ Number_isInteger k = true).
  { intro k. unfold Db.activeSurveyIds_of. apply filter_In. }
  assert (Hout : forall k, Number_isInteger k = false ->
                           ~ In k (Db.activeSurveyIds_of m)).
  { intros k Hk Hc. apply Hin in Hc as [_ Hc]. congruence. }
  split; [exact Hin |]. split; [exact Hout |].
  split; [intro s; now apply Hout |].
  split; [now apply Hout |]. split; [now apply Hout |].
  intros k info shardIndex totalShards w Hk.
  unfold Db.getNextSurveyResponse.
  now rewrite activeSurveyIds_of_set_non_integer.
Qed.

Lemma activeSurveyIds_integer_keys_only_witness :
  Number_isInteger (JStr "5") = false /\
  ~ In (JStr "5")
      (Db.activeSurveyIds_of
         [(JInt 4, mkSurveyInfo "call_a" 0 None None);
          (JStr "5", mkSurveyInfo "call_b" 0 None None)]).
Proof.
  split; [reflexivity |].
  apply (proj1 (proj2 (activeSurveyIds_integer_keys_only
           [(JInt 4, mkSurveyInfo "call_a" 0 None None);
            (JStr "5", mkSurveyInfo "call_b" 0 None None)])) (JStr "5")).
  reflexivity.
Defined.

(** *** The ordering *)





Lemma insert_row_In (r x : Db.Joined) (l : list Db.Joined) :
  In x (Db.insert_row r l) <-> x = r \/ In x l.
Proof.
  induction l as [| y rest IH]; cbn.
  - split; [intros [<- | []]; now left | intros [-> | []]; now left].
  - destruct (Db.order_le r y); cbn.
    + split; [intros [<- | H]; [now left | now right]
             | intros [-> | H]; [now left | now right]].
    + rewrite IH. split.
      * intros [<- | [-> | H]]; [right; now left | now left | right; now right].
      * intros [-> | [<- | H]]; [right; now left | now left | right; now right].
Qed.

Lemma order_by_In (x : Db.Joined) (l : list Db.Joined) :
  In x (Db.order_by l) <-> In x l.
Proof.
  induction l as [| r rest IH]; cbn; [reflexivity |].
  rewrite insert_row_In, IH. split; intros [H | H]; auto.
Qed.





(** *** Eligibility *)

Lemma int4_array_In (ids : list JsValue) :
  forall excluded, Db.int4_array ids = Some excluded ->
  forall z, In z excluded <-> In (JInt z) ids.
Proof.
  induction ids as [| v rest IH]; cbn; intros excluded H z.
  - injection H as <-. reflexivity.
  - destruct (Db.int4 v) as [x |] eqn:Hv; [| discriminate].
    destruct (Db.int4_array rest) as [xs |]; [| discriminate].
    injection H as <-. cbn. rewrite (IH xs eq_refl z).
    assert (Hx : v = JInt x).
    { destruct v; try discriminate. cbn in Hv.
      destruct ((-2147483648 <=? z0) && (z0 <=? 2147483647));
        [now injection Hv as -> | discriminate]. }
    subst v. split; (intros [E | Hin]; [left | now right]); congruence.
Qed.

Lemma ne_all_iff (id : Z) (excluded : list Z) :
  Db.ne_all id excluded = true <-> ~ In id excluded.
Proof.
  unfold Db.ne_all. rewrite forallb_forall. split.
  - intros H Hin. specialize (H id Hin). rewrite Z.eqb_refl in H. discriminate.
  - intros H x Hx. apply negb_true_iff. apply Z.eqb_neq. congruence.
Qed.

Lemma join_In (sr : SurveyResponseRow) (c : CustomerRow)
    (srs : list SurveyResponseRow) (cs : list CustomerRow) :
  In (sr, c) (Db.join srs cs)
  <-> In sr srs /\ In c cs /\ sr_customer_id sr = Some (c_id c).
Proof.
  unfold Db.join. rewrite in_flat_map. split.
  - intros [sr0 [Hsr Hin]]. apply in_map_iff in Hin as [c0 [E Hc]].
    injection E as -> ->. apply filter_In in Hc as [Hc Hid].
    destruct (sr_customer_id sr) as [cid |]; [| discriminate].
    apply Z.eqb_eq in Hid. subst cid. auto.
  - intros [Hsr [Hc Hid]]. exists sr. split; [exact Hsr |].
    apply in_map_iff. exists c. split; [reflexivity |].
    apply filter_In. split; [exact Hc |]. rewrite Hid. apply Z.eqb_refl.
Qed.

Lemma IS_TRUE_sql_and (a b : option bool) :
  Db.IS_TRUE (Db.sql_and a b) = Db.IS_TRUE a && Db.IS_TRUE b.
Proof. destruct a as [[|] |], b as [[|] |]; reflexivity. Qed.

Lemma IS_NOT_TRUE_iff (b : option bool) :
  Db.IS_NOT_TRUE b = true <-> b <> Some true.
Proof.
  destruct b as [[|] |]; cbn; split; congruence.
Qed.

Lemma phone_present_iff (p : option string) :
  Db.IS_NOT_NULL p && Db.IS_TRUE (Db.text_ne p "") = true
  <-> exists phone, p = Some phone /\ phone <> "".
Proof.
  destruct p as [phone |]; cbn.
  - destruct (String.eqb_spec phone "") as [E | N]; cbn.
    + split; [discriminate | intros [x [Hx Hn]]; congruence].
    + split; [intros _; eauto | reflexivity].
  - split; [discriminate | intros [x [Hx _]]; discriminate].
Qed.

Lemma where_clause_iff (shardIndex totalShards : Z) (excluded : list Z)
    (sr : SurveyResponseRow) (c : CustomerRow) :
  Db.where_clause shardIndex totalShards excluded (sr, c) = true
  <-> sr_processed sr <> Some true
      /\ sr_data_sent_to_retell sr <> Some true
      /\ (exists phone, c_phone_number c = Some phone /\ phone <> "")
      /\ c_phone_number_validated c = Some true
      /\ shouldProcessId (sr_id sr) shardIndex totalShards = true
      /\ ~ In (sr_id sr) excluded.
Proof.
  rewrite <- ne_all_iff, <- sql_shard_condition_shouldProcessId,
    <- phone_present_iff, <- !IS_NOT_TRUE_iff.
  unfold Db.where_clause. rewrite !IS_TRUE_sql_and.
  assert (Hv : Db.IS_TRUE (c_phone_number_validated c) = true
               <-> c_phone_number_validated c = Some true).
  { destruct (c_phone_number_validated c) as [[|] |]; cbn; split; congruence. }
  assert (Hs : Db.IS_TRUE
                 (Db.sql_shard_condition (sr_id sr) shardIndex totalShards)
               = true
               <-> Db.sql_shard_condition (sr_id sr) shardIndex totalShards
                   = Some true).
  { destruct (Db.sql_shard_condition (sr_id sr) shardIndex totalShards)
      as [[|] |]; cbn; split; congruence. }
  rewrite <- Hv, <- Hs.
  assert (Hb : forall b, Db.IS_TRUE (Some b) = b) by (intros [|]; reflexivity).
  rewrite !Hb, !andb_true_iff. tauto.
Qed.

Lemma candidates_In (d : Database) (shardIndex totalShards : Z)
    (ids : list JsValue) (excluded : list Z)
    (sr : SurveyResponseRow) (c : CustomerRow) :
  Db.int4_array ids = Some excluded ->
  In (sr, c) (Db.candidates d shardIndex totalShards excluded)
  <-> In sr (survey_responses d) /\ In c (customers d)
      /\ Db.eligible shardIndex totalShards ids (sr, c).
Proof.
  intro Hids. unfold Db.candidates, Db.eligible.
  rewrite filter_In, join_In, where_clause_iff,
    (int4_array_In ids excluded Hids).
  tauto.
Qed.


Lemma select_next_first (d : Database) (shardIndex totalShards : Z)
    (ids : list JsValue) (row : SurveyData) (rest : list SurveyData) :
  Db.select_next d shardIndex totalShards ids = Returned (row :: rest) ->
  exists excluded r t,
    Db.int4_array ids = Some excluded
    /\ filter (Db.lockable d)
         (Db.order_by (Db.candidates d shardIndex totalShards excluded))
       = r :: t
    /\ row = Db.project d r.
Proof.
  unfold Db.select_next.
  destruct (Db.int4_array ids) as [excluded |]; [| discriminate].
  intro H. exists excluded.
  assert (H' : map (Db.project d)
                 (firstn 1
                    (filter (Db.lockable d)
                       (Db.order_by
                          (Db.candidates d shardIndex totalShards excluded))))
               = row :: rest).
  { destruct (totalShards =? 0), (Db.join (survey_responses d) (customers d));
      try discriminate; now injection H. }
  destruct (filter (Db.lockable d)
              (Db.order_by (Db.candidates d shardIndex totalShards excluded)))
    as [| r t]; [discriminate |].
  exists r, t. cbn in H'. injection H' as <- _. auto.
Qed.
Lemma getNextSurveyResponse_Some_inv (shardIndex totalShards : Z)
    (m : JsMap.t JsValue SurveyInfo) (w w' : World) (row : SurveyData) :
  Db.getNextSurveyResponse shardIndex totalShards m w
  = (Returned (Some row), w') ->
  exists rest,
    Db.select_next (db w) shardIndex totalShards (Db.activeSurveyIds_of m)
    = Returned (row :: rest).
Proof.
  unfold Db.getNextSurveyResponse, bind, try_finally, try_catch,
    Db.pool_connect, Db.client_query, Db.client_release, ret, throw, logger,
    write_log, modify.
  destruct (connect_fault (db w)); [discriminate |].
  cbn.
  destruct (query_fault (db w) StBegin).
  { cbn. destruct (query_fault (db w) StRollback); discriminate. }
  cbn.
  destruct (query_fault (db w) (StSelectNext shardIndex totalShards
              (Db.activeSurveyIds_of m))).
  { cbn. destruct (query_fault (db w) StRollback); discriminate. }
  destruct (Db.select_next (db w) shardIndex totalShards
              (Db.activeSurveyIds_of m)) as [rows | e].
  2: { cbn. destruct (query_fault (db w) StRollback); discriminate. }
  cbn.
  destruct (query_fault (db w) StCommit).
  { cbn. destruct (query_fault (db w) StRollback); discriminate. }
  destruct rows as [| r rest]; cbn; [discriminate |].
  intro H. injection H as -> _. now exists rest.
Qed.




(** A peer holds the row of survey 7: the dequeue passes over it and
    claims survey 5, the next in the ordering. *)
Lemma dequeue_skips_locked_example :
  fst (Db.getNextSurveyResponse 2 2 []
         (mkWorld Examples.client0 false Examples.now0 [] Examples.service_up
            [] Examples.database_peer_lock [] (Returned Examples.shard_2_of_2)))
  = Returned (Some (Db.project Examples.database_peer_lock
                      (Examples.sr5, Examples.c1))).
Proof. vm_compute. reflexivity. Qed.

(** Survey 7 tracked under the number 7 is excluded from the dequeue;
    tracked under the string "7" it is claimed again. *)
Lemma string_key_not_excluded_example :
  fst (Db.getNextSurveyResponse 2 2
         [(JInt 7, Examples.tracked "call_7" Examples.minute)] Examples.world0)
  = Returned (Some (Db.project Examples.database0 (Examples.sr5, Examples.c1)))
  /\ fst (Db.getNextSurveyResponse 2 2
            (activeSurveys Examples.client_tracking_string_7) Examples.world0)
     = Returned (Some (Db.project Examples.database0
                         (Examples.sr7, Examples.c2))).
Proof. vm_compute. split; reflexivity. Qed.

(* ================================================================== *)
(** ** Properties of the retry helpers *)
(* ================================================================== *)

Section RetryFacts.
Context {St A : Type}.
Variable rethrow_at_once : Exn -> Completion bool.
Variable Math_random : Z -> Q.
Variable while_suspended : St -> St.
Variable operation : St -> Completion A * St.
Variables maxRetries baseDelay : Z.

Let loop :=
  Retry.loop rethrow_at_once Math_random while_suspended operation
    maxRetries baseDelay.
Let delay := Retry.delay Math_random baseDelay.

(** The loop ends before its fuel does. *)
Lemma loop_total :
  forall fuel attempt lastError st,
    (Z.to_nat (maxRetries + 1 - attempt) < fuel)%nat ->
    exists result, loop fuel attempt lastError st = Some result.
Proof.
  induction fuel as [| fuel IH]; intros attempt lastError st Hfuel; [lia |].
  unfold loop in *. cbn [Retry.loop].
  destruct (Z.leb_spec attempt maxRetries) as [Hle | Hgt];
    [| eexists; reflexivity].
  destruct (operation st) as [[a | error] st']; [eexists; reflexivity |].
  destruct (rethrow_at_once error) as [[|] | e]; try (eexists; reflexivity).
  destruct (Z.eqb_spec attempt maxRetries) as [E | N];
    [eexists; reflexivity |].
  destruct (IH (attempt + 1) error (while_suspended st') ltac:(lia))
    as [[[r st''] evs] Hrec].
  rewrite Hrec. eexists; reflexivity.
Qed.

(** Without attempts to make, the helper throws [undefined]. *)
Lemma run_no_attempt (st : St) :
  maxRetries < 1 ->
  Retry.run rethrow_at_once Math_random while_suspended operation
    maxRetries baseDelay st
  = Some (Thrown ThrowUndefined, st, []).
Proof.
  intro H. unfold Retry.run. cbn [Retry.loop].
  destruct (Z.leb_spec 1 maxRetries); [lia | reflexivity].
Qed.

(** An error that the head of the catch block rethrows ends the helper
    after the first attempt. *)
Lemma run_rethrown (st st' : St) (error : Exn) :
  1 <= maxRetries ->
  operation st = (Thrown error, st') ->
  rethrow_at_once error = Returned true ->
  Retry.run rethrow_at_once Math_random while_suspended operation
    maxRetries baseDelay st
  = Some (Thrown error, st', [Attempted 1]).
Proof.
  intros Hmax Hop Hre. unfold Retry.run. cbn [Retry.loop].
  destruct (Z.leb_spec 1 maxRetries); [| lia].
  now rewrite Hop, Hre.
Qed.

Hypothesis goes_on :
  forall st error st',
    operation st = (Thrown error, st') ->
    rethrow_at_once error = Returned false.

Lemma loop_backs_off :
  forall fuel attempt lastError st,
    attempt <= maxRetries ->
    (Z.to_nat (maxRetries + 1 - attempt) < fuel)%nat ->
    exists r st' n,
      loop fuel attempt lastError st
      = Some (r, st', Retry.backoff_schedule delay n attempt)
      /\ attempt + Z.of_nat n <= maxRetries
      /\ forall e, r = Thrown e ->
           attempt + Z.of_nat n = maxRetries
           /\ exists st_last, operation st_last = (Thrown e, st').
Proof.
  induction fuel as [| fuel IH]; intros attempt lastError st Hle Hfuel;
    [lia |].
  unfold loop in *. cbn [Retry.loop].
  destruct (Z.leb_spec attempt maxRetries) as [_ | Hgt]; [| lia].
  destruct (operation st) as [[a | error] st'] eqn:Hop.
  - exists (Returned a), st', O. cbn. split; [reflexivity |].
    split; [lia | discriminate].
  - rewrite (goes_on _ _ _ Hop).
    destruct (Z.eqb_spec attempt maxRetries) as [E | N].
    + exists (Thrown error), st', O. cbn. split; [reflexivity |].
      split; [lia |]. intros e He. injection He as <-.
      split; [lia | now exists st].
    + destruct (IH (attempt + 1) error (while_suspended st')
                  ltac:(lia) ltac:(lia)) as (r & st'' & n & Hrec & Hn & Hthrown).
      rewrite Hrec. exists r, st'', (S n). cbn [Retry.backoff_schedule].
      split; [reflexivity |]. split; [lia |].
      intros e He. destruct (Hthrown e He) as [Hlast Hex]. split; [lia | exact Hex].
Qed.

Lemma run_backs_off (st : St) :
  1 <= maxRetries ->
  Retry.backs_off operation delay maxRetries
    (Retry.run rethrow_at_once Math_random while_suspended operation
       maxRetries baseDelay st).
Proof.
  intro Hmax. unfold Retry.backs_off, Retry.run.
  apply loop_backs_off; lia.
Qed.
End RetryFacts.

(** The attempts and the sleeps of a schedule. *)
Lemma backoff_schedule_attempts (delay : Z -> Q) :
  forall n attempt,
    Retry.attempts (Retry.backoff_schedule delay n attempt)
    = map (fun k => attempt + Z.of_nat k) (seq 0 (S n)).
Proof.
  induction n as [| n IH]; intro attempt.
  - cbn. f_equal. lia.
  - cbn [Retry.backoff_schedule Retry.attempts flat_map app].
    fold (Retry.attempts (Retry.backoff_schedule delay n (attempt + 1))).
    rewrite IH.
    change (seq 0 (S (S n))) with (0%nat :: seq 1 (S n)).
    rewrite <- seq_shift. cbn [map]. rewrite map_map. f_equal; [lia |].
    apply map_ext. intro k. lia.
Qed.

Lemma backoff_schedule_sleeps (delay : Z -> Q) :
  forall n attempt,
    Retry.sleeps (Retry.backoff_schedule delay n attempt)
    = map (fun k => delay (attempt + Z.of_nat k)) (seq 0 n).
Proof.
  induction n as [| n IH]; intro attempt; [reflexivity |].
  cbn [Retry.backoff_schedule Retry.sleeps flat_map app].
  fold (Retry.sleeps (Retry.backoff_schedule delay n (attempt + 1))).
  rewrite IH.
  change (seq 0 (S n)) with (0%nat :: seq 1 n).
  rewrite <- seq_shift. cbn [map]. rewrite map_map.
  f_equal; [f_equal; lia |].
  apply map_ext. intro k. f_equal. lia.
Qed.

Section ThirdAttempt.
Context {St A : Type}.
Variable rethrow_at_once : Exn -> Completion bool.
Variable Math_random : Z -> Q.
Variable while_suspended : St -> St.
Variable operation : St -> Completion A * St.
Variable baseDelay : Z.

(** Two failures that are retried, then a success, with three attempts
    allowed. *)
Lemma run_third_attempt_succeeds
    (st s1 s2 s3 : St) (e1 e2 : Exn) (v : A) :
  operation st = (Thrown e1, s1) ->
  rethrow_at_once e1 = Returned false ->
  operation (while_suspended s1) = (Thrown e2, s2) ->
  rethrow_at_once e2 = Returned false ->
  operation (while_suspended s2) = (Returned v, s3) ->
  Retry.run rethrow_at_once Math_random while_suspended operation 3
    baseDelay st
  = Some (Returned v, s3,
          Retry.backoff_schedule (Retry.delay Math_random baseDelay) 2 1).
Proof.
  intros H1 R1 H2 R2 H3. unfold Retry.run.
  change (Z.to_nat 3) with 3%nat. cbn [Retry.loop].
  change (1 <=? 3) with true. change (1 =? 3) with false.
  change (1 + 1 <=? 3) with true. change (1 + 1 =? 3) with false.
  change (1 + 1 + 1 <=? 3) with true.
  cbn match. rewrite H1, R1, H2, R2, H3. reflexivity.
Qed.
End ThirdAttempt.

Lemma jitter_bounded (Math_random : Z -> Q) (baseDelay attempt : Z) :
  (0 <= Math_random attempt < 1)%Q ->
  exists jitter,
    Retry.delay Math_random baseDelay attempt
    = (inject_Z (baseDelay * 2 ^ (attempt - 1)) + jitter)%Q
    /\ (0 <= jitter < 1000)%Q.
Proof.
  intros [Hlo Hhi]. exists (Math_random attempt * 1000)%Q.
  split; [reflexivity |]. split; lra.
Qed.

Lemma permanent_status (e : ErrorObj) :
  err_status e = Some 400 \/ err_status e = Some 401 \/ err_status e = Some 403
  <-> Retell.permanent e = true.
Proof.
  unfold Retell.permanent, Retell.status_is.
  destruct (err_status e) as [s |]; cbn.
  - destruct (Z.eqb_spec s 400), (Z.eqb_spec s 401), (Z.eqb_spec s 403);
      subst; cbn; split; auto; try discriminate;
      intros [H | [H | H]]; congruence.
  - split; [intros [H | [H | H]]; discriminate | discriminate].
Qed.

(** C4. When the operation fails with a permanent error (status 400, 401 or
    403) and at least one attempt is allowed, [withRetry] invokes it exactly
    once, does not sleep, and throws that same error object. *)
Theorem withRetry_permanent_once
    (St A : Type) (Math_random : Z -> Q) (while_suspended : St -> St)
    (operation : St -> Completion A * St) (maxRetries baseDelay : Z)
    (st st' : St) (e : ErrorObj) :
  1 <= maxRetries ->
  operation st = (Thrown (ThrowObj e), st') ->
  err_status e = Some 400 \/ err_status e = Some 401
  \/ err_status e = Some 403 ->
  exists evs,
    Retell.withRetry Math_random while_suspended operation maxRetries
      baseDelay st
    = Some (Thrown (ThrowObj e), st', evs)
    /\ Retry.attempts evs = [1]
    /\ Retry.sleeps evs = [].
Proof.
  intros Hmax Hop Hstatus. apply permanent_status in Hstatus.
  exists [Attempted 1]. split; [| split; reflexivity].
  unfold Retell.withRetry. apply run_rethrown; [exact Hmax | exact Hop |].
  cbn. now rewrite Hstatus.
Qed.

Lemma withRetry_permanent_once_witness :
  exists evs,
    Retell.withRetry Examples.half (fun calls => calls) Examples.refused 3
      2000 0%nat
    = Some (Thrown (ThrowObj Examples.bad_request), 1%nat, evs)
    /\ Retry.attempts evs = [1]
    /\ Retry.sleeps evs = [].
Proof.
  apply (withRetry_permanent_once nat string Examples.half
           (fun calls => calls) Examples.refused 3 2000 0%nat 1%nat
           Examples.bad_request).
  - lia.
  - reflexivity.
  - left. reflexivity.
Defined.

(** C5. When every failure of the operation is one that the helper retries,
    [withRetry] (of the Retell client and of the database client) makes at
    most [maxRetries] attempts, sleeps
    [baseDelay * 2^(attempt - 1) + jitter] with [0 <= jitter < 1000] after
    each failed attempt but the last, and after the last failed attempt
    throws the error of that attempt.  An operation that fails twice and
    then succeeds, with three attempts allowed, gives its value after
    exactly two sleeps, the second delay before jitter being at least the
    first.  With no attempt allowed the helper throws [undefined] without
    invoking the operation. *)
Theorem withRetry_transient_backoff
    (St A : Type) (Math_random : Z -> Q) (while_suspended : St -> St)
    (operation : St -> Completion A * St) (maxRetries baseDelay : Z)
    (st : St) :
  (forall attempt, 0 <= Math_random attempt < 1)%Q ->
  (forall attempt,
     exists jitter,
       Retry.delay Math_random baseDelay attempt
       = (inject_Z (baseDelay * 2 ^ (attempt - 1)) + jitter)%Q
       /\ (0 <= jitter < 1000)%Q)
  /\ (forall n,
        Retry.attempts
          (Retry.backoff_schedule (Retry.delay Math_random baseDelay) n 1)
        = map (fun k => 1 + Z.of_nat k) (seq 0 (S n))
        /\ Retry.sleeps
             (Retry.backoff_schedule (Retry.delay Math_random baseDelay) n 1)
           = map (fun k => Retry.delay Math_random baseDelay (1 + Z.of_nat k))
               (seq 0 n))
  /\ (1 <= maxRetries ->
      (forall s error s',
         operation s = (Thrown error, s') ->
         Retell.rethrow_at_once error = Returned false) ->
      Retry.backs_off operation (Retry.delay Math_random baseDelay) maxRetries
        (Retell.withRetry Math_random while_suspended operation maxRetries
           baseDelay st))
  /\ (1 <= maxRetries ->
      (forall s error s',
         operation s = (Thrown error, s') ->
         Db.rethrow_at_once error = Returned false) ->
      Retry.backs_off operation (Retry.delay Math_random baseDelay) maxRetries
        (Db.withRetry Math_random while_suspended operation maxRetries
           baseDelay st))
  /\ (maxRetries < 1 ->
      Retell.withRetry Math_random while_suspended operation maxRetries
        baseDelay st = Some (Thrown ThrowUndefined, st, [])
      /\ Db.withRetry Math_random while_suspended operation maxRetries
           baseDelay st = Some (Thrown ThrowUndefined, st, []))
  /\ (forall e1 s1 e2 s2 v s3,
        operation st = (Thrown e1, s1) ->
        operation (while_suspended s1) = (Thrown e2, s2) ->
        operation (while_suspended s2) = (Returned v, s3) ->
        0 <= baseDelay ->
        (Retell.rethrow_at_once e1 = Returned false ->
         Retell.rethrow_at_once e2 = Returned false ->
         exists evs,
           Retell.withRetry Math_random while_suspended operation 3 baseDelay
             st = Some (Returned v, s3, evs)
           /\ Retry.attempts evs = [1; 2; 3]
           /\ Retry.sleeps evs
              = [Retry.delay Math_random baseDelay 1;
                 Retry.delay Math_random baseDelay 2])
        /\ (Db.rethrow_at_once e1 = Returned false ->
            Db.rethrow_at_once e2 = Returned false ->
            exists evs,
              Db.withRetry Math_random while_suspended operation 3 baseDelay
                st = Some (Returned v, s3, evs)
              /\ Retry.attempts evs = [1; 2; 3]
              /\ Retry.sleeps evs
                 = [Retry.delay Math_random baseDelay 1;
                    Retry.delay Math_random baseDelay 2])
        /\ baseDelay * 2 ^ (1 - 1) <= baseDelay * 2 ^ (2 - 1)).
Proof.
  intro Hrandom.
  split; [intro attempt; apply jitter_bounded, Hrandom |].
  split; [intro n; split;
          [apply backoff_schedule_attempts | apply backoff_schedule_sleeps] |].
  split; [intros Hmax Hgo; now apply run_backs_off |].
  split; [intros Hmax Hgo; now apply run_backs_off |].
  split; [intro Hnone; split; now apply run_no_attempt |].
  intros e1 s1 e2 s2 v s3 H1 H2 H3 Hbase.
  split; [| split].
  - intros R1 R2. eexists. split.
    + unfold Retell.withRetry.
      eapply run_third_attempt_succeeds; eassumption.
    + split; reflexivity.
  - intros R1 R2. eexists. split.
    + unfold Db.withRetry.
      eapply run_third_attempt_succeeds; eassumption.
    + split; reflexivity.
  - change (2 ^ (1 - 1)) with 1. change (2 ^ (2 - 1)) with 2. lia.
Qed.

Lemma half_in_unit_interval : (forall attempt, 0 <= Examples.half attempt < 1)%Q.
Proof. intro attempt. unfold Examples.half. split; lra. Qed.

Lemma withRetry_transient_backoff_witness :
  (forall attempt, 0 <= Examples.half attempt < 1)%Q
  /\ (exists evs,
        Retell.withRetry Examples.half (fun calls => calls)
          Examples.third_time_lucky 3 1000 0%nat
        = Some (Returned "done", 3%nat, evs)
        /\ Retry.attempts evs = [1; 2; 3]
        /\ Retry.sleeps evs
           = [Retry.delay Examples.half 1000 1;
              Retry.delay Examples.half 1000 2])
  /\ Retry.backs_off Examples.always_failing (Retry.delay Examples.half 1000) 3
       (Db.withRetry Examples.half (fun calls => calls)
          Examples.always_failing 3 1000 0%nat).
Proof.
  split; [exact half_in_unit_interval |].
  split.
  - apply (proj1
             (proj2 (proj2 (proj2 (proj2 (proj2
                (withRetry_transient_backoff nat string Examples.half
                   (fun calls => calls) Examples.third_time_lucky 3 1000
                   0%nat half_in_unit_interval)))))
                (ThrowObj Examples.server_error) 1%nat
                (ThrowObj Examples.server_error) 2%nat "done" 3%nat
                eq_refl eq_refl eq_refl ltac:(lia))); reflexivity.
  - apply (proj1 (proj2 (proj2 (proj2
             (withRetry_transient_backoff nat string Examples.half
                (fun calls => calls) Examples.always_failing 3 1000
                0%nat half_in_unit_interval))))).
    + lia.
    + intros s error s' H. injection H as <- _. reflexivity.
Defined.

(** *** The shutdown flag *)

Lemma same_up_to_shutdown_refl (w : World) : Retry.same_up_to_shutdown w w.
Proof. reflexivity. Qed.

Lemma same_up_to_shutdown_set (b : bool) (w : World) :
  Retry.same_up_to_shutdown w (set_isShuttingDown b w).
Proof. reflexivity. Qed.

Section ShutdownBlind.
Context {A : Type}.
Variable rethrow_at_once : Exn -> Completion bool.
Variable Math_random : Z -> Q.
Variables suspended1 suspended2 : World -> World.
Variable operation : World -> Completion A * World.
Variables maxRetries baseDelay : Z.

Hypothesis operation_blind :
  forall w1 w2,
    Retry.same_up_to_shutdown w1 w2 ->
    fst (operation w1) = fst (operation w2)
    /\ Retry.same_up_to_shutdown (snd (operation w1)) (snd (operation w2)).

Hypothesis suspended_blind :
  forall w1 w2,
    Retry.same_up_to_shutdown w1 w2 ->
    Retry.same_up_to_shutdown (suspended1 w1) (suspended2 w2).

(** The loop never reads the flag: two runs from worlds that differ at
    most in the flag go through the same attempts and sleeps. *)
Lemma loop_blind :
  forall fuel attempt lastError w1 w2,
    Retry.same_up_to_shutdown w1 w2 ->
    Retry.same_retry
      (Retry.loop rethrow_at_once Math_random suspended1 operation
         maxRetries baseDelay fuel attempt lastError w1)
      (Retry.loop rethrow_at_once Math_random suspended2 operation
         maxRetries baseDelay fuel attempt lastError w2).
Proof.
  induction fuel as [| fuel IH]; intros attempt lastError w1 w2 Hw;
    [exact I |].
  cbn [Retry.loop].
  destruct (attempt <=? maxRetries); [| cbn; auto].
  destruct (operation_blind _ _ Hw) as [Hc Hs].
  destruct (operation w1) as [c1 w1'], (operation w2) as [c2 w2'].
  cbn [fst snd] in Hc, Hs. subst c2.
  destruct c1 as [a | error]; [cbn; auto |].
  destruct (rethrow_at_once error) as [[|] | e]; try (cbn; auto).
  destruct (attempt =? maxRetries); [cbn; auto |].
  specialize (IH (attempt + 1) error _ _ (suspended_blind _ _ Hs)).
  destruct (Retry.loop rethrow_at_once Math_random suspended1 operation
              maxRetries baseDelay fuel (attempt + 1) error (suspended1 w1'))
    as [[[r1 v1] evs1] |];
  destruct (Retry.loop rethrow_at_once Math_random suspended2 operation
              maxRetries baseDelay fuel (attempt + 1) error (suspended2 w2'))
    as [[[r2 v2] evs2] |]; cbn in IH |- *; try contradiction; [| exact I].
  destruct IH as (-> & -> & Hv). auto.
Qed.
End ShutdownBlind.

Section FirstSleep.
Context {St A : Type}.
Variable rethrow_at_once : Exn -> Completion bool.
Variable Math_random : Z -> Q.
Variable while_suspended : St -> St.
Variable operation : St -> Completion A * St.
Variables maxRetries baseDelay : Z.

(** After a first failure that is retried, with a second attempt allowed,
    the helper warns and waits on its timer. *)
Lemma run_first_sleep (st st' : St) (error : Exn) :
  2 <= maxRetries ->
  operation st = (Thrown error, st') ->
  rethrow_at_once error = Returned false ->
  exists r st'' evs,
    Retry.run rethrow_at_once Math_random while_suspended operation
      maxRetries baseDelay st
    = Some (r, st'',
            Attempted 1 :: Warned 1 (Retry.delay Math_random baseDelay 1)
              :: Slept (Retry.delay Math_random baseDelay 1) :: evs).
Proof.
  intros Hmax Hop Hre. unfold Retry.run. cbn [Retry.loop].
  destruct (Z.leb_spec 1 maxRetries); [| lia]. rewrite Hop, Hre.
  destruct (Z.eqb_spec 1 maxRetries); [lia |].
  destruct (loop_total rethrow_at_once Math_random while_suspended operation
              maxRetries baseDelay (Z.to_nat maxRetries) (1 + 1) error
              (while_suspended st') ltac:(lia)) as [[[r st''] evs] Hrec].
  rewrite Hrec. now exists r, st'', evs.
Qed.
End FirstSleep.

(** C6, as the code has it.  The retry helpers do not observe the shutdown
    flag.  For an operation whose behaviour does not depend on the flag,
    [withRetry] and [retryOperation] make the same attempts and the same
    sleeps and complete the same way whether or not the flag is set, before
    the call or while the helper waits; with the flag set, a first failure
    that is retried is still followed by a warning and a sleep.  The flag is
    observed at the start of a processing cycle only:
    [processSurveyResponses] returns at once when it is set. *)
Theorem retry_helpers_ignore_shutdown
    (A : Type) (Math_random : Z -> Q)
    (suspended1 suspended2 : World -> World)
    (operation : World -> Completion A * World) (maxRetries baseDelay : Z)
    (w1 w2 : World) :
  (forall v1 v2,
     Retry.same_up_to_shutdown v1 v2 ->
     fst (operation v1) = fst (operation v2)
     /\ Retry.same_up_to_shutdown (snd (operation v1)) (snd (operation v2))) ->
  (forall v1 v2,
     Retry.same_up_to_shutdown v1 v2 ->
     Retry.same_up_to_shutdown (suspended1 v1) (suspended2 v2)) ->
  Retry.same_up_to_shutdown w1 w2 ->
  Retry.same_retry
    (Retell.withRetry Math_random suspended1 operation maxRetries baseDelay w1)
    (Retell.withRetry Math_random suspended2 operation maxRetries baseDelay w2)
  /\ Retry.same_retry
       (Caller.retryOperation Math_random suspended1 operation maxRetries
          baseDelay w1)
       (Caller.retryOperation Math_random suspended2 operation maxRetries
          baseDelay w2)
  /\ (forall error w',
        isShuttingDown w1 = true -> 2 <= maxRetries ->
        operation w1 = (Thrown error, w') ->
        (Retell.rethrow_at_once error = Returned false ->
         exists r w'' evs,
           Retell.withRetry Math_random suspended1 operation maxRetries
             baseDelay w1
           = Some (r, w'',
                   Attempted 1
                     :: Warned 1 (Retry.delay Math_random baseDelay 1)
                     :: Slept (Retry.delay Math_random baseDelay 1) :: evs))
        /\ exists r w'' evs,
             Caller.retryOperation Math_random suspended1 operation
               maxRetries baseDelay w1
             = Some (r, w'',
                     Attempted 1
                       :: Warned 1 (Retry.delay Math_random baseDelay 1)
                       :: Slept (Retry.delay Math_random baseDelay 1) :: evs))
  /\ (forall w,
        isShuttingDown w = true ->
        Caller.processSurveyResponses Math_random suspended1 w
        = Some (Returned JUndefined, w, [])).
Proof.
  intros Hop Hsusp Hw.
  split; [unfold Retell.withRetry, Retry.run; now apply loop_blind |].
  split; [unfold Caller.retryOperation, Retry.run; now apply loop_blind |].
  split.
  - intros error w' Hflag Hmax Hfail. split.
    + intro Hre. unfold Retell.withRetry.
      eapply run_first_sleep; eassumption.
    + unfold Caller.retryOperation.
      eapply run_first_sleep; [exact Hmax | exact Hfail | reflexivity].
  - intros w Hflag. unfold Caller.processSurveyResponses. now rewrite Hflag.
Qed.

Lemma always_failing_blind (v1 v2 : World) :
  Retry.same_up_to_shutdown v1 v2 ->
  fst (@Examples.always_failing World v1) = fst (@Examples.always_failing World v2)
  /\ Retry.same_up_to_shutdown (snd (@Examples.always_failing World v1))
       (snd (@Examples.always_failing World v2)).
Proof. intro H. split; [reflexivity | exact H]. Qed.

Lemma shutdown_signal_blind (v1 v2 : World) :
  Retry.same_up_to_shutdown v1 v2 ->
  Retry.same_up_to_shutdown v1 (set_isShuttingDown true v2).
Proof. intro H. exact H. Qed.

Lemma retry_helpers_ignore_shutdown_witness :
  Retry.same_retry
    (Retell.withRetry Examples.half (fun w => w)
       (@Examples.always_failing World) 3 2000 Examples.world0)
    (Retell.withRetry Examples.half (set_isShuttingDown true)
       (@Examples.always_failing World) 3 2000
       (set_isShuttingDown true Examples.world0)).
Proof.
  apply (retry_helpers_ignore_shutdown string Examples.half (fun w => w)
           (set_isShuttingDown true) (@Examples.always_failing World) 3 2000
           Examples.world0 (set_isShuttingDown true Examples.world0)).
  - exact always_failing_blind.
  - exact shutdown_signal_blind.
  - reflexivity.
Defined.

(** C6 does not hold as stated.  With the shutdown flag set and the remote
    API down, the dispatch of survey 5 through [withRetry] is attempted three
    times and waits out two backoff sleeps; [retryOperation] does the
    same. *)
Lemma retry_sleeps_through_shutdown :
  isShuttingDown Examples.world_shutting_down = true
  /\ match Retell.withRetry Examples.half (fun w => w)
             (Retell.createPhoneCall Examples.survey_data_5) 3 2000
             Examples.world_shutting_down with
     | Some (r, w', evs) =>
         r = Thrown (ThrowObj Examples.server_error)
         /\ Retry.attempts evs = [1; 2; 3]
         /\ Retry.sleeps evs
            = [Retry.delay Examples.half 2000 1;
               Retry.delay Examples.half 2000 2]
         /\ isShuttingDown w' = true
     | None => False
     end
  /\ match Caller.retryOperation Examples.half (fun w => w)
             (Retell.createPhoneCall Examples.survey_data_5) 3 2000
             Examples.world_shutting_down with
     | Some (r, w', evs) =>
         r = Thrown (ThrowObj Examples.server_error)
         /\ Retry.attempts evs = [1; 2; 3]
         /\ List.length (Retry.sleeps evs) = 2%nat
         /\ isShuttingDown w' = true
     | None => False
     end.
Proof.
  vm_compute. repeat split; reflexivity.
Qed.

(* ================================================================== *)
(** ** Properties of the duplicate guard *)
(* ================================================================== *)

Lemma prefix_app (needle rest : string) : prefix needle (needle ++ rest) = true.
Proof.
  induction needle as [| a needle IH]; cbn;
    [destruct rest; reflexivity |].
  destruct (ascii_dec a a) as [_ | N]; [exact IH | contradiction].
Qed.

Lemma includes_prefix (needle hay : string) :
  prefix needle hay = true -> includes needle hay = true.
Proof.
  intro H. destruct hay; cbn [includes]; rewrite H; reflexivity.
Qed.

Lemma includes_app (before needle rest : string) :
  includes needle (before ++ needle ++ rest) = true.
Proof.
  induction before as [| a before IH].
  - change ("" ++ needle ++ rest)%string with (needle ++ rest)%string.
    apply includes_prefix, prefix_app.
  - cbn [append includes]. rewrite IH. apply orb_true_r.
Qed.

Lemma append_empty (s : string) : (s ++ "")%string = s.
Proof. induction s as [| a s IH]; cbn; congruence. Qed.

Lemma already_being_processed_message (surveyId : JsValue) :
  Retell.duplicate
    (new_Error ("Survey " ++ template surveyId ++ " is "
                ++ Retell.already_being_processed))
  = true.
Proof.
  unfold Retell.duplicate, new_Error. cbn [err_message].
  apply andb_true_iff. split; [reflexivity |].
  replace ("Survey " ++ template surveyId ++ " is "
           ++ Retell.already_being_processed)%string
    with (("Survey " ++ template surveyId ++ " is ")
          ++ Retell.already_being_processed ++ "")%string.
  - apply includes_app.
  - rewrite append_empty. cbn [append]. do 7 f_equal.
    induction (template surveyId) as [| a t IH]; cbn; congruence.
Qed.

Lemma has_get (surveyId : JsValue) (m : JsMap.t JsValue SurveyInfo) :
  JsMap.has JsValue_eqb surveyId m = true ->
  exists existing, JsMap.get JsValue_eqb surveyId m = Some existing.
Proof.
  unfold JsMap.has. destruct (JsMap.get JsValue_eqb surveyId m) as [e |];
    [eauto | discriminate].
Qed.

(** What [createPhoneCall] does for a survey that is in flight. *)
Lemma createPhoneCall_duplicate (surveyData : SurveyData) (w : World)
    (existing : SurveyInfo) :
  JsMap.get JsValue_eqb (survey_id surveyData)
    (activeSurveys (retellClient w)) = Some existing ->
  Retell.createPhoneCall surveyData w
  = (Thrown (ThrowObj (new_Error
       ("Survey " ++ template (survey_id surveyData) ++ " is "
        ++ Retell.already_being_processed))),
     set_logs
       (logs w ++
        [mkLog LvlWarn
           "Survey is already being processed - skipping duplicate call creation"
           [("surveyId", survey_id surveyData);
            ("existingCallId", JStr (si_callId existing));
            ("customerName", text (customer_name surveyData))]]) w).
Proof.
  intro Hget.
  unfold Retell.createPhoneCall, Retell.isSurveyBeingProcessed,
    Retell.get_activeSurveys, bind, gets, ret, throw, logger, write_log,
    modify, JsMap.has.
  cbv beta iota. rewrite Hget. cbv beta iota. rewrite Hget. reflexivity.
Qed.

(** C2. When the survey id is already in the in-flight map, a second
    [createPhoneCall] for it throws an error whose message includes
    "already being processed", makes no request and leaves both tracking
    maps as they were; [withRetry] rethrows that error after this one
    attempt, without sleeping; and the processing caller skips: for such a
    state [processSingleSurvey] returns normally with a debug record only,
    and its catch block turns an "already being processed" error into a
    debug record and a normal return, with no error record. *)
Theorem duplicate_dispatch_is_skipped (surveyData : SurveyData) (w : World) :
  JsMap.has JsValue_eqb (survey_id surveyData)
    (activeSurveys (retellClient w)) = true ->
  (exists e w',
     Retell.createPhoneCall surveyData w = (Thrown (ThrowObj e), w')
     /\ (exists message,
           err_message e = Some message
           /\ includes "already being processed" message = true)
     /\ activeCalls (retellClient w') = activeCalls (retellClient w)
     /\ activeSurveys (retellClient w') = activeSurveys (retellClient w)
     /\ retell_requests w' = retell_requests w
     /\ forall Math_random while_suspended maxRetries baseDelay,
          1 <= maxRetries ->
          Retell.withRetry Math_random while_suspended
            (Retell.createPhoneCall surveyData) maxRetries baseDelay w
          = Some (Thrown (ThrowObj e), w', [Attempted 1]))
  /\ (forall Math_random while_suspended,
        exists w',
          Caller.processSingleSurvey Math_random while_suspended surveyData w
          = Some (Returned JUndefined, w', [])
          /\ retellClient w' = retellClient w
          /\ retell_requests w' = retell_requests w
          /\ logs w'
             = logs w ++
               [mkLog LvlDebug "Survey is already being processed - skipping"
                  [("surveyId", survey_id surveyData);
                   ("customerName", text (customer_name surveyData))]])
  /\ (forall e w0,
        Retell.duplicate e = true ->
        exists w1,
          Caller.processSingleSurvey_catch surveyData (ThrowObj e) w0
          = (Returned JUndefined, w1)
          /\ retellClient w1 = retellClient w0
          /\ logs w1
             = logs w0 ++
               [mkLog LvlDebug
                  "Survey already being processed by another instance - skipping"
                  [("surveyId", survey_id surveyData);
                   ("customerName", text (customer_name surveyData))]]).
Proof.
  intro Hhas. destruct (has_get _ _ Hhas) as [existing Hget].
  pose proof (already_being_processed_message (survey_id surveyData)) as Hdup.
  split; [| split].
  - eexists. eexists.
    split; [apply (createPhoneCall_duplicate _ _ _ Hget) |].
    split.
    { eexists. split; [reflexivity |].
      unfold Retell.duplicate in Hdup. cbn [err_message new_Error] in Hdup.
      now apply andb_true_iff in Hdup. }
    repeat (split; [reflexivity |]).
    intros Math_random while_suspended maxRetries baseDelay Hmax.
    unfold Retell.withRetry. apply run_rethrown.
    + exact Hmax.
    + apply (createPhoneCall_duplicate _ _ _ Hget).
    + cbn [Retell.rethrow_at_once]. rewrite Hdup. now rewrite orb_true_r.
  - intros Math_random while_suspended. eexists.
    unfold Caller.processSingleSurvey, Retell.isSurveyBeingProcessed,
      Retell.get_activeSurveys, bind, gets, ret, logger, write_log, modify.
    rewrite Hhas. cbn. repeat split; reflexivity.
  - intros e w0 He. eexists.
    unfold Caller.processSingleSurvey_catch, Caller.is_duplicate.
    rewrite He. unfold bind, logger, write_log, modify, ret. cbn.
    repeat split; reflexivity.
Qed.

Lemma duplicate_dispatch_is_skipped_witness :
  JsMap.has JsValue_eqb (survey_id Examples.survey_data_5)
    (activeSurveys (retellClient Examples.world_tracking_5)) = true
  /\ exists w',
       Caller.processSingleSurvey Examples.half (fun w => w)
         Examples.survey_data_5 Examples.world_tracking_5
       = Some (Returned JUndefined, w', [])
       /\ retellClient w' = retellClient Examples.world_tracking_5
       /\ retell_requests w' = retell_requests Examples.world_tracking_5
       /\ logs w'
          = logs Examples.world_tracking_5 ++
            [mkLog LvlDebug "Survey is already being processed - skipping"
               [("surveyId", survey_id Examples.survey_data_5);
                ("customerName",
                 text (customer_name Examples.survey_data_5))]].
Proof.
  split; [reflexivity |].
  apply (proj1 (proj2 (duplicate_dispatch_is_skipped Examples.survey_data_5
                         Examples.world_tracking_5 eq_refl))).
Defined.

(** The catch path at work: the first request fails, and while the helper
    waits, another cycle dispatches the same survey; the second attempt is
    refused as a duplicate and the caller ends normally, its last record
    being the debug record of the skip. *)
Lemma duplicate_after_backoff_example :
  match Caller.processSingleSurvey Examples.half
          (fun w => snd (Retell.createPhoneCall Examples.survey_data_5 w))
          Examples.survey_data_5
          (mkWorld Examples.client0 false Examples.now0 []
             Examples.service_flaky [] Examples.database0 []
             (Returned Examples.shard_2_of_2)) with
  | Some (r, w', evs) =>
      r = Returned JUndefined
      /\ Retry.attempts evs = [1; 2]
      /\ List.length (Retry.sleeps evs) = 1%nat
      /\ List.length (retell_requests w') = 2%nat
      /\ JsMap.keys (activeSurveys (retellClient w')) = [JInt 5]
      /\ option_map log_level (last (map Some (logs w')) None) = Some LvlDebug
  | None => False
  end.
Proof.
  vm_compute. repeat split; reflexivity.
Qed.

(* ================================================================== *)
(** ** Properties of the staleness sweep *)
(* ================================================================== *)

Lemma filter_filter_andb {X : Type} (p q : X -> bool) (l : list X) :
  filter p (filter q l) = filter (fun x => q x && p x) l.
Proof.
  induction l as [| x l IH]; cbn; [reflexivity |].
  destruct (q x); cbn; [destruct (p x); now rewrite IH | exact IH].
Qed.

Lemma filter_all {X : Type} (l : list X) : filter (fun _ => true) l = l.
Proof. induction l as [| x l IH]; cbn; congruence. Qed.

Section SweepFacts.
Context {K V : Type}.
Variable eqb : K -> K -> bool.
Hypothesis eqb_eq : forall a b, eqb a b = true <-> a = b.
Variable createdAt : V -> Z.
Variables now maxAgeMs : Z.

Lemma delete_all (ks : list K) :
  forall m : JsMap.t K V,
    fold_left (fun acc k => JsMap.delete eqb k acc) ks m
    = filter (fun kv => negb (existsb (fun k => eqb k (fst kv)) ks)) m.
Proof.
  induction ks as [| k rest IH]; intro m; cbn [fold_left existsb].
  - cbn. symmetry. apply filter_all.
  - rewrite IH. unfold JsMap.delete. rewrite filter_filter_andb.
    apply filter_ext. intro kv. now rewrite negb_orb.
Qed.

Lemma unique_keys_NoDup (m : JsMap.t K V) :
  JsMap.unique_keys eqb m = true -> NoDup (JsMap.keys m).
Proof.
  induction m as [| [k v] rest IH]; cbn; [constructor |].
  intro Hu. apply andb_true_iff in Hu as [Hk Hu].
  constructor; [| now apply IH].
  intro Hin. apply (has_true_iff eqb eqb_eq) in Hin.
  rewrite Hin in Hk. discriminate.
Qed.

Lemma old_key_is_old (m : JsMap.t K V) :
  JsMap.unique_keys eqb m = true ->
  forall kv, In kv m ->
    existsb (fun k => eqb k (fst kv))
      (Retell.keys_older_than createdAt now maxAgeMs m)
    = (now - createdAt (snd kv) >? maxAgeMs).
Proof.
  intros Hu [k v] Hin. cbn [fst snd]. unfold Retell.keys_older_than.
  destruct (now - createdAt v >? maxAgeMs) eqn:Hold.
  - apply existsb_exists. exists k. split; [| now apply eqb_eq].
    change k with (fst (k, v)). apply in_map. apply filter_In. auto.
  - destruct (existsb (fun k0 => eqb k0 k)
                (map fst
                   (filter (fun kv => now - createdAt (snd kv) >? maxAgeMs)
                      (JsMap.entries m)))) eqn:Hex; [| reflexivity].
    apply existsb_exists in Hex as [k0 [Hk0 E]].
    apply eqb_eq in E. subst k0.
    apply in_map_iff in Hk0 as [[k' v'] [Hfst Hin']]. cbn in Hfst. subst k'.
    apply filter_In in Hin' as [Hin' Hold']. cbn [snd] in Hold'.
    pose proof (In_unique_get eqb eqb_eq k v m Hu Hin) as G1.
    pose proof (In_unique_get eqb eqb_eq k v' m Hu Hin') as G2.
    congruence.
Qed.

(** Deleting the old keys one by one keeps exactly the entries that are
    not old. *)
Lemma sweep_keeps (m : JsMap.t K V) :
  JsMap.unique_keys eqb m = true ->
  fold_left (fun acc k => JsMap.delete eqb k acc)
    (Retell.keys_older_than createdAt now maxAgeMs m) m
  = Retell.kept createdAt now maxAgeMs m.
Proof.
  intro Hu. rewrite delete_all. unfold Retell.kept.
  apply filter_ext_in. intros kv Hin. now rewrite (old_key_is_old m Hu).
Qed.

Lemma old_keys_NoDup (m : JsMap.t K V) :
  JsMap.unique_keys eqb m = true ->
  NoDup (Retell.keys_older_than createdAt now maxAgeMs m).
Proof.
  intro Hu. unfold Retell.keys_older_than.
  apply unique_keys_NoDup. now apply unique_keys_filter.
Qed.

Lemma old_keys_tracked (m : JsMap.t K V) (k : K) :
  In k (Retell.keys_older_than createdAt now maxAgeMs m) ->
  JsMap.has eqb k m = true.
Proof.
  unfold Retell.keys_older_than. intro Hin.
  apply (has_true_iff eqb eqb_eq). unfold JsMap.keys.
  apply in_map_iff in Hin as [kv [Hfst Hin]].
  apply filter_In in Hin as [Hin _].
  apply in_map_iff. now exists kv.
Qed.

(** The records of the evicted keys, looked up in the map, are the records
    of the evicted entries. *)
Lemma old_keys_records {R : Type} (record : K -> V -> R) (m : JsMap.t K V) :
  JsMap.unique_keys eqb m = true ->
  flat_map (fun k => match JsMap.get eqb k m with
                     | Some v => [record k v]
                     | None => []
                     end)
    (Retell.keys_older_than createdAt now maxAgeMs m)
  = map (fun kv => record (fst kv) (snd kv))
      (Retell.evicted createdAt now maxAgeMs m).
Proof.
  intro Hu. unfold Retell.keys_older_than, Retell.evicted, JsMap.entries.
  assert (Hsub : forall kv,
            In kv (filter (fun kv => now - createdAt (snd kv) >? maxAgeMs) m)
            -> In kv m)
    by (intros kv H; now apply filter_In in H).
  induction (filter (fun kv => now - createdAt (snd kv) >? maxAgeMs) m)
    as [| [k v] rest IH]; cbn; [reflexivity |].
  rewrite (In_unique_get eqb eqb_eq k v m Hu (Hsub _ (or_introl eq_refl))).
  cbn. f_equal. apply IH. intros kv H. apply Hsub. now right.
Qed.
End SweepFacts.

Lemma string_eqb_eq (a b : string) : String.eqb a b = true <-> a = b.
Proof. apply String.eqb_eq. Qed.

Lemma flat_map_ext_In {X Y : Type} (f g : X -> list Y) (l : list X) :
  (forall x, In x l -> f x = g x) -> flat_map f l = flat_map g l.
Proof.
  intro H. rewrite !flat_map_concat_map. f_equal. now apply map_ext_in.
Qed.

(** One turn of the loop that removes the old calls. *)
Lemma remove_call_step (now : Z) (k : string) (info : CallInfo) (w : World) :
  JsMap.get String.eqb k (activeCalls (retellClient w)) = Some info ->
  Retell.remove_call now k w
  = (Returned tt,
     set_logs (logs w ++ [Retell.cleaned_up_call now k info])
       (set_retellClient
          (set_activeCalls
             (JsMap.delete String.eqb k (activeCalls (retellClient w)))
             (retellClient w)) w)).
Proof.
  intro Hget.
  unfold Retell.remove_call, bind, Retell.get_activeCalls,
    Retell.put_activeCalls, gets, modify, write_log.
  now rewrite Hget.
Qed.

(** The loop that removes the old calls. *)
Lemma remove_calls_loop (now : Z) (ks : list string) :
  forall w,
    NoDup ks ->
    (forall k, In k ks ->
       JsMap.has String.eqb k (activeCalls (retellClient w)) = true) ->
    for_of ks (Retell.remove_call now) w
    = (Returned tt,
       set_logs
         (logs w ++
          flat_map (fun k =>
            match JsMap.get String.eqb k (activeCalls (retellClient w)) with
            | Some info => [Retell.cleaned_up_call now k info]
            | None => []
            end) ks)
         (set_retellClient
            (set_activeCalls
               (fold_left (fun acc k => JsMap.delete String.eqb k acc) ks
                  (activeCalls (retellClient w)))
               (retellClient w)) w)).
Proof.
  induction ks as [| k rest IH]; intros w Hnd Hin.
  - destruct w as [[from agent calls surveys] flag clk lg svc reqs d sts si].
    cbn. now rewrite app_nil_r.
  - inversion Hnd as [| ? ? Hk Hrest]; subst.
    assert (Hhas := Hin k (or_introl eq_refl)).
    unfold JsMap.has in Hhas.
    destruct (JsMap.get String.eqb k (activeCalls (retellClient w)))
      as [info |] eqn:Hget; [| discriminate].
    assert (Hother : forall k', In k' rest ->
              JsMap.get String.eqb k'
                (JsMap.delete String.eqb k (activeCalls (retellClient w)))
              = JsMap.get String.eqb k' (activeCalls (retellClient w))).
    { intros k' Hk'. apply (get_delete_other String.eqb string_eqb_eq).
      intro E. subst k'. contradiction. }
    cbn [for_of]. unfold bind at 1.
    rewrite (remove_call_step now k info w Hget). rewrite IH; [| exact Hrest |].
    + destruct w as [[from agent calls surveys] flag clk lg svc reqs d sts si].
      unfold set_logs, set_retellClient, set_activeCalls in *.
      cbn in Hget, Hother |- *. rewrite Hget.
      rewrite (flat_map_ext_In _
                 (fun k0 => match JsMap.get String.eqb k0 calls with
                            | Some info0 => [Retell.cleaned_up_call now k0 info0]
                            | None => []
                            end) rest)
        by (intros k' Hk'; now rewrite (Hother k' Hk')).
      now rewrite <- app_assoc.
    + intros k' Hk'.
      destruct w as [[from agent calls surveys] flag clk lg svc reqs d sts si].
      cbn in Hother, Hin |- *. unfold JsMap.has.
      rewrite (Hother k' Hk'). apply (Hin k'). now right.
Qed.

(** One turn of the loop that removes the old surveys. *)
Lemma remove_survey_step (now : Z) (k : JsValue) (info : SurveyInfo)
    (w : World) :
  JsMap.get JsValue_eqb k (activeSurveys (retellClient w)) = Some info ->
  Retell.remove_survey now k w
  = (Returned tt,
     set_logs (logs w ++ [Retell.cleaned_up_survey now k info])
       (set_retellClient
          (set_activeSurveys
             (JsMap.delete JsValue_eqb k (activeSurveys (retellClient w)))
             (retellClient w)) w)).
Proof.
  intro Hget.
  unfold Retell.remove_survey, bind, Retell.get_activeSurveys,
    Retell.put_activeSurveys, gets, modify, write_log.
  now rewrite Hget.
Qed.

(** The loop that removes the old surveys. *)
Lemma remove_surveys_loop (now : Z) (ks : list JsValue) :
  forall w,
    NoDup ks ->
    (forall k, In k ks ->
       JsMap.has JsValue_eqb k (activeSurveys (retellClient w)) = true) ->
    for_of ks (Retell.remove_survey now) w
    = (Returned tt,
       set_logs
         (logs w ++
          flat_map (fun k =>
            match JsMap.get JsValue_eqb k (activeSurveys (retellClient w)) with
            | Some info => [Retell.cleaned_up_survey now k info]
            | None => []
            end) ks)
         (set_retellClient
            (set_activeSurveys
               (fold_left (fun acc k => JsMap.delete JsValue_eqb k acc) ks
                  (activeSurveys (retellClient w)))
               (retellClient w)) w)).
Proof.
  induction ks as [| k rest IH]; intros w Hnd Hin.
  - destruct w as [[from agent calls surveys] flag clk lg svc reqs d sts si].
    cbn. now rewrite app_nil_r.
  - inversion Hnd as [| ? ? Hk Hrest]; subst.
    assert (Hhas := Hin k (or_introl eq_refl)).
    unfold JsMap.has in Hhas.
    destruct (JsMap.get JsValue_eqb k (activeSurveys (retellClient w)))
      as [info |] eqn:Hget; [| discriminate].
    assert (Hother : forall k', In k' rest ->
              JsMap.get JsValue_eqb k'
                (JsMap.delete JsValue_eqb k (activeSurveys (retellClient w)))
              = JsMap.get JsValue_eqb k' (activeSurveys (retellClient w))).
    { intros k' Hk'. apply (get_delete_other JsValue_eqb JsValue_eqb_eq).
      intro E. subst k'. contradiction. }
    cbn [for_of]. unfold bind at 1.
    rewrite (remove_survey_step now k info w Hget).
    rewrite IH; [| exact Hrest |].
    + destruct w as [[from agent calls surveys] flag clk lg svc reqs d sts si].
      unfold set_logs, set_retellClient, set_activeSurveys in *.
      cbn in Hget, Hother |- *. rewrite Hget.
      rewrite (flat_map_ext_In _
                 (fun k0 => match JsMap.get JsValue_eqb k0 surveys with
                            | Some info0 =>
                                [Retell.cleaned_up_survey now k0 info0]
                            | None => []
                            end) rest)
        by (intros k' Hk'; now rewrite (Hother k' Hk')).
      now rewrite <- app_assoc.
    + intros k' Hk'.
      destruct w as [[from agent calls surveys] flag clk lg svc reqs d sts si].
      cbn in Hother, Hin |- *. unfold JsMap.has.
      rewrite (Hother k' Hk'). apply (Hin k'). now right.
Qed.

Lemma summary_branch (calls surveys : nat) (w : World) :
  (if (0 <? Z.of_nat calls) || (0 <? Z.of_nat surveys)
   then
     logger LvlInfo "Cleaned up old active calls and surveys"
       [("cleanedUpCalls", JInt (Z.of_nat calls));
        ("cleanedUpSurveys", JInt (Z.of_nat surveys))]
   else ret tt) w
  = (Returned tt,
     set_logs (logs w ++ Retell.cleaned_up_summary calls surveys) w).
Proof.
  destruct w as [c flag clk lg svc reqs d sts si].
  destruct calls as [| calls], surveys as [| surveys];
    cbn; now rewrite ?app_nil_r.
Qed.

Lemma keys_older_than_length {K V : Type} (createdAt : V -> Z)
    (now maxAgeMs : Z) (m : JsMap.t K V) :
  List.length (Retell.keys_older_than createdAt now maxAgeMs m)
  = List.length (Retell.evicted createdAt now maxAgeMs m).
Proof. unfold Retell.keys_older_than. apply length_map. Qed.

(** What a sweep does to a client whose maps have no key twice. *)
Lemma cleanupOldCalls_run (maxAgeMs : Z) (w : World) :
  JsMap.unique_keys String.eqb (activeCalls (retellClient w)) = true ->
  JsMap.unique_keys JsValue_eqb (activeSurveys (retellClient w)) = true ->
  Retell.cleanupOldCalls maxAgeMs w
  = (Returned JUndefined,
     set_logs
       (logs w
        ++ map (fun kv => Retell.cleaned_up_call (clock w) (fst kv) (snd kv))
             (Retell.evicted ci_createdAt (clock w) maxAgeMs
                (activeCalls (retellClient w)))
        ++ map (fun kv => Retell.cleaned_up_survey (clock w) (fst kv) (snd kv))
             (Retell.evicted si_createdAt (clock w) maxAgeMs
                (activeSurveys (retellClient w)))
        ++ Retell.cleaned_up_summary
             (List.length
                (Retell.evicted ci_createdAt (clock w) maxAgeMs
                   (activeCalls (retellClient w))))
             (List.length
                (Retell.evicted si_createdAt (clock w) maxAgeMs
                   (activeSurveys (retellClient w)))))
       (set_retellClient
          (mkRetellClient (fromNumber (retellClient w))
             (agentId (retellClient w))
             (Retell.kept ci_createdAt (clock w) maxAgeMs
                (activeCalls (retellClient w)))
             (Retell.kept si_createdAt (clock w) maxAgeMs
                (activeSurveys (retellClient w))))
          w)).
Proof.
  intros Hcalls Hsurveys.
  unfold Retell.cleanupOldCalls, new_Date, Retell.get_activeCalls,
    Retell.get_activeSurveys.
  unfold bind at 1 2 3 4. unfold gets.
  rewrite remove_calls_loop;
    [| now apply (old_keys_NoDup String.eqb string_eqb_eq)
     | intros k Hk; now apply (old_keys_tracked String.eqb string_eqb_eq) in Hk].
  rewrite (sweep_keeps String.eqb string_eqb_eq _ _ _ _ Hcalls).
  rewrite (old_keys_records String.eqb string_eqb_eq _ _ _
             (Retell.cleaned_up_call (clock w)) _ Hcalls).
  unfold bind at 1.
  destruct w as [[from agent calls surveys] flag clk lg svc reqs d sts si].
  cbn [retellClient activeCalls activeSurveys clock logs fromNumber agentId]
    in *.
  rewrite remove_surveys_loop;
    [| now apply (old_keys_NoDup JsValue_eqb JsValue_eqb_eq)
     | intros k Hk;
       now apply (old_keys_tracked JsValue_eqb JsValue_eqb_eq) in Hk].
  unfold set_logs, set_retellClient, set_activeCalls, set_activeSurveys.
  cbn [retellClient activeCalls activeSurveys clock logs fromNumber agentId
       isShuttingDown retell_service retell_requests db db_statements
       shard_info].
  rewrite (sweep_keeps JsValue_eqb JsValue_eqb_eq _ _ _ _ Hsurveys).
  rewrite (old_keys_records JsValue_eqb JsValue_eqb_eq _ _ _
             (Retell.cleaned_up_survey clk) _ Hsurveys).
  unfold bind at 1. rewrite summary_branch.
  rewrite !keys_older_than_length.
  unfold ret, set_logs.
  cbn [retellClient activeCalls activeSurveys clock logs fromNumber agentId
       isShuttingDown retell_service retell_requests db db_statements
       shard_info].
  now rewrite <- !app_assoc.
Qed.

(** C3, as the code has it.  On maps that hold each key once, the sweep
    removes from [activeCalls] and from [activeSurveys] exactly the entries
    whose age [now - createdAt] exceeds [maxAgeMs] and leaves the others, in
    their order; it writes one warning record for each removed entry and a
    summary when something was removed; and it completes with [undefined]:
    the removed entries are reported in the log, not returned. *)
Theorem cleanupOldCalls_evicts_stale (maxAgeMs : Z) (w : World) :
  JsMap.unique_keys String.eqb (activeCalls (retellClient w)) = true ->
  JsMap.unique_keys JsValue_eqb (activeSurveys (retellClient w)) = true ->
  exists w',
    Retell.cleanupOldCalls maxAgeMs w = (Returned JUndefined, w')
    /\ (forall k v,
          In (k, v) (activeCalls (retellClient w'))
          <-> In (k, v) (activeCalls (retellClient w))
              /\ clock w - ci_createdAt v <= maxAgeMs)
    /\ (forall k v,
          In (k, v) (activeSurveys (retellClient w'))
          <-> In (k, v) (activeSurveys (retellClient w))
              /\ clock w - si_createdAt v <= maxAgeMs)
    /\ activeCalls (retellClient w')
       = Retell.kept ci_createdAt (clock w) maxAgeMs
           (activeCalls (retellClient w))
    /\ activeSurveys (retellClient w')
       = Retell.kept si_createdAt (clock w) maxAgeMs
           (activeSurveys (retellClient w))
    /\ (forall k v,
          In (k, v)
            (Retell.evicted ci_createdAt (clock w) maxAgeMs
               (activeCalls (retellClient w)))
          <-> In (k, v) (activeCalls (retellClient w))
              /\ clock w - ci_createdAt v > maxAgeMs)
    /\ (forall k v,
          In (k, v)
            (Retell.evicted si_createdAt (clock w) maxAgeMs
               (activeSurveys (retellClient w)))
          <-> In (k, v) (activeSurveys (retellClient w))
              /\ clock w - si_createdAt v > maxAgeMs)
    /\ logs w'
       = logs w
         ++ map (fun kv => Retell.cleaned_up_call (clock w) (fst kv) (snd kv))
              (Retell.evicted ci_createdAt (clock w) maxAgeMs
                 (activeCalls (retellClient w)))
         ++ map (fun kv =>
                   Retell.cleaned_up_survey (clock w) (fst kv) (snd kv))
              (Retell.evicted si_createdAt (clock w) maxAgeMs
                 (activeSurveys (retellClient w)))
         ++ Retell.cleaned_up_summary
              (List.length
                 (Retell.evicted ci_createdAt (clock w) maxAgeMs
                    (activeCalls (retellClient w))))
              (List.length
                 (Retell.evicted si_createdAt (clock w) maxAgeMs
                    (activeSurveys (retellClient w)))).
Proof.
  intros Hcalls Hsurveys. eexists.
  split; [apply cleanupOldCalls_run; assumption |].
  assert (Hkept : forall (K V : Type) (createdAt : V -> Z) (m : JsMap.t K V)
                    k v,
            In (k, v) (Retell.kept createdAt (clock w) maxAgeMs m)
            <-> In (k, v) m /\ clock w - createdAt v <= maxAgeMs).
  { intros K V createdAt m k v. unfold Retell.kept.
    rewrite filter_In, negb_true_iff. cbn [snd].
    destruct (Z.gtb_spec (clock w - createdAt v) maxAgeMs);
      split; intros [H1 H2]; (split; [exact H1 |]); try lia;
      try reflexivity; discriminate. }
  assert (Hevicted : forall (K V : Type) (createdAt : V -> Z)
                       (m : JsMap.t K V) k v,
            In (k, v) (Retell.evicted createdAt (clock w) maxAgeMs m)
            <-> In (k, v) m /\ clock w - createdAt v > maxAgeMs).
  { intros K V createdAt m k v. unfold Retell.evicted.
    rewrite filter_In. cbn [snd].
    destruct (Z.gtb_spec (clock w - createdAt v) maxAgeMs);
      split; intros [H1 H2]; (split; [exact H1 |]); try lia;
      try reflexivity; discriminate. }
  unfold set_logs, set_retellClient.
  cbn [retellClient activeCalls activeSurveys logs].
  split; [intros k v; apply Hkept |].
  split; [intros k v; apply Hkept |].
  split; [reflexivity |]. split; [reflexivity |].
  split; [intros k v; apply Hevicted |].
  split; [intros k v; apply Hevicted |].
  reflexivity.
Qed.

Lemma cleanupOldCalls_evicts_stale_witness :
  exists w',
    Retell.cleanupOldCalls (30 * Examples.minute) Examples.world_aged
    = (Returned JUndefined, w')
    /\ JsMap.keys (activeCalls (retellClient w')) = ["call_a"]
    /\ JsMap.keys (activeSurveys (retellClient w')) = [JInt 1]
    /\ List.length (logs w') = 5%nat.
Proof.
  destruct (cleanupOldCalls_evicts_stale (30 * Examples.minute)
              Examples.world_aged eq_refl eq_refl)
    as (w' & Hrun & _ & _ & Hcalls & Hsurveys & _ & _ & Hlogs).
  exists w'. split; [exact Hrun |].
  rewrite Hcalls, Hsurveys, Hlogs. repeat split; reflexivity.
Defined.

(** C3 does not hold as stated.  With entries aged 10, 31 and 45 minutes and
    a maximal age of 30 minutes, the sweep evicts the two old entries of each
    map and completes with [undefined]: the evicted entries are not what it
    returns. *)
Lemma cleanupOldCalls_returns_nothing :
  map fst
    (Retell.evicted si_createdAt (clock Examples.world_aged)
       (30 * Examples.minute)
       (activeSurveys (retellClient Examples.world_aged)))
  = [JInt 2; JInt 3]
  /\ map fst
       (Retell.evicted ci_createdAt (clock Examples.world_aged)
          (30 * Examples.minute)
          (activeCalls (retellClient Examples.world_aged)))
     = ["call_b"; "call_c"]
  /\ fst (Retell.cleanupOldCalls (30 * Examples.minute) Examples.world_aged)
     = Returned JUndefined
  /\ JsMap.keys
       (activeSurveys
          (retellClient
             (snd (Retell.cleanupOldCalls (30 * Examples.minute)
                     Examples.world_aged))))
     = [JInt 1].
Proof.
  vm_compute. repeat split; reflexivity.
Qed.

(* ================================================================== *)
(** ** Further properties of the sharding manager *)
(* ================================================================== *)

Lemma ids_from_cons (first : Z) (count : nat) :
  ids_from first (S count) = first :: ids_from (first + 1) count.
Proof.
  unfold ids_from. cbn [seq map]. f_equal; [lia |].
  rewrite <- seq_shift, map_map. apply map_ext. intro k. lia.
Qed.

Lemma ids_from_app (first : Z) (n m : nat) :
  ids_from first (n + m) = ids_from first n ++ ids_from (first + Z.of_nat n) m.
Proof.
  revert first. induction n as [| n IH]; intro first.
  - cbn [Nat.add]. unfold ids_from at 2. cbn. f_equal. lia.
  - cbn [Nat.add]. rewrite !ids_from_cons, IH. cbn. do 3 f_equal. lia.
Qed.

Lemma ids_from_In (first : Z) (count : nat) (x : Z) :
  In x (ids_from first count) <-> first <= x < first + Z.of_nat count.
Proof.
  unfold ids_from. rewrite in_map_iff. split.
  - intros [k [<- Hk]]. apply in_seq in Hk. lia.
  - intro H. exists (Z.to_nat (x - first)). split; [lia |].
    apply in_seq. lia.
Qed.

Lemma In_firstn {X : Type} (n : nat) (l : list X) (x : X) :
  In x (firstn n l) -> In x l.
Proof.
  intro H. rewrite <- (firstn_skipn n l). apply in_or_app. now left.
Qed.

(** The loop of [getExampleIds] takes the ids that pass the partition
    predicate, in order, until it has [maxExamples] of them. *)
Lemma getExampleIds_loop_filter (maxExamples : Z) (info : ShardInfo) :
  forall fuel i examples,
    (Z.to_nat (maxExamples * totalShards info + 1 - i) < fuel)%nat ->
    (List.length examples < Z.to_nat maxExamples)%nat ->
    getExampleIds_loop fuel maxExamples info i examples
    = Some (examples ++
            firstn (Z.to_nat maxExamples - List.length examples)
              (filter (fun x => shouldProcessId x (shardIndex info)
                                  (totalShards info))
                 (ids_from i
                    (Z.to_nat (maxExamples * totalShards info + 1 - i))))).
Proof.
  induction fuel as [| fuel IH]; intros i examples Hfuel Hlen; [lia |].
  cbn [getExampleIds_loop].
  destruct (Z.leb_spec i (maxExamples * totalShards info)) as [Hle | Hgt].
  - replace (Z.to_nat (maxExamples * totalShards info + 1 - i))
      with (S (Z.to_nat (maxExamples * totalShards info + 1 - (i + 1))))
      by lia.
    rewrite ids_from_cons. cbn [filter].
    destruct (shouldProcessId i (shardIndex info) (totalShards info)).
    + rewrite length_app. cbn [List.length].
      destruct (Z.geb_spec (Z.of_nat (List.length examples + 1)) maxExamples)
        as [Hfull | Hmore].
      * replace (Z.to_nat maxExamples - List.length examples)%nat
          with 1%nat by lia.
        cbn [firstn]. reflexivity.
      * rewrite IH by (rewrite ?length_app; cbn [List.length]; lia).
        rewrite length_app. cbn [List.length].
        replace (Z.to_nat maxExamples - List.length examples)%nat
          with (S (Z.to_nat maxExamples - (List.length examples + 1)))
          by lia.
        cbn [firstn]. now rewrite <- app_assoc.
    + apply IH; lia.
  - replace (Z.to_nat (maxExamples * totalShards info + 1 - i)) with O by lia.
    cbn. now rewrite firstn_nil, app_nil_r.
Qed.

(** The result of [getExampleIds] as a prefix of the matching ids. *)
Lemma getExampleIds_prefix_of_matches (maxExamples index total : Z) :
  1 <= maxExamples ->
  exists ids,
    getExampleIds (Returned (mkShardInfo index total)) maxExamples = Some ids
    /\ ids = firstn (Z.to_nat maxExamples)
               (filter (fun x => shouldProcessId x index total)
                  (ids_from 1 (Z.to_nat (maxExamples * total))))
    /\ Z.of_nat (List.length ids) <= maxExamples
    /\ forall x, In x ids -> 1 <= x <= maxExamples * total.
Proof.
  intro Hmax. eexists. split.
  - unfold getExampleIds, getExampleIds_fuel.
    rewrite getExampleIds_loop_filter by (cbn [List.length totalShards]; lia).
    cbn [app List.length shardIndex totalShards].
    rewrite Nat.sub_0_r.
    replace (maxExamples * total + 1 - 1) with (maxExamples * total) by lia.
    reflexivity.
  - split; [reflexivity |]. split.
    + pose proof (firstn_le_length (Z.to_nat maxExamples)
                    (filter (fun x => shouldProcessId x index total)
                       (ids_from 1 (Z.to_nat (maxExamples * total))))).
      rewrite length_firstn. lia.
    + intros x Hx. apply In_firstn in Hx. apply filter_In in Hx as [Hx _].
      apply ids_from_In in Hx. lia.
Qed.

(** X1. For [maxExamples >= 1], [getExampleIds] returns the first
    [maxExamples] of the integers 1 .. maxExamples * totalShards that pass
    [shouldProcessId], in increasing order; so it never returns more than
    [maxExamples] ids and every id lies in that range. *)
Theorem getExampleIds_first_matches (maxExamples index total : Z) :
  1 <= maxExamples ->
  exists ids,
    getExampleIds (Returned (mkShardInfo index total)) maxExamples = Some ids
    /\ ids = firstn (Z.to_nat maxExamples)
               (filter (fun x => shouldProcessId x index total)
                  (ids_from 1 (Z.to_nat (maxExamples * total))))
    /\ Z.of_nat (List.length ids) <= maxExamples
    /\ forall x, In x ids -> 1 <= x <= maxExamples * total.
Proof.
  apply getExampleIds_prefix_of_matches.
Qed.

Lemma getExampleIds_first_matches_witness :
  exists ids,
    getExampleIds (Returned (mkShardInfo 2 3)) 4 = Some ids
    /\ ids = firstn (Z.to_nat 4)
               (filter (fun x => shouldProcessId x 2 3)
                  (ids_from 1 (Z.to_nat (4 * 3))))
    /\ Z.of_nat (List.length ids) <= 4
    /\ forall x, In x ids -> 1 <= x <= 4 * 3.
Proof.
  apply (getExampleIds_first_matches 4 2 3). lia.
Defined.

Lemma filter_eqb_above (a first : Z) (count : nat) :
  a < first -> filter (fun x => x =? a) (ids_from first count) = [].
Proof.
  revert first. induction count as [| count IH]; intros first Hlt;
    [reflexivity |].
  rewrite ids_from_cons. cbn [filter].
  destruct (Z.eqb_spec first a); [lia |]. apply IH. lia.
Qed.

Lemma filter_eqb_ids_from (a first : Z) (count : nat) :
  first <= a < first + Z.of_nat count ->
  filter (fun x => x =? a) (ids_from first count) = [a].
Proof.
  revert first. induction count as [| count IH]; intros first Hin; [lia |].
  rewrite ids_from_cons. cbn [filter].
  destruct (Z.eqb_spec first a) as [-> | Hne].
  - f_equal. apply filter_eqb_above. lia.
  - apply IH. lia.
Qed.

(** In each block of [total] consecutive ids exactly one belongs to the
    shard. *)
Lemma shard_block (index total : Z) (k : nat) :
  1 <= index <= total ->
  filter (fun x => shouldProcessId x index total)
    (ids_from (1 + total * Z.of_nat k) (Z.to_nat total))
  = [first_id_of_shard index total + total * Z.of_nat k].
Proof.
  intro Hindex.
  assert (Hfirst : 1 <= first_id_of_shard index total <= total).
  { unfold first_id_of_shard. destruct (Z.eqb_spec index 1); lia. }
  rewrite <- (filter_eqb_ids_from
                (first_id_of_shard index total + total * Z.of_nat k)
                (1 + total * Z.of_nat k) (Z.to_nat total)) by lia.
  apply filter_ext_in. intros x Hx. apply ids_from_In in Hx.
  apply eq_true_iff_eq. rewrite shouldProcessId_spec by lia.
  rewrite Z.eqb_eq, Z.rem_mod_nonneg by nia.
  replace x with ((x - total * Z.of_nat k) + Z.of_nat k * total) by lia.
  rewrite Z.mod_add by lia.
  unfold first_id_of_shard in *.
  destruct (Z.eqb_spec index 1) as [-> | Hne].
  - destruct (Z.eq_dec (x - total * Z.of_nat k) total) as [E | N].
    + rewrite E, Z.mod_same by lia. lia.
    + rewrite Z.mod_small by lia. lia.
  - destruct (Z.eq_dec (x - total * Z.of_nat k) total) as [E | N].
    + rewrite E, Z.mod_same by lia. lia.
    + rewrite Z.mod_small by lia. lia.
Qed.

Lemma shard_blocks (index total : Z) (blocks : nat) :
  1 <= index <= total ->
  filter (fun x => shouldProcessId x index total)
    (ids_from 1 (blocks * Z.to_nat total))
  = map (fun k => first_id_of_shard index total + total * Z.of_nat k)
      (seq 0 blocks).
Proof.
  intro Hindex. induction blocks as [| blocks IH]; [reflexivity |].
  replace (S blocks * Z.to_nat total)%nat
    with (blocks * Z.to_nat total + Z.to_nat total)%nat by lia.
  rewrite ids_from_app, filter_app, IH, seq_S, map_app. cbn [map Nat.add].
  f_equal.
  replace (1 + Z.of_nat (blocks * Z.to_nat total))
    with (1 + total * Z.of_nat blocks) by nia.
  now apply shard_block.
Qed.

(** X2. For a valid shard (1 <= index <= total) and [maxExamples >= 1],
    [getExampleIds] returns exactly [maxExamples] ids: the smallest positive
    id of the shard and its successors at distance [total]. *)
Theorem getExampleIds_closed_form (maxExamples index total : Z) :
  1 <= maxExamples -> 1 <= index <= total ->
  getExampleIds (Returned (mkShardInfo index total)) maxExamples
  = Some (map (fun k => first_id_of_shard index total + total * Z.of_nat k)
            (seq 0 (Z.to_nat maxExamples))).
Proof.
  intros Hmax Hindex.
  destruct (getExampleIds_prefix_of_matches maxExamples index total Hmax)
    as (ids & Hrun & -> & _).
  rewrite Hrun. f_equal.
  replace (Z.to_nat (maxExamples * total))
    with (Z.to_nat maxExamples * Z.to_nat total)%nat by nia.
  rewrite shard_blocks by exact Hindex.
  apply firstn_all2. rewrite length_map, length_seq. lia.
Qed.

Lemma getExampleIds_closed_form_witness :
  getExampleIds (Returned (mkShardInfo 1 3)) 4 = Some [3; 6; 9; 12].
Proof.
  apply (getExampleIds_closed_form 4 1 3); lia.
Defined.

(** *** Shard monitoring: state and failures *)

(** X3. A callback that throws is not recorded as done: the check leaves
    [lastTotalShards] as it was, so every later check that still observes
    the new total invokes the callback again with the same (old, new). *)
Theorem throwing_callback_is_invoked_again
    (cb : ShardChange -> Completion unit) (info : ShardInfo) (last : Z)
    (e : Exn) (checks : nat) :
  last <> totalShards info ->
  cb (mkShardChange last (totalShards info)) = Thrown e ->
  monitor_runs (Some cb) (repeat (Returned info) checks) (Some last)
  = (Some last,
     List.concat (repeat [ShardCountChanged last (totalShards info);
                     CallbackInvoked (mkShardChange last (totalShards info));
                     MonitoringError e] checks))
  /\ callback_invocations
       (snd (monitor_runs (Some cb) (repeat (Returned info) checks)
               (Some last)))
     = repeat (last, totalShards info) checks.
Proof.
  intros Hne Hcb.
  assert (Hrun : monitor_runs (Some cb) (repeat (Returned info) checks)
                   (Some last)
                 = (Some last,
                    List.concat (repeat
                      [ShardCountChanged last (totalShards info);
                       CallbackInvoked (mkShardChange last (totalShards info));
                       MonitoringError e] checks))).
  { induction checks as [| checks IH]; [reflexivity |].
    cbn [repeat monitor_runs checkShards].
    destruct (Z.eqb_spec last (totalShards info)); [contradiction |].
    cbn [negb]. rewrite Hcb, IH. reflexivity. }
  split; [exact Hrun |]. rewrite Hrun. cbn [snd].
  clear Hrun. induction checks as [| checks IH]; [reflexivity |].
  cbn [repeat List.concat]. unfold callback_invocations in *.
  rewrite flat_map_app, IH. reflexivity.
Qed.

Lemma throwing_callback_is_invoked_again_witness :
  callback_invocations
    (snd (monitor_runs
            (Some (fun _ => Thrown (ThrowObj Examples.server_error)))
            (repeat (Returned (mkShardInfo 1 5)) 3) (Some 3)))
  = repeat (3, 5) 3.
Proof.
  apply (throwing_callback_is_invoked_again
           (fun _ => Thrown (ThrowObj Examples.server_error))
           (mkShardInfo 1 5) 3 (ThrowObj Examples.server_error) 3).
  - cbn. lia.
  - reflexivity.
Defined.

(** *** Membership discovery *)

Lemma string_compare_refl (s : string) : String.compare s s = Eq.
Proof.
  induction s as [| a s IH]; cbn; [reflexivity |].
  unfold Ascii.compare. now rewrite N.compare_refl.
Qed.

Lemma string_compare_lt_trans (a b c : string) :
  String.compare a b = Lt -> String.compare b c = Lt ->
  String.compare a c = Lt.
Proof.
  revert b c. induction a as [| x a IH]; intros [| y b] [| z c]; cbn;
    try discriminate; try reflexivity.
  unfold Ascii.compare.
  destruct (N.compare_spec (N_of_ascii x) (N_of_ascii y)) as [Exy | Lxy | Gxy];
    try discriminate;
  destruct (N.compare_spec (N_of_ascii y) (N_of_ascii z)) as [Eyz | Lyz | Gyz];
    try discriminate; intros H1 H2.
  - rewrite Exy, Eyz, N.compare_refl. now apply (IH b c).
  - rewrite Exy. now apply N.compare_lt_iff in Lyz as ->.
  - rewrite <- Eyz. now apply N.compare_lt_iff in Lxy as ->.
  - assert (Lxz : (N_of_ascii x < N_of_ascii z)%N) by lia.
    now apply N.compare_lt_iff in Lxz as ->.
Qed.

Lemma string_leb_trans (a b c : string) :
  String.leb a b = true -> String.leb b c = true -> String.leb a c = true.
Proof.
  unfold String.leb.
  destruct (String.compare a b) eqn:Hab; try discriminate;
  destruct (String.compare b c) eqn:Hbc; try discriminate; intros _ _.
  - apply String.compare_eq_iff in Hab, Hbc. subst.
    now rewrite string_compare_refl.
  - apply String.compare_eq_iff in Hab. subst. now rewrite Hbc.
  - apply String.compare_eq_iff in Hbc. subst. now rewrite Hab.
  - now rewrite (string_compare_lt_trans a b c Hab Hbc).
Qed.

Lemma string_leb_refl (a : string) : String.leb a a = true.
Proof. unfold String.leb. now rewrite string_compare_refl. Qed.

Lemma string_ltb_leb (a b : string) :
  String.ltb a b = true <-> String.leb a b = true /\ a <> b.
Proof.
  unfold String.ltb, String.leb.
  destruct (String.compare a b) eqn:H; split; try discriminate.
  - intros [_ N]. apply String.compare_eq_iff in H. contradiction.
  - intros _. split; [reflexivity |]. intros ->.
    rewrite string_compare_refl in H. discriminate.
  - reflexivity.
  - intros [H' _]. discriminate.
Qed.

Lemma string_ltb_not_leb (a b : string) :
  String.leb a b = true -> String.ltb b a = false.
Proof.
  unfold String.ltb, String.leb. rewrite (String.compare_antisym b a).
  destruct (String.compare a b); cbn; congruence.
Qed.

Import Membership.

Lemma insert_name_In (x y : string) (l : list string) :
  In y (insert_name x l) <-> y = x \/ In y l.
Proof.
  induction l as [| z l IH]; cbn.
  - split; [intros [<- | []]; now left | intros [-> | []]; now left].
  - destruct (String.leb x z); cbn; [| rewrite IH]; intuition congruence.
Qed.

Lemma sort_In (y : string) (l : list string) : In y (sort l) <-> In y l.
Proof.
  induction l as [| x l IH]; cbn; [reflexivity |].
  rewrite insert_name_In, IH. intuition congruence.
Qed.

Lemma insert_name_length (x : string) (l : list string) :
  List.length (insert_name x l) = S (List.length l).
Proof.
  induction l as [| z l IH]; cbn; [reflexivity |].
  destruct (String.leb x z); cbn; congruence.
Qed.

Lemma sort_length (l : list string) : List.length (sort l) = List.length l.
Proof.
  induction l as [| x l IH]; cbn; [reflexivity |].
  now rewrite insert_name_length, IH.
Qed.

Lemma insert_name_sorted (x : string) (l : list string) :
  names_sorted l -> names_sorted (insert_name x l).
Proof.
  unfold names_sorted.
  induction l as [| z l IH]; intro Hs; cbn.
  - constructor; constructor.
  - destruct (String.leb x z) eqn:E.
    + constructor; [exact Hs |].
      apply StronglySorted_inv in Hs as [_ Hz].
      constructor; [exact E |].
      eapply Forall_impl; [| exact Hz].
      intros y Hy. now apply (string_leb_trans x z y).
    + apply StronglySorted_inv in Hs as [Hl Hz].
      constructor; [now apply IH |].
      apply Forall_forall. intros y Hy.
      apply insert_name_In in Hy as [-> | Hy].
      * destruct (String.leb_total x z) as [H | H]; congruence.
      * rewrite Forall_forall in Hz. now apply Hz.
Qed.

Lemma sort_sorted (l : list string) : names_sorted (sort l).
Proof.
  induction l as [| x l IH]; cbn; [constructor |].
  now apply insert_name_sorted.
Qed.

Lemma insert_name_NoDup (x : string) (l : list string) :
  ~ In x l -> NoDup l -> NoDup (insert_name x l).
Proof.
  induction l as [| z l IH]; intros Hx Hl; cbn.
  - constructor; [intros [] | constructor].
  - destruct (String.leb x z).
    + now constructor.
    + inversion Hl as [| ? ? Hz Hl']; subst.
      constructor.
      * rewrite insert_name_In. intros [-> | H]; [| contradiction].
        apply Hx. now left.
      * apply IH; [| exact Hl']. intro H. apply Hx. now right.
Qed.

Lemma sort_NoDup (l : list string) : NoDup l -> NoDup (sort l).
Proof.
  induction l as [| x l IH]; intro H; cbn; [constructor |].
  inversion H as [| ? ? Hx Hl]; subst.
  apply insert_name_NoDup; [| now apply IH].
  now rewrite sort_In.
Qed.

Lemma names_before_insert (name x : string) (l : list string) :
  names_before name (insert_name x l) = names_before name (x :: l).
Proof.
  unfold names_before.
  induction l as [| z l IH]; cbn; [reflexivity |].
  destruct (String.leb x z); cbn; [reflexivity |].
  cbn in IH.
  destruct (String.ltb z name), (String.ltb x name); cbn in *; lia.
Qed.

Lemma names_before_sort (name : string) (l : list string) :
  names_before name (sort l) = names_before name l.
Proof.
  induction l as [| x l IH]; cbn [sort]; [reflexivity |].
  rewrite names_before_insert. unfold names_before in *. cbn.
  destruct (String.ltb x name); cbn; congruence.
Qed.

Lemma names_before_perm (name : string) (l l' : list string) :
  Permutation l l' -> names_before name l = names_before name l'.
Proof.
  unfold names_before.
  induction 1 as [| x l l' _ IH | x y l | l l' l'' _ IH1 _ IH2]; cbn.
  - reflexivity.
  - destruct (String.ltb x name); cbn; congruence.
  - destruct (String.ltb x name), (String.ltb y name); reflexivity.
  - congruence.
Qed.

(** [indexOf] finds nothing or a position of the list. *)
Lemma indexOf_from_range (name : string) (l : list string) :
  forall position,
    0 <= position ->
    indexOf_from position name l = -1
    \/ position <= indexOf_from position name l
       < position + Z.of_nat (List.length l).
Proof.
  induction l as [| x l IH]; intros position Hp; cbn [indexOf_from];
    [now left |].
  destruct (String.eqb x name).
  - right. cbn [List.length]. lia.
  - destruct (IH (position + 1) ltac:(lia)) as [H | H]; [now left |].
    right. cbn [List.length]. lia.
Qed.

Lemma indexOf_from_found (name : string) (l : list string) :
  forall position,
    0 <= position ->
    (indexOf_from position name l <> -1 <-> In name l).
Proof.
  induction l as [| x l IH]; intros position Hp; cbn [indexOf_from In].
  - split; [congruence | contradiction].
  - destruct (String.eqb_spec x name) as [-> | N].
    + split; [now left | lia].
    + rewrite (IH (position + 1)) by lia. intuition congruence.
Qed.

Lemma indexOf_from_nth (name : string) (l : list string) :
  forall position,
    0 <= position ->
    indexOf_from position name l <> -1 ->
    nth_error l (Z.to_nat (indexOf_from position name l - position))
    = Some name.
Proof.
  induction l as [| x l IH]; intros position Hp; cbn [indexOf_from];
    [congruence |].
  destruct (String.eqb_spec x name) as [-> | N]; intro H.
  - now rewrite Z.sub_diag.
  - specialize (IH (position + 1) ltac:(lia) H).
    destruct (indexOf_from_range name l (position + 1) ltac:(lia))
      as [E | R]; [congruence |].
    replace (Z.to_nat (indexOf_from (position + 1) name l - position))
      with (S (Z.to_nat (indexOf_from (position + 1) name l - (position + 1))))
      by lia.
    exact IH.
Qed.

Lemma filter_none {X : Type} (p : X -> bool) (l : list X) :
  (forall x, In x l -> p x = false) -> filter p l = [].
Proof.
  induction l as [| y l IH]; intro H; cbn; [reflexivity |].
  rewrite (H y (or_introl eq_refl)). apply IH. intros x Hx. apply H. now right.
Qed.

(** In a sorted list the position of a name is the number of names that
    come strictly before it. *)
Lemma indexOf_from_names_before (name : string) (l : list string) :
  names_sorted l ->
  forall position,
    0 <= position ->
    indexOf_from position name l <> -1 ->
    indexOf_from position name l - position
    = Z.of_nat (names_before name l).
Proof.
  unfold names_sorted, names_before.
  induction l as [| x l IH]; intros Hs position Hp; cbn [indexOf_from];
    [congruence |].
  apply StronglySorted_inv in Hs as [Hl Hx]. rewrite Forall_forall in Hx.
  destruct (String.eqb_spec x name) as [-> | N]; intro H.
  - cbn [filter].
    replace (String.ltb name name) with false
      by (symmetry; apply string_ltb_not_leb, string_leb_refl).
    rewrite filter_none; [cbn; lia |].
    intros y Hy. now apply string_ltb_not_leb, Hx.
  - assert (Hin : In name l) by (now apply (indexOf_from_found name l (position + 1)); [lia |]).
    cbn [filter].
    replace (String.ltb x name) with true
      by (symmetry; apply string_ltb_leb; split; [now apply Hx | exact N]).
    cbn [List.length].
    specialize (IH Hl (position + 1) ltac:(lia) H). lia.
Qed.

Lemma running_pods_length (items : list Pod) :
  List.length (running_pods items)
  = List.length
      (filter (fun pod => String.eqb (status_phase pod) "Running") items).
Proof. unfold running_pods. now rewrite sort_length, length_map. Qed.

Lemma indexOf_range (name : option string) (pods : list string) :
  indexOf name pods = -1
  \/ 0 <= indexOf name pods < Z.of_nat (List.length pods).
Proof.
  destruct name as [n |]; cbn; [| now left].
  destruct (indexOf_from_range n pods 0 ltac:(lia)) as [H | H]; [now left |].
  right. lia.
Qed.

(** What a refresh gives. *)
Lemma getShardInfo_refresh_cases (now : Z)
    (listNamespacedPod : string -> string -> Completion (list Pod))
    (m : Manager) :
  (exists info,
     getShardInfo_refresh now listNamespacedPod m
     = (Returned info, set_cache info now m,
        [mkLog LvlInfo "Updated shard information"
           [("podName", this_podName m);
            ("shardIndex", JInt (shardIndex info));
            ("totalShards", JInt (totalShards info))]])
     /\ in_range info)
  \/ (exists error,
        getShardInfo_refresh now listNamespacedPod m
        = getShardInfo_catch error m).
Proof.
  unfold getShardInfo_refresh.
  destruct (listNamespacedPod (podNamespace m)
              ("app=" ++ daemonSetName m)%string) as [items | error];
    [| right; now exists error].
  destruct (Z.eqb_spec (indexOf (podName m) (running_pods items) + 1) 0)
    as [E | N]; [right; eexists; reflexivity |].
  left.
  exists (mkShardInfo (indexOf (podName m) (running_pods items) + 1)
            (Z.of_nat (List.length (running_pods items)))).
  split; [reflexivity |].
  unfold in_range. cbn [shardIndex totalShards].
  destruct (indexOf_range (podName m) (running_pods items)); lia.
Qed.

(** Returned pairs are in range, and the cache stays in range. *)
Lemma getShardInfo_range_cases (now : Z)
    (listNamespacedPod : string -> string -> Completion (list Pod))
    (m : Manager) :
  cache_in_range m ->
  match getShardInfo now listNamespacedPod m with
  | (Returned info, m', _) => in_range info /\ cache_in_range m'
  | (Thrown _, m', _) => m' = m /\ shardInfo m = None
  end.
Proof.
  intro Hcache. unfold getShardInfo.
  assert (Hrefresh :
            match getShardInfo_refresh now listNamespacedPod m with
            | (Returned info, m', _) => in_range info /\ cache_in_range m'
            | (Thrown _, m', _) => m' = m /\ shardInfo m = None
            end).
  { destruct (getShardInfo_refresh_cases now listNamespacedPod m)
      as [[info [-> Hin]] | [error ->]].
    - split; [exact Hin | exact Hin].
    - unfold getShardInfo_catch. unfold cache_in_range in Hcache.
      destruct (shardInfo m) as [cached |] eqn:Hc.
      + split; [exact Hcache |]. unfold cache_in_range. now rewrite Hc.
      + split; reflexivity. }
  unfold cache_in_range in Hcache.
  destruct (cache_is_fresh now m); [| exact Hrefresh].
  destruct (shardInfo m) as [cached |] eqn:Hc; [| exact Hrefresh].
  split; [exact Hcache |]. unfold cache_in_range. now rewrite Hc.
Qed.

(** X4. Starting from a cache that is empty or holds a pair in range,
    every pair that [getShardInfo] returns (fresh, cached or stale) has
    1 <= shardIndex <= totalShards, and the cache stays that way; when it
    throws, the manager is unchanged and has no cached pair. *)
Theorem getShardInfo_in_range (now : Z)
    (listNamespacedPod : string -> string -> Completion (list Pod))
    (m : Manager) :
  cache_in_range m ->
  match getShardInfo now listNamespacedPod m with
  | (Returned info, m', _) => in_range info /\ cache_in_range m'
  | (Thrown _, m', _) => m' = m /\ shardInfo m = None
  end.
Proof.
  apply getShardInfo_range_cases.
Qed.

Lemma getShardInfo_in_range_witness :
  match getShardInfo 1000
          (fun _ _ => Returned [mkPod "caller-b" "Running";
                                mkPod "caller-a" "Running";
                                mkPod "caller-c" "Pending"])
          (new_ShardingManager (Some "caller-b") None None) with
  | (Returned info, m', _) => in_range info /\ cache_in_range m'
  | (Thrown _, m', _) =>
      m' = new_ShardingManager (Some "caller-b") None None
      /\ shardInfo (new_ShardingManager (Some "caller-b") None None) = None
  end.
Proof.
  apply (getShardInfo_in_range 1000
           (fun _ _ => Returned [mkPod "caller-b" "Running";
                                 mkPod "caller-a" "Running";
                                 mkPod "caller-c" "Pending"])
           (new_ShardingManager (Some "caller-b") None None)).
  exact I.
Defined.

Lemma getShardInfo_not_fresh (now : Z)
    (listNamespacedPod : string -> string -> Completion (list Pod))
    (m : Manager) :
  cache_is_fresh now m = false ->
  getShardInfo now listNamespacedPod m
  = getShardInfo_refresh now listNamespacedPod m.
Proof.
  intro H. unfold getShardInfo. rewrite H. now destruct (shardInfo m).
Qed.

(** The position that a refresh computes. *)
Lemma refresh_position (now : Z)
    (listNamespacedPod : string -> string -> Completion (list Pod))
    (m : Manager) (items : list Pod) (name : string) :
  cache_is_fresh now m = false ->
  listNamespacedPod (podNamespace m) ("app=" ++ daemonSetName m)%string
  = Returned items ->
  podName m = Some name ->
  In name
    (map metadata_name
       (filter (fun pod => String.eqb (status_phase pod) "Running") items)) ->
  exists info,
    fst (fst (getShardInfo now listNamespacedPod m)) = Returned info
    /\ snd (fst (getShardInfo now listNamespacedPod m)) = set_cache info now m
    /\ totalShards info
       = Z.of_nat
           (List.length
              (filter (fun pod => String.eqb (status_phase pod) "Running")
                 items))
    /\ shardIndex info
       = 1 + Z.of_nat
               (names_before name
                  (map metadata_name
                     (filter (fun pod =>
                                String.eqb (status_phase pod) "Running")
                        items)))
    /\ nth_error (running_pods items) (Z.to_nat (shardIndex info - 1))
       = Some name.
Proof.
  intros Hfresh Hlist Hname Hin.
  rewrite getShardInfo_not_fresh by exact Hfresh.
  unfold getShardInfo_refresh. rewrite Hlist, Hname. cbn [indexOf].
  assert (Hfound : indexOf_from 0 name (running_pods items) <> -1).
  { apply indexOf_from_found; [lia |]. unfold running_pods.
    now apply sort_In. }
  pose proof (indexOf_from_range name (running_pods items) 0 ltac:(lia))
    as [E | R]; [contradiction |].
  destruct (Z.eqb_spec (indexOf_from 0 name (running_pods items) + 1) 0);
    [lia |].
  eexists. cbn [fst snd]. split; [reflexivity |]. split; [reflexivity |].
  cbn [shardIndex totalShards].
  split; [now rewrite running_pods_length |].
  pose proof (indexOf_from_names_before name (running_pods items)
                (sort_sorted _) 0 ltac:(lia) Hfound) as Hpos.
  unfold running_pods in Hpos at 2. rewrite names_before_sort in Hpos.
  split; [lia |].
  pose proof (indexOf_from_nth name (running_pods items) 0 ltac:(lia) Hfound)
    as Hnth.
  replace (indexOf_from 0 name (running_pods items) + 1 - 1)
    with (indexOf_from 0 name (running_pods items) - 0) by lia.
  exact Hnth.
Qed.

(** X5. When the cache is not served and the listing contains this pod
    among the running ones, [getShardInfo] returns as total the number of
    running pods and as index one more than the number of running pod names
    that sort strictly before this pod's name, whatever the order of the
    listing; the name stands at that position of the sorted names; and the
    pair and the time are stored in the cache. *)
Theorem getShardInfo_position (now : Z)
    (listNamespacedPod : string -> string -> Completion (list Pod))
    (m : Manager) (items : list Pod) (name : string) :
  cache_is_fresh now m = false ->
  listNamespacedPod (podNamespace m) ("app=" ++ daemonSetName m)%string
  = Returned items ->
  podName m = Some name ->
  In name
    (map metadata_name
       (filter (fun pod => String.eqb (status_phase pod) "Running") items)) ->
  exists info,
    fst (fst (getShardInfo now listNamespacedPod m)) = Returned info
    /\ snd (fst (getShardInfo now listNamespacedPod m)) = set_cache info now m
    /\ totalShards info
       = Z.of_nat
           (List.length
              (filter (fun pod => String.eqb (status_phase pod) "Running")
                 items))
    /\ shardIndex info
       = 1 + Z.of_nat
               (names_before name
                  (map metadata_name
                     (filter (fun pod =>
                                String.eqb (status_phase pod) "Running")
                        items)))
    /\ nth_error (running_pods items) (Z.to_nat (shardIndex info - 1))
       = Some name.
Proof.
  apply refresh_position.
Qed.

Lemma getShardInfo_position_witness :
  exists info,
    fst (fst (getShardInfo 1000
                (fun _ _ => Returned [mkPod "caller-b" "Running";
                                      mkPod "caller-a" "Running";
                                      mkPod "caller-c" "Pending"])
                (new_ShardingManager (Some "caller-b") None None)))
    = Returned info
    /\ totalShards info = 2
    /\ shardIndex info = 2.
Proof.
  destruct (getShardInfo_position 1000
              (fun _ _ => Returned [mkPod "caller-b" "Running";
                                    mkPod "caller-a" "Running";
                                    mkPod "caller-c" "Pending"])
              (new_ShardingManager (Some "caller-b") None None)
              [mkPod "caller-b" "Running"; mkPod "caller-a" "Running";
               mkPod "caller-c" "Pending"]
              "caller-b" eq_refl eq_refl eq_refl (or_introl eq_refl))
    as (info & Hrun & _ & Htotal & Hindex & _).
  exists info. split; [exact Hrun |]. split; [exact Htotal | exact Hindex].
Defined.

(** X6. After the first successful call, made at a time other than 0,
    every call within the time-to-live returns the same pair without
    consulting the cluster API: the answer does not depend on the API, the
    manager is unchanged and nothing is logged. *)
Theorem getShardInfo_served_from_cache (t0 t : Z)
    (listNamespacedPod later : string -> string -> Completion (list Pod))
    (m m1 : Manager) (info : ShardInfo) (logs : list LogRecord) :
  shardInfo m = None ->
  getShardInfo t0 listNamespacedPod m = (Returned info, m1, logs) ->
  t0 <> 0 ->
  t - t0 < shardCacheTtl m ->
  getShardInfo t later m1 = (Returned info, m1, []).
Proof.
  intros Hempty Hfirst Ht0 Httl.
  rewrite getShardInfo_not_fresh in Hfirst
    by (unfold cache_is_fresh; now rewrite Hempty).
  destruct (getShardInfo_refresh_cases t0 listNamespacedPod m)
    as [[info' [Hrun _]] | [error Hrun]]; rewrite Hrun in Hfirst.
  - injection Hfirst as -> <- _.
    unfold getShardInfo, cache_is_fresh, set_cache.
    cbn [shardInfo lastShardUpdate shardCacheTtl].
    destruct (Z.eqb_spec t0 0); [contradiction |].
    destruct (Z.ltb_spec (t - t0) (shardCacheTtl m)); [reflexivity | lia].
  - unfold getShardInfo_catch in Hfirst. rewrite Hempty in Hfirst.
    discriminate.
Qed.

Lemma getShardInfo_served_from_cache_witness :
  getShardInfo 60999 (fun _ _ => Thrown ThrowUndefined)
    (snd (fst (getShardInfo 1000
                 (fun _ _ => Returned [mkPod "caller-a" "Running"])
                 (new_ShardingManager (Some "caller-a") None None))))
  = (Returned (mkShardInfo 1 1),
     snd (fst (getShardInfo 1000
                 (fun _ _ => Returned [mkPod "caller-a" "Running"])
                 (new_ShardingManager (Some "caller-a") None None))),
     []).
Proof.
  apply (getShardInfo_served_from_cache 1000 60999
           (fun _ _ => Returned [mkPod "caller-a" "Running"])
           (fun _ _ => Thrown ThrowUndefined)
           (new_ShardingManager (Some "caller-a") None None)
           _ (mkShardInfo 1 1)
           [mkLog LvlInfo "Updated shard information"
              [("podName", JStr "caller-a"); ("shardIndex", JInt 1);
               ("totalShards", JInt 1)]]).
  - reflexivity.
  - reflexivity.
  - lia.
  - cbn. lia.
Defined.

(** X7. When the cache is not served and the refresh fails, because the
    cluster API fails or because this pod is not among the running pods of
    the listing, [getShardInfo] returns the cached pair if there is one,
    leaving the manager (and so the time of the last update) unchanged and
    logging an error and a warning; with no cached pair it throws: the
    error of the API, or "Current pod ... not found in running pods
    list".  The error record carries [this.podName] as it is, [undefined]
    when [POD_NAME] is not set. *)
Theorem getShardInfo_refresh_failure (now : Z)
    (listNamespacedPod : string -> string -> Completion (list Pod))
    (m : Manager) (error : Exn) :
  cache_is_fresh now m = false ->
  listNamespacedPod (podNamespace m) ("app=" ++ daemonSetName m)%string
  = Thrown error
  \/ (exists items,
        listNamespacedPod (podNamespace m) ("app=" ++ daemonSetName m)%string
        = Returned items
        /\ (forall name, podName m = Some name ->
              ~ In name
                  (map metadata_name
                     (filter (fun pod =>
                                String.eqb (status_phase pod) "Running")
                        items)))
        /\ error
           = ThrowObj (new_Error
               ("Current pod " ++ template (this_podName m)
                ++ " not found in running pods list"))) ->
  match shardInfo m with
  | Some cached =>
      getShardInfo now listNamespacedPod m
      = (Returned cached, m,
         [mkLog LvlError "Failed to get shard information"
            [("podName", this_podName m);
             ("namespace", JStr (podNamespace m))];
          mkLog LvlWarn "Using cached shard info due to API error" []])
  | None =>
      getShardInfo now listNamespacedPod m
      = (Thrown error, m,
         [mkLog LvlError "Failed to get shard information"
            [("podName", this_podName m);
             ("namespace", JStr (podNamespace m))]])
  end.
Proof.
  intros Hfresh Hfail.
  assert (Hrun : getShardInfo now listNamespacedPod m
                 = getShardInfo_catch error m).
  { rewrite getShardInfo_not_fresh by exact Hfresh.
    unfold getShardInfo_refresh.
    destruct Hfail as [Hlist | (items & Hlist & Habsent & ->)];
      rewrite Hlist; [reflexivity |].
    assert (Hidx : indexOf (podName m) (running_pods items) = -1).
    { destruct (podName m) as [name |] eqn:Hname; [| reflexivity].
      cbn [indexOf].
      destruct (Z.eq_dec (indexOf_from 0 name (running_pods items)) (-1))
        as [E | N]; [exact E |].
      apply indexOf_from_found in N; [| lia].
      unfold running_pods in N. rewrite sort_In in N.
      exfalso. exact (Habsent name eq_refl N). }
    now rewrite Hidx. }
  rewrite Hrun. unfold getShardInfo_catch.
  now destruct (shardInfo m).
Qed.

Lemma getShardInfo_refresh_failure_witness :
  getShardInfo 70000
    (fun _ _ => Returned [mkPod "caller-b" "Running";
                          mkPod "caller-a" "Failed"])
    (set_cache (mkShardInfo 1 2) 1000
       (new_ShardingManager (Some "caller-a") None None))
  = (Returned (mkShardInfo 1 2),
     set_cache (mkShardInfo 1 2) 1000
       (new_ShardingManager (Some "caller-a") None None),
     [mkLog LvlError "Failed to get shard information"
        [("podName", JStr "caller-a"); ("namespace", JStr "default")];
      mkLog LvlWarn "Using cached shard info due to API error" []]).
Proof.
  apply (getShardInfo_refresh_failure 70000
           (fun _ _ => Returned [mkPod "caller-b" "Running";
                                 mkPod "caller-a" "Failed"])
           (set_cache (mkShardInfo 1 2) 1000
              (new_ShardingManager (Some "caller-a") None None))
           (ThrowObj (new_Error
              "Current pod caller-a not found in running pods list"))).
  - reflexivity.
  - right. exists [mkPod "caller-b" "Running"; mkPod "caller-a" "Failed"].
    split; [reflexivity |]. split; [| reflexivity].
    intros name Hname. injection Hname as <-.
    cbn. intros [H | []]. discriminate H.
Defined.

(** Without [POD_NAME] no refresh finds this pod: the call throws "Current
    pod undefined not found ..." and the error record carries [undefined]
    as the pod name. *)
Lemma getShardInfo_without_pod_name_example :
  getShardInfo 1000 (fun _ _ => Returned [mkPod "caller-a" "Running"])
    (new_ShardingManager None None None)
  = (Thrown (ThrowObj (new_Error
       "Current pod undefined not found in running pods list")),
     new_ShardingManager None None None,
     [mkLog LvlError "Failed to get shard information"
        [("podName", JUndefined); ("namespace", JStr "default")]]).
Proof. reflexivity. Qed.

Lemma perm_filter {X : Type} (p : X -> bool) (l l' : list X) :
  Permutation l l' -> Permutation (filter p l) (filter p l').
Proof.
  induction 1 as [| x l l' _ IH | x y l | l l' l'' _ IH1 _ IH2]; cbn.
  - constructor.
  - destruct (p x); [now constructor | exact IH].
  - destruct (p x), (p y); try apply Permutation_refl.
    apply perm_swap.
  - eapply Permutation_trans; eassumption.
Qed.

Lemma indexOf_from_of_nth (name : string) (l : list string) :
  NoDup l ->
  forall k position,
    nth_error l k = Some name ->
    indexOf_from position name l = position + Z.of_nat k.
Proof.
  induction l as [| x l IH]; intros Hnd k position Hk;
    [destruct k; discriminate |].
  inversion Hnd as [| ? ? Hx Hl]; subst. cbn [indexOf_from].
  destruct k as [| k]; cbn in Hk.
  - injection Hk as ->. rewrite String.eqb_refl. lia.
  - destruct (String.eqb_spec x name) as [-> | N].
    + exfalso. apply Hx. eapply nth_error_In. exact Hk.
    + rewrite (IH Hl k (position + 1) Hk). lia.
Qed.

(** The pair that a pod computes from any listing of the same pods. *)
Lemma refresh_of_listing (now : Z)
    (listNamespacedPod : string -> string -> Completion (list Pod))
    (m : Manager) (items listing : list Pod) (name : string) :
  podName m = Some name ->
  cache_is_fresh now m = false ->
  listNamespacedPod (podNamespace m) ("app=" ++ daemonSetName m)%string
  = Returned listing ->
  Permutation listing items ->
  In name
    (map metadata_name
       (filter (fun pod => String.eqb (status_phase pod) "Running") items)) ->
  fst (fst (getShardInfo now listNamespacedPod m))
  = Returned
      (mkShardInfo
         (1 + Z.of_nat
                (names_before name
                   (map metadata_name
                      (filter (fun pod =>
                                 String.eqb (status_phase pod) "Running")
                         items))))
         (Z.of_nat
            (List.length
               (map metadata_name
                  (filter (fun pod =>
                             String.eqb (status_phase pod) "Running")
                     items))))).
Proof.
  intros Hname Hfresh Hlist Hperm Hin.
  assert (Hnames :
            Permutation
              (map metadata_name
                 (filter (fun pod => String.eqb (status_phase pod) "Running")
                    listing))
              (map metadata_name
                 (filter (fun pod => String.eqb (status_phase pod) "Running")
                    items)))
    by (apply Permutation_map, perm_filter, Hperm).
  destruct (refresh_position now listNamespacedPod m listing name Hfresh
              Hlist Hname)
    as (info & Hrun & _ & Htotal & Hindex & _).
  { eapply Permutation_in; [apply Permutation_sym; exact Hnames | exact Hin]. }
  rewrite Hrun. destruct info as [index total].
  cbn [shardIndex totalShards] in *. subst index total.
  rewrite (names_before_perm name _ _ Hnames).
  rewrite <- (Permutation_length Hnames), length_map.
  reflexivity.
Qed.

(** X8. For a set of running pods with distinct names, not empty, and
    every id >= 0, exactly one running pod owns the id: it is the only one
    for which the pair returned by its own [getShardInfo], computed from any
    listing of these pods in any order, satisfies [shouldProcessId]. *)
Theorem fleet_partition (items : list Pod) (id : Z) :
  NoDup (map metadata_name
           (filter (fun pod => String.eqb (status_phase pod) "Running")
              items)) ->
  map metadata_name
    (filter (fun pod => String.eqb (status_phase pod) "Running") items)
  <> [] ->
  0 <= id ->
  exists! name,
    In name
      (map metadata_name
         (filter (fun pod => String.eqb (status_phase pod) "Running") items))
    /\ forall now listNamespacedPod m listing,
         podName m = Some name ->
         cache_is_fresh now m = false ->
         listNamespacedPod (podNamespace m) ("app=" ++ daemonSetName m)%string
         = Returned listing ->
         Permutation listing items ->
         exists info,
           fst (fst (getShardInfo now listNamespacedPod m)) = Returned info
           /\ shouldProcessId id (shardIndex info) (totalShards info) = true.
Proof.
  set (names := map metadata_name
                  (filter (fun pod => String.eqb (status_phase pod) "Running")
                     items)).
  intros Hnd Hne Hid.
  assert (Hlen : (0 < List.length names)%nat)
    by (destruct names; [contradiction | cbn; lia]).
  set (t := Z.of_nat (List.length names)).
  assert (Hmod : 0 <= id mod t < t) by (apply Z.mod_pos_bound; lia).
  assert (Hsorted_nd : NoDup (sort names)) by now apply sort_NoDup.
  destruct (nth_error (sort names) (Z.to_nat (id mod t))) as [owner |] eqn:Hnth.
  2: { apply nth_error_None in Hnth. rewrite sort_length in Hnth. lia. }
  assert (Hbefore : forall name k,
            nth_error (sort names) k = Some name ->
            names_before name names = k).
  { intros name k Hk.
    pose proof (indexOf_from_of_nth name (sort names) Hsorted_nd k 0 Hk) as Hi.
    assert (Hfound : indexOf_from 0 name (sort names) <> -1) by lia.
    pose proof (indexOf_from_names_before name (sort names) (sort_sorted _)
                  0 ltac:(lia) Hfound) as Hb.
    rewrite names_before_sort in Hb. lia. }
  assert (Hown : forall name,
            In name names ->
            shouldProcessId id (1 + Z.of_nat (names_before name names)) t
            = true
            <-> Z.of_nat (names_before name names) = id mod t).
  { intros name Hin. rewrite shouldProcessId_spec by lia.
    rewrite Z.rem_mod_nonneg by lia. lia. }
  exists owner. split.
  - assert (Hin : In owner names)
      by (apply sort_In; eapply nth_error_In; exact Hnth).
    split; [exact Hin |].
    intros now listNamespacedPod m listing Hname Hfresh Hlist Hperm.
    eexists. split.
    + eapply refresh_of_listing; eassumption.
    + cbn [shardIndex totalShards]. apply (Hown owner Hin).
      rewrite (Hbefore owner _ Hnth). lia.
  - intros name [Hin Hprop].
    destruct (Hprop 0 (fun _ _ => Returned items)
                (new_ShardingManager (Some name) None None) items
                eq_refl eq_refl eq_refl (Permutation_refl _))
      as (info & Hrun & Hshould).
    rewrite (refresh_of_listing 0 (fun _ _ => Returned items)
               (new_ShardingManager (Some name) None None) items items name
               eq_refl eq_refl eq_refl (Permutation_refl _) Hin) in Hrun.
    injection Hrun as <-. cbn [shardIndex totalShards] in Hshould.
    apply (Hown name Hin) in Hshould.
    assert (Hname_nth : nth_error (sort names) (names_before name names)
                        = Some name).
    { assert (Hfound : indexOf_from 0 name (sort names) <> -1)
        by (apply indexOf_from_found; [lia | now apply sort_In]).
      pose proof (indexOf_from_nth name (sort names) 0 ltac:(lia) Hfound)
        as Hn.
      pose proof (indexOf_from_names_before name (sort names) (sort_sorted _)
                    0 ltac:(lia) Hfound) as Hb.
      rewrite names_before_sort in Hb. rewrite Hb, Nat2Z.id in Hn.
      exact Hn. }
    replace (Z.to_nat (id mod t)) with (names_before name names) in Hnth
      by lia.
    congruence.
Qed.

Lemma fleet_partition_witness :
  exists! name,
    In name
      (map metadata_name
         (filter (fun pod => String.eqb (status_phase pod) "Running")
            [mkPod "caller-b" "Running"; mkPod "caller-a" "Running";
             mkPod "caller-c" "Pending"]))
    /\ forall now listNamespacedPod m listing,
         podName m = Some name ->
         cache_is_fresh now m = false ->
         listNamespacedPod (podNamespace m) ("app=" ++ daemonSetName m)%string
         = Returned listing ->
         Permutation listing
           [mkPod "caller-b" "Running"; mkPod "caller-a" "Running";
            mkPod "caller-c" "Pending"] ->
         exists info,
           fst (fst (getShardInfo now listNamespacedPod m)) = Returned info
           /\ shouldProcessId 7 (shardIndex info) (totalShards info) = true.
Proof.
  apply (fleet_partition
           [mkPod "caller-b" "Running"; mkPod "caller-a" "Running";
            mkPod "caller-c" "Pending"] 7).
  - cbn. repeat constructor; cbn; intuition discriminate.
  - cbn. discriminate.
  - lia.
Defined.

(** X9. On a manager whose cache is empty or in range,
    [validateShardConfig] answers [true] exactly when [POD_NAME] is set and
    not empty and [getShardInfo] returns a pair: its two range tests never
    reject what [getShardInfo] returns. *)
Theorem validateShardConfig_accepts (now : Z)
    (listNamespacedPod : string -> string -> Completion (list Pod))
    (m : Manager) :
  cache_in_range m ->
  fst (fst (validateShardConfig now listNamespacedPod m)) = true
  <-> podName_missing m = false
      /\ exists info,
           fst (fst (getShardInfo now listNamespacedPod m)) = Returned info.
Proof.
  intro Hcache. unfold validateShardConfig.
  destruct (podName_missing m); [cbn; split; [discriminate | intros [H _]; discriminate] |].
  pose proof (getShardInfo_range_cases now listNamespacedPod m Hcache) as Hrange.
  destruct (getShardInfo now listNamespacedPod m) as [[[info | error] m'] logs];
    cbn [fst snd].
  - destruct Hrange as [[Hlo Hhi] _].
    destruct (Z.ltb_spec (shardIndex info) 1); [lia |].
    destruct (Z.gtb_spec (shardIndex info) (totalShards info)); [lia |].
    destruct (Z.ltb_spec (totalShards info) 1); [lia |].
    cbn. split; [intros _; split; [reflexivity | now exists info] | reflexivity].
  - split; [discriminate | intros [_ [info H]]; discriminate].
Qed.

Lemma validateShardConfig_accepts_witness :
  fst (fst (validateShardConfig 1000
              (fun _ _ => Returned [mkPod "caller-a" "Running"])
              (new_ShardingManager (Some "caller-a") None None))) = true
  <-> podName_missing (new_ShardingManager (Some "caller-a") None None) = false
      /\ exists info,
           fst (fst (getShardInfo 1000
                       (fun _ _ => Returned [mkPod "caller-a" "Running"])
                       (new_ShardingManager (Some "caller-a") None None)))
           = Returned info.
Proof.
  apply (validateShardConfig_accepts 1000
           (fun _ _ => Returned [mkPod "caller-a" "Running"])
           (new_ShardingManager (Some "caller-a") None None)).
  exact I.
Defined.

(* ================================================================== *)
(** ** Further properties of the Retell client *)
(* ================================================================== *)

Section MapRoundTrip.
Context {K V : Type}.
Variable eqb : K -> K -> bool.
Hypothesis eqb_eq : forall a b, eqb a b = true <-> a = b.

Lemma get_set_same (k : K) (v : V) (m : JsMap.t K V) :
  JsMap.get eqb k (JsMap.set eqb k v m) = Some v.
Proof.
  induction m as [| [k' v'] rest IH]; cbn.
  - now rewrite (eqb_refl_true eqb eqb_eq).
  - destruct (eqb k k') eqn:E; cbn.
    + now rewrite (eqb_refl_true eqb eqb_eq).
    + now rewrite E.
Qed.

Lemma get_set_other (k k' : K) (v : V) (m : JsMap.t K V) :
  k' <> k ->
  JsMap.get eqb k' (JsMap.set eqb k v m) = JsMap.get eqb k' m.
Proof.
  intro N. induction m as [| [k0 v0] rest IH]; cbn.
  - now rewrite (eqb_neq_false eqb eqb_eq k' k N).
  - destruct (eqb k k0) eqn:E; cbn.
    + apply eqb_eq in E. subst k0.
      now rewrite (eqb_neq_false eqb eqb_eq k' k N).
    + destruct (eqb k' k0); [reflexivity | exact IH].
Qed.

Lemma has_delete_same (k : K) (m : JsMap.t K V) :
  JsMap.has eqb k (JsMap.delete eqb k m) = false.
Proof.
  unfold JsMap.has, JsMap.delete.
  induction m as [| [k0 v0] rest IH]; cbn; [reflexivity |].
  destruct (eqb k k0) eqn:E; cbn; [exact IH |].
  now rewrite E.
Qed.

Lemma delete_absent (k : K) (m : JsMap.t K V) :
  JsMap.has eqb k m = false -> JsMap.delete eqb k m = m.
Proof.
  unfold JsMap.has, JsMap.delete.
  induction m as [| [k0 v0] rest IH]; cbn; [reflexivity |].
  destruct (eqb k k0) eqn:E; cbn; [discriminate |].
  intro H. now rewrite IH.
Qed.

Lemma delete_set_absent (k : K) (v : V) (m : JsMap.t K V) :
  JsMap.has eqb k m = false ->
  JsMap.delete eqb k (JsMap.set eqb k v m) = m.
Proof.
  unfold JsMap.has, JsMap.delete.
  induction m as [| [k0 v0] rest IH]; cbn.
  - now rewrite (eqb_refl_true eqb eqb_eq).
  - destruct (eqb k k0) eqn:E; cbn; [discriminate |].
    intro H. rewrite E. cbn. now rewrite IH.
Qed.
End MapRoundTrip.

(** What [createPhoneCall] does for a survey that is not in flight and
    whose id has a string form, by the answer of the remote API. *)
Lemma createPhoneCall_run (surveyData : SurveyData) (w : World)
    (sid : string) :
  JsMap.has JsValue_eqb (survey_id surveyData)
    (activeSurveys (retellClient w)) = false ->
  toString (survey_id surveyData) = Returned sid ->
  Retell.createPhoneCall surveyData w
  = match retell_service w (List.length (retell_requests w))
            (call_payload (retellClient w) surveyData sid) with
    | Returned response =>
        (Returned response,
         mkWorld
           (client_tracking (retellClient w) surveyData response (clock w))
           (isShuttingDown w) (clock w)
           (logs w ++
            [mkLog LvlInfo "Creating Retell phone call"
               [("surveyId", survey_id surveyData);
                ("toNumber", text (client_phone_number surveyData));
                ("customerName", text (customer_name surveyData))];
             mkLog LvlInfo "Retell phone call created successfully"
               [("surveyId", survey_id surveyData);
                ("callId", JStr (call_id response));
                ("agentId", text (agent_id response))]])
           (retell_service w)
           (retell_requests w
            ++ [call_payload (retellClient w) surveyData sid])
           (db w) (db_statements w) (shard_info w))
    | Thrown error =>
        (Thrown error,
         mkWorld (retellClient w) (isShuttingDown w) (clock w)
           (logs w ++
            [mkLog LvlInfo "Creating Retell phone call"
               [("surveyId", survey_id surveyData);
                ("toNumber", text (client_phone_number surveyData));
                ("customerName", text (customer_name surveyData))];
             mkLog LvlError "Failed to create Retell phone call"
               [("surveyId", survey_id surveyData);
                ("toNumber", text (client_phone_number surveyData))]])
           (retell_service w)
           (retell_requests w
            ++ [call_payload (retellClient w) surveyData sid])
           (db w) (db_statements w) (shard_info w))
    end.
Proof.
  intros Hhas Hsid.
  unfold Retell.createPhoneCall, Retell.isSurveyBeingProcessed,
    Retell.get_activeSurveys, Retell.get_activeCalls, Retell.put_activeCalls,
    Retell.put_activeSurveys, Retell.client_call_createPhoneCall, new_Date,
    try_catch, bind, gets, ret, throw, lift, logger, write_log, modify.
  cbv beta iota. rewrite Hhas, Hsid.
  destruct w as [[from agent calls surveys] flag clk lg svc reqs d sts si].
  unfold call_payload, client_tracking, set_logs, set_retellClient,
    set_retell_requests, set_activeCalls, set_activeSurveys.
  cbn [retellClient fromNumber agentId activeCalls activeSurveys
       isShuttingDown clock logs retell_service retell_requests db
       db_statements shard_info List.length].
  destruct (svc (List.length reqs) _) as [response | error].
  - cbn [retellClient fromNumber agentId activeCalls activeSurveys
         isShuttingDown clock logs retell_service retell_requests db
         db_statements shard_info].
    now rewrite <- app_assoc.
  - cbn [retellClient fromNumber agentId activeCalls activeSurveys
         isShuttingDown clock logs retell_service retell_requests db
         db_statements shard_info].
    now rewrite <- app_assoc.
Qed.

(** X10. When the survey is not in flight, its id has a string form and
    the remote API accepts the request, [createPhoneCall] returns the
    response, sends exactly the one request built from the row (recipient,
    dynamic variables, the id in decimal as metadata), and records the call
    under its call id and the survey under its id, both stamped with the
    current time; the survey is then reported as being processed, and a
    second [createPhoneCall] for it is refused as a duplicate without a
    request. *)
Theorem createPhoneCall_tracks_accepted_call
    (surveyData : SurveyData) (w : World) (sid : string)
    (response : PhoneCallResponse) :
  JsMap.has JsValue_eqb (survey_id surveyData)
    (activeSurveys (retellClient w)) = false ->
  toString (survey_id surveyData) = Returned sid ->
  retell_service w (List.length (retell_requests w))
    (call_payload (retellClient w) surveyData sid) = Returned response ->
  exists w',
    Retell.createPhoneCall surveyData w = (Returned response, w')
    /\ retellClient w'
       = client_tracking (retellClient w) surveyData response (clock w)
    /\ retell_requests w'
       = retell_requests w ++ [call_payload (retellClient w) surveyData sid]
    /\ JsMap.get JsValue_eqb (survey_id surveyData)
         (activeSurveys (retellClient w'))
       = Some (mkSurveyInfo (call_id response) (clock w)
                 (customer_name surveyData) (client_phone_number surveyData))
    /\ JsMap.get String.eqb (call_id response) (activeCalls (retellClient w'))
       = Some (mkCallInfo (survey_id surveyData) (clock w)
                 (customer_name surveyData) (client_phone_number surveyData))
    /\ fst (Retell.isSurveyBeingProcessed (survey_id surveyData) w')
       = Returned true
    /\ exists e w'',
         Retell.createPhoneCall surveyData w' = (Thrown (ThrowObj e), w'')
         /\ Retell.duplicate e = true
         /\ retell_requests w'' = retell_requests w'
         /\ retellClient w'' = retellClient w'.
Proof.
  intros Hhas Hsid Hservice.
  pose proof (createPhoneCall_run surveyData w sid Hhas Hsid) as Hrun.
  rewrite Hservice in Hrun.
  eexists. split; [exact Hrun |].
  cbn [retellClient retell_requests].
  assert (Hget : JsMap.get JsValue_eqb (survey_id surveyData)
                   (activeSurveys
                      (client_tracking (retellClient w) surveyData response
                         (clock w)))
                 = Some (mkSurveyInfo (call_id response) (clock w)
                           (customer_name surveyData)
                           (client_phone_number surveyData))).
  { unfold client_tracking. cbn [activeSurveys].
    apply (get_set_same JsValue_eqb JsValue_eqb_eq). }
  split; [reflexivity |]. split; [reflexivity |]. split; [exact Hget |].
  split.
  { unfold client_tracking. cbn [activeCalls].
    apply (get_set_same String.eqb string_eqb_eq). }
  split.
  { unfold Retell.isSurveyBeingProcessed, Retell.get_activeSurveys, bind,
      gets, ret, JsMap.has. cbn [retellClient fst]. now rewrite Hget. }
  eexists. eexists. split.
  - apply createPhoneCall_duplicate. cbn [retellClient]. exact Hget.
  - split; [apply already_being_processed_message |].
    split; reflexivity.
Qed.

Lemma createPhoneCall_tracks_accepted_call_witness :
  exists w',
    Retell.createPhoneCall Examples.survey_data_5 Examples.world0
    = (Returned (mkPhoneCallResponse "call_5"
                   (Some "agent_826371748c85ca36277cae28c2")), w')
    /\ JsMap.keys (activeSurveys (retellClient w')) = [JInt 5]
    /\ JsMap.keys (activeCalls (retellClient w')) = ["call_5"]
    /\ map metadata_survey_id (retell_requests w') = ["5"].
Proof.
  destruct (createPhoneCall_tracks_accepted_call Examples.survey_data_5
              Examples.world0 "5"
              (mkPhoneCallResponse "call_5"
                 (Some "agent_826371748c85ca36277cae28c2"))
              eq_refl eq_refl eq_refl)
    as (w' & Hrun & Hclient & Hreqs & _).
  exists w'. split; [exact Hrun |].
  rewrite Hclient, Hreqs. repeat split; reflexivity.
Defined.

(** X11. Whenever [createPhoneCall] throws, for whatever reason, the
    tracking maps are as before and at most one request was sent; when the
    remote API refuses the request, what is thrown is the error of the API
    itself. *)
Theorem createPhoneCall_failure_tracks_nothing
    (surveyData : SurveyData) (w w' : World) (error : Exn) :
  Retell.createPhoneCall surveyData w = (Thrown error, w') ->
  retellClient w' = retellClient w
  /\ (retell_requests w' = retell_requests w
      \/ exists payload,
           retell_requests w' = retell_requests w ++ [payload]
           /\ retell_service w (List.length (retell_requests w)) payload
              = Thrown error)
  /\ db w' = db w.
Proof.
  intro Hrun.
  destruct (JsMap.has JsValue_eqb (survey_id surveyData)
              (activeSurveys (retellClient w))) eqn:Hhas.
  - destruct (has_get _ _ Hhas) as [existing Hget].
    rewrite (createPhoneCall_duplicate _ _ _ Hget) in Hrun.
    injection Hrun as _ <-. repeat split; try reflexivity. now left.
  - destruct (toString (survey_id surveyData)) as [sid | te] eqn:Hsid.
    + rewrite (createPhoneCall_run surveyData w sid Hhas Hsid) in Hrun.
      destruct (retell_service w (List.length (retell_requests w))
                  (call_payload (retellClient w) surveyData sid))
        as [response | e] eqn:Hsvc; [discriminate |].
      injection Hrun as <- <-. cbn [retellClient retell_requests db].
      split; [reflexivity |]. split; [| reflexivity].
      right. eexists. split; [reflexivity | exact Hsvc].
    + unfold Retell.createPhoneCall, Retell.isSurveyBeingProcessed,
        Retell.get_activeSurveys, try_catch, bind, gets, ret, throw, lift,
        logger, write_log, modify in Hrun.
      cbv beta iota in Hrun. rewrite Hhas, Hsid in Hrun.
      cbv beta iota in Hrun. injection Hrun as _ <-.
      destruct w. repeat split; try reflexivity. now left.
Qed.

Lemma createPhoneCall_failure_tracks_nothing_witness :
  retellClient
    (snd (Retell.createPhoneCall Examples.survey_data_5
            Examples.world_shutting_down))
  = retellClient Examples.world_shutting_down.
Proof.
  apply (createPhoneCall_failure_tracks_nothing Examples.survey_data_5
           Examples.world_shutting_down
           (snd (Retell.createPhoneCall Examples.survey_data_5
                   Examples.world_shutting_down))
           (ThrowObj Examples.server_error)).
  reflexivity.
Defined.

(** X12. A row whose survey id is [undefined] or [null] (and not tracked
    as such) makes [createPhoneCall] throw a [TypeError] while it builds the
    request: nothing is sent to the remote API, nothing is tracked, and one
    error record is written. *)
Theorem createPhoneCall_rejects_missing_id (surveyData : SurveyData)
    (w : World) :
  survey_id surveyData = JUndefined \/ survey_id surveyData = JNull ->
  JsMap.has JsValue_eqb (survey_id surveyData)
    (activeSurveys (retellClient w)) = false ->
  exists e w',
    Retell.createPhoneCall surveyData w = (Thrown (ThrowObj e), w')
    /\ err_name e = "TypeError"
    /\ retell_requests w' = retell_requests w
    /\ retellClient w' = retellClient w
    /\ logs w'
       = logs w ++
         [mkLog LvlError "Failed to create Retell phone call"
            [("surveyId", survey_id surveyData);
             ("toNumber", text (client_phone_number surveyData))]].
Proof.
  intros Hid Hhas.
  unfold Retell.createPhoneCall, Retell.isSurveyBeingProcessed,
    Retell.get_activeSurveys, try_catch, bind, gets, ret, throw, lift,
    logger, write_log, modify.
  cbv beta iota. rewrite Hhas.
  destruct w as [c flag clk lg svc reqs d sts si].
  destruct Hid as [-> | ->]; cbn; eexists; eexists;
    (split; [reflexivity |]); repeat split; reflexivity.
Qed.

Lemma createPhoneCall_rejects_missing_id_witness :
  exists e w',
    Retell.createPhoneCall
      (mkSurveyData JNull None None None None None None None None None None
         None None None None None None None) Examples.world0
    = (Thrown (ThrowObj e), w')
    /\ err_name e = "TypeError"
    /\ retell_requests w' = retell_requests Examples.world0.
Proof.
  destruct (createPhoneCall_rejects_missing_id
              (mkSurveyData JNull None None None None None None None None
                 None None None None None None None None None)
              Examples.world0 (or_intror eq_refl) eq_refl)
    as (e & w' & Hrun & Hname & Hreqs & _).
  exists e, w'. auto.
Defined.

(* ================================================================== *)
(** ** Further properties of the staleness sweep *)
(* ================================================================== *)

Lemma kept_all {K V : Type} (createdAt : V -> Z) (now maxAgeMs : Z)
    (m : JsMap.t K V) :
  Retell.evicted createdAt now maxAgeMs m = [] ->
  Retell.kept createdAt now maxAgeMs m = m.
Proof.
  unfold Retell.evicted, Retell.kept.
  induction m as [| kv m IH]; cbn; [reflexivity |].
  destruct (now - createdAt (snd kv) >? maxAgeMs); cbn; [discriminate |].
  intro H. now rewrite IH.
Qed.

Lemma evicted_kept {K V : Type} (createdAt : V -> Z) (now maxAgeMs : Z)
    (m : JsMap.t K V) :
  Retell.evicted createdAt now maxAgeMs
    (Retell.kept createdAt now maxAgeMs m) = [].
Proof.
  unfold Retell.evicted, Retell.kept. rewrite filter_filter_andb.
  apply filter_none. intros kv _.
  now destruct (now - createdAt (snd kv) >? maxAgeMs).
Qed.

Lemma cleanupOldCalls_nothing_old (maxAgeMs : Z) (w : World) :
  JsMap.unique_keys String.eqb (activeCalls (retellClient w)) = true ->
  JsMap.unique_keys JsValue_eqb (activeSurveys (retellClient w)) = true ->
  Retell.evicted ci_createdAt (clock w) maxAgeMs
    (activeCalls (retellClient w)) = [] ->
  Retell.evicted si_createdAt (clock w) maxAgeMs
    (activeSurveys (retellClient w)) = [] ->
  Retell.cleanupOldCalls maxAgeMs w = (Returned JUndefined, w).
Proof.
  intros Hcalls Hsurveys Hc Hs.
  rewrite (cleanupOldCalls_run maxAgeMs w Hcalls Hsurveys).
  rewrite Hc, Hs, (kept_all _ _ _ _ Hc), (kept_all _ _ _ _ Hs).
  destruct w as [[from agent calls surveys] flag clk lg svc reqs d sts si].
  cbn. now rewrite app_nil_r.
Qed.

(** X13. The sweep is idempotent: when no entry is older than
    [maxAgeMs] it changes nothing and writes nothing, and that is the case
    right after a sweep, so a second sweep at the same time is a no-op. *)
Theorem cleanupOldCalls_idempotent (maxAgeMs : Z) (w : World) :
  JsMap.unique_keys String.eqb (activeCalls (retellClient w)) = true ->
  JsMap.unique_keys JsValue_eqb (activeSurveys (retellClient w)) = true ->
  (Retell.evicted ci_createdAt (clock w) maxAgeMs
     (activeCalls (retellClient w)) = [] ->
   Retell.evicted si_createdAt (clock w) maxAgeMs
     (activeSurveys (retellClient w)) = [] ->
   Retell.cleanupOldCalls maxAgeMs w = (Returned JUndefined, w))
  /\ Retell.cleanupOldCalls maxAgeMs
       (snd (Retell.cleanupOldCalls maxAgeMs w))
     = (Returned JUndefined, snd (Retell.cleanupOldCalls maxAgeMs w)).
Proof.
  intros Hcalls Hsurveys.
  split; [now apply cleanupOldCalls_nothing_old |].
  rewrite (cleanupOldCalls_run maxAgeMs w Hcalls Hsurveys). cbn [snd].
  apply cleanupOldCalls_nothing_old;
    unfold set_logs, set_retellClient;
    cbn [retellClient activeCalls activeSurveys clock].
  - now apply (unique_keys_filter String.eqb string_eqb_eq).
  - now apply (unique_keys_filter JsValue_eqb JsValue_eqb_eq).
  - apply evicted_kept.
  - apply evicted_kept.
Qed.

Lemma cleanupOldCalls_idempotent_witness :
  Retell.cleanupOldCalls (30 * Examples.minute)
    (snd (Retell.cleanupOldCalls (30 * Examples.minute) Examples.world_aged))
  = (Returned JUndefined,
     snd (Retell.cleanupOldCalls (30 * Examples.minute) Examples.world_aged)).
Proof.
  apply (cleanupOldCalls_idempotent (30 * Examples.minute) Examples.world_aged);
    reflexivity.
Defined.

(** X14. After a sweep the exclusion list of the dequeue holds exactly the
    integer keys whose entry was young enough to stay: a tracked survey
    older than [maxAgeMs] leaves the list, and so can be claimed again,
    while a younger one stays excluded. *)
Theorem cleanupOldCalls_releases_stale_ids (maxAgeMs : Z) (w : World)
    (k : JsValue) (info : SurveyInfo) :
  JsMap.unique_keys String.eqb (activeCalls (retellClient w)) = true ->
  JsMap.unique_keys JsValue_eqb (activeSurveys (retellClient w)) = true ->
  In (k, info) (activeSurveys (retellClient w)) ->
  In k (Db.activeSurveyIds_of
          (activeSurveys
             (retellClient (snd (Retell.cleanupOldCalls maxAgeMs w)))))
  <-> Number_isInteger k = true /\ clock w - si_createdAt info <= maxAgeMs.
Proof.
  intros Hcalls Hsurveys Hin.
  rewrite (cleanupOldCalls_run maxAgeMs w Hcalls Hsurveys).
  unfold set_logs, set_retellClient.
  cbn [snd retellClient activeSurveys].
  unfold Db.activeSurveyIds_of, JsMap.keys, Retell.kept.
  rewrite filter_In, in_map_iff. split.
  - intros [[[k' info'] [Hk Hkept]] Hint]. cbn in Hk. subst k'.
    apply filter_In in Hkept as [Hin' Hyoung]. cbn [snd] in Hyoung.
    pose proof (In_unique_get JsValue_eqb JsValue_eqb_eq k info _ Hsurveys Hin)
      as G1.
    pose proof (In_unique_get JsValue_eqb JsValue_eqb_eq k info' _ Hsurveys
                  Hin') as G2.
    assert (info' = info) by congruence. subst info'.
    split; [exact Hint |].
    destruct (Z.gtb_spec (clock w - si_createdAt info) maxAgeMs);
      [discriminate | lia].
  - intros [Hint Hyoung]. split; [| exact Hint].
    exists (k, info). split; [reflexivity |].
    apply filter_In. split; [exact Hin |]. cbn [snd].
    destruct (Z.gtb_spec (clock w - si_createdAt info) maxAgeMs);
      [lia | reflexivity].
Qed.

Lemma cleanupOldCalls_releases_stale_ids_witness :
  In (JInt 2)
    (Db.activeSurveyIds_of
       (activeSurveys
          (retellClient
             (snd (Retell.cleanupOldCalls (30 * Examples.minute)
                     Examples.world_aged)))))
  <-> Number_isInteger (JInt 2) = true
      /\ clock Examples.world_aged
         - si_createdAt (Examples.tracked "call_b" (31 * Examples.minute))
         <= 30 * Examples.minute.
Proof.
  apply (cleanupOldCalls_releases_stale_ids (30 * Examples.minute)
           Examples.world_aged (JInt 2)
           (Examples.tracked "call_b" (31 * Examples.minute))).
  - reflexivity.
  - reflexivity.
  - right. left. reflexivity.
Defined.

(* ================================================================== *)
(** ** Further properties of the dequeue *)
(* ================================================================== *)

Lemma createPhoneCall_returned_tracks (surveyData : SurveyData)
    (w w' : World) (response : PhoneCallResponse) :
  Retell.createPhoneCall surveyData w = (Returned response, w') ->
  retellClient w'
  = client_tracking (retellClient w) surveyData response (clock w).
Proof.
  intro Hrun.
  destruct (JsMap.has JsValue_eqb (survey_id surveyData)
              (activeSurveys (retellClient w))) eqn:Hhas.
  - destruct (has_get _ _ Hhas) as [existing Hget].
    rewrite (createPhoneCall_duplicate _ _ _ Hget) in Hrun. discriminate.
  - destruct (toString (survey_id surveyData)) as [sid | te] eqn:Hsid.
    + rewrite (createPhoneCall_run surveyData w sid Hhas Hsid) in Hrun.
      destruct (retell_service w (List.length (retell_requests w))
                  (call_payload (retellClient w) surveyData sid))
        as [r | e]; [| discriminate].
      now injection Hrun as <- <-.
    + unfold Retell.createPhoneCall, Retell.isSurveyBeingProcessed,
        Retell.get_activeSurveys, try_catch, bind, gets, ret, throw, lift,
        logger, write_log, modify in Hrun.
      cbv beta iota in Hrun. rewrite Hhas, Hsid in Hrun.
      cbv beta iota in Hrun. discriminate.
Qed.

(** The dequeue does not hand out an id that is a key of the exclusion
    map. *)
Lemma dequeue_excludes_tracked (shardIndex totalShards id : Z)
    (m : JsMap.t JsValue SurveyInfo) (w w' : World) (row : SurveyData) :
  JsMap.has JsValue_eqb (JInt id) m = true ->
  Db.getNextSurveyResponse shardIndex totalShards m w
  = (Returned (Some row), w') ->
  survey_id row <> JInt id.
Proof.
  intros Hhas Hrun Hid.
  apply getNextSurveyResponse_Some_inv in Hrun as [rest Hsel].
  apply select_next_first in Hsel as (excluded & [sr c] & t & Hids & Hf & ->).
  cbn in Hid. injection Hid as Hid. subst id.
  assert (Hin : In (sr, c)
                  (filter (Db.lockable (db w))
                     (Db.order_by
                        (Db.candidates (db w) shardIndex totalShards
                           excluded))))
    by (rewrite Hf; now left).
  apply filter_In in Hin as [Hin _]. rewrite order_by_In in Hin.
  rewrite (candidates_In (db w) shardIndex totalShards _ excluded sr c Hids)
    in Hin.
  destruct Hin as (_ & _ & Hel). unfold Db.eligible in Hel.
  destruct Hel as (_ & _ & _ & _ & _ & _ & Hnot).
  apply Hnot. unfold Db.activeSurveyIds_of. apply filter_In.
  split; [| reflexivity].
  now apply (has_true_iff JsValue_eqb JsValue_eqb_eq).
Qed.

(** X15. A survey with an integer id whose call was accepted by
    [createPhoneCall] is tracked, and as long as it stays tracked the
    dequeue never hands it out again, whatever the shard pair and the state
    of the tables. *)
Theorem dispatched_survey_is_not_claimed_again
    (surveyData : SurveyData) (id : Z) (w w1 : World)
    (response : PhoneCallResponse) :
  Retell.createPhoneCall surveyData w = (Returned response, w1) ->
  survey_id surveyData = JInt id ->
  JsMap.has JsValue_eqb (JInt id) (activeSurveys (retellClient w1)) = true
  /\ forall shardIndex totalShards w2 row w3,
       JsMap.has JsValue_eqb (JInt id) (activeSurveys (retellClient w2))
       = true ->
       Db.getNextSurveyResponse shardIndex totalShards
         (activeSurveys (retellClient w2)) w2
       = (Returned (Some row), w3) ->
       survey_id row <> JInt id.
Proof.
  intros Hrun Hid. split.
  - rewrite (createPhoneCall_returned_tracks _ _ _ _ Hrun).
    unfold client_tracking, JsMap.has. cbn [activeSurveys]. rewrite Hid.
    now rewrite (get_set_same JsValue_eqb JsValue_eqb_eq).
  - intros shardIndex totalShards w2 row w3 Hhas Hnext.
    eapply dequeue_excludes_tracked; eassumption.
Qed.

Lemma dispatched_survey_is_not_claimed_again_witness :
  JsMap.has JsValue_eqb (JInt 5)
    (activeSurveys
       (retellClient
          (snd (Retell.createPhoneCall Examples.survey_data_5
                  Examples.world0)))) = true.
Proof.
  apply (dispatched_survey_is_not_claimed_again Examples.survey_data_5 5
           Examples.world0
           (snd (Retell.createPhoneCall Examples.survey_data_5
                   Examples.world0))
           (mkPhoneCallResponse "call_5"
              (Some "agent_826371748c85ca36277cae28c2"))).
  - reflexivity.
  - reflexivity.
Defined.

(** X16. The transaction protocol of the dequeue.  When the pool gives no
    connection, the error is thrown and no statement is sent.  Otherwise
    [BEGIN] is sent first; a run that returns has sent exactly [BEGIN], the
    [SELECT] and [COMMIT]; a run that throws has sent [ROLLBACK] last; and
    when the [SELECT] fails and the rollback goes through, the error thrown
    is that of the [SELECT]. *)
Theorem getNextSurveyResponse_transaction
    (shardIndex totalShards : Z) (m : JsMap.t JsValue SurveyInfo)
    (w : World) :
  (forall e,
     connect_fault (db w) = Some e ->
     Db.getNextSurveyResponse shardIndex totalShards m w
     = (Thrown (ThrowObj e), w))
  /\ (connect_fault (db w) = None ->
      match Db.getNextSurveyResponse shardIndex totalShards m w with
      | (Returned _, w') =>
          db_statements w'
          = db_statements w ++
            [StBegin;
             StSelectNext shardIndex totalShards (Db.activeSurveyIds_of m);
             StCommit]
      | (Thrown _, w') =>
          exists sent,
            db_statements w'
            = db_statements w ++ StBegin :: sent ++ [StRollback]
      end)
  /\ (forall e,
        connect_fault (db w) = None ->
        query_fault (db w) StBegin = None ->
        query_fault (db w)
          (StSelectNext shardIndex totalShards (Db.activeSurveyIds_of m))
        = Some e ->
        query_fault (db w) StRollback = None ->
        fst (Db.getNextSurveyResponse shardIndex totalShards m w)
        = Thrown (ThrowObj e)).
Proof.
  split; [| split].
  - intros e He.
    unfold Db.getNextSurveyResponse, bind, Db.pool_connect. now rewrite He.
  - intro Hc.
    unfold Db.getNextSurveyResponse, bind, try_finally, try_catch,
      Db.pool_connect, Db.client_query, Db.client_release, ret, throw,
      logger, write_log, modify.
    rewrite Hc. cbn.
    destruct (query_fault (db w) StBegin).
    { cbn. destruct (query_fault (db w) StRollback); cbn;
        exists []; now rewrite <- app_assoc. }
    cbn.
    destruct (query_fault (db w)
                (StSelectNext shardIndex totalShards
                   (Db.activeSurveyIds_of m))).
    { cbn. destruct (query_fault (db w) StRollback); cbn;
        eexists [_]; now rewrite <- !app_assoc. }
    destruct (Db.select_next (db w) shardIndex totalShards
                (Db.activeSurveyIds_of m)) as [rows | e].
    2: { cbn. destruct (query_fault (db w) StRollback); cbn;
           eexists [_]; now rewrite <- !app_assoc. }
    cbn.
    destruct (query_fault (db w) StCommit).
    { cbn. destruct (query_fault (db w) StRollback); cbn;
        eexists [_; _]; now rewrite <- !app_assoc. }
    destruct rows as [| r rest]; cbn; now rewrite <- !app_assoc.
  - intros e Hc Hb Hs Hr.
    unfold Db.getNextSurveyResponse, bind, try_finally, try_catch,
      Db.pool_connect, Db.client_query, Db.client_release, ret, throw,
      logger, write_log, modify.
    rewrite Hc. cbn. rewrite Hb. cbn. rewrite Hs. cbn. rewrite Hr.
    reflexivity.
Qed.

Lemma getNextSurveyResponse_transaction_witness :
  match Db.getNextSurveyResponse 2 2 [] Examples.world0 with
  | (Returned _, w') =>
      db_statements w'
      = db_statements Examples.world0 ++
        [StBegin; StSelectNext 2 2 (Db.activeSurveyIds_of []); StCommit]
  | (Thrown _, w') =>
      exists sent,
        db_statements w'
        = db_statements Examples.world0 ++ StBegin :: sent ++ [StRollback]
  end.
Proof.
  apply (proj1 (proj2 (getNextSurveyResponse_transaction 2 2 []
                         Examples.world0))).
  reflexivity.
Defined.

(** The dequeue writes the log and the list of statements only. *)
Lemma getNextSurveyResponse_keeps
    (shardIndex totalShards : Z) (m : JsMap.t JsValue SurveyInfo)
    (w : World) :
  db (snd (Db.getNextSurveyResponse shardIndex totalShards m w)) = db w
  /\ retellClient (snd (Db.getNextSurveyResponse shardIndex totalShards m w))
     = retellClient w
  /\ retell_requests
       (snd (Db.getNextSurveyResponse shardIndex totalShards m w))
     = retell_requests w.
Proof.
  unfold Db.getNextSurveyResponse, bind, try_finally, try_catch,
    Db.pool_connect, Db.client_query, Db.client_release, ret, throw,
    logger, write_log, modify.
  destruct (connect_fault (db w)); [repeat split |]. cbn.
  destruct (query_fault (db w) StBegin).
  { cbn. destruct (query_fault (db w) StRollback); repeat split. }
  cbn.
  destruct (query_fault (db w)
              (StSelectNext shardIndex totalShards
                 (Db.activeSurveyIds_of m))).
  { cbn. destruct (query_fault (db w) StRollback); repeat split. }
  destruct (Db.select_next (db w) shardIndex totalShards
              (Db.activeSurveyIds_of m)) as [rows | e].
  2: { cbn. destruct (query_fault (db w) StRollback); repeat split. }
  cbn.
  destruct (query_fault (db w) StCommit).
  { cbn. destruct (query_fault (db w) StRollback); repeat split. }
  destruct rows; repeat split.
Qed.

(** X17. The dequeue leaves the tables, the locks and the faults of the
    database as they were: what it returns depends on the database and on
    the exclusion map only, so a second dequeue with the same exclusion map
    returns the same completion (the same row again, if one was
    returned). *)
Theorem getNextSurveyResponse_leaves_no_mark
    (shardIndex totalShards : Z) (m : JsMap.t JsValue SurveyInfo)
    (w : World) :
  db (snd (Db.getNextSurveyResponse shardIndex totalShards m w)) = db w
  /\ retellClient (snd (Db.getNextSurveyResponse shardIndex totalShards m w))
     = retellClient w
  /\ (forall w0,
        db w0 = db w ->
        fst (Db.getNextSurveyResponse shardIndex totalShards m w0)
        = fst (Db.getNextSurveyResponse shardIndex totalShards m w))
  /\ fst (Db.getNextSurveyResponse shardIndex totalShards m
            (snd (Db.getNextSurveyResponse shardIndex totalShards m w)))
     = fst (Db.getNextSurveyResponse shardIndex totalShards m w).
Proof.
  assert (Hsame : forall w1 w2,
            db w1 = db w2 ->
            fst (Db.getNextSurveyResponse shardIndex totalShards m w1)
            = fst (Db.getNextSurveyResponse shardIndex totalShards m w2)).
  { intros w1 w2 Hdb.
    unfold Db.getNextSurveyResponse, bind, try_finally, try_catch,
      Db.pool_connect, Db.client_query, Db.client_release, ret, throw,
      logger, write_log, modify.
    rewrite Hdb.
    destruct (connect_fault (db w2)); [reflexivity |]. cbn. rewrite Hdb.
    destruct (query_fault (db w2) StBegin).
    { cbn. rewrite Hdb. destruct (query_fault (db w2) StRollback);
        reflexivity. }
    cbn. rewrite Hdb.
    destruct (query_fault (db w2)
                (StSelectNext shardIndex totalShards
                   (Db.activeSurveyIds_of m))).
    { cbn. rewrite Hdb. destruct (query_fault (db w2) StRollback);
        reflexivity. }
    destruct (Db.select_next (db w2) shardIndex totalShards
                (Db.activeSurveyIds_of m)) as [rows | e].
    2: { cbn. rewrite Hdb. destruct (query_fault (db w2) StRollback);
           reflexivity. }
    cbn. rewrite Hdb.
    destruct (query_fault (db w2) StCommit).
    { cbn. rewrite Hdb. destruct (query_fault (db w2) StRollback);
        reflexivity. }
    destruct rows; reflexivity. }
  destruct (getNextSurveyResponse_keeps shardIndex totalShards m w)
    as (Hdb & Hclient & _).
  split; [exact Hdb |]. split; [exact Hclient |].
  split; [intros w0 H0; now apply Hsame |].
  now apply Hsame.
Qed.

Lemma getNextSurveyResponse_leaves_no_mark_witness :
  fst (Db.getNextSurveyResponse 2 2 [] Examples.world_aged)
  = fst (Db.getNextSurveyResponse 2 2 [] Examples.world0).
Proof.
  apply (proj1 (proj2 (proj2 (getNextSurveyResponse_leaves_no_mark 2 2 []
                                Examples.world0)))).
  reflexivity.
Defined.

(* ================================================================== *)
(** ** Further properties of the retry helpers *)
(* ================================================================== *)

Section RetryBudget.
Context {St A : Type}.
Variable rethrow_at_once : Exn -> Completion bool.
Variable Math_random : Z -> Q.
Variable while_suspended : St -> St.
Variable operation : St -> Completion A * St.
Variables maxRetries baseDelay : Z.

(** How a retry ends: with the value of its last attempt, with the error
    of its last attempt, or with the error of a test of the catch block
    that threw itself. *)
Let ends_with (r : Completion A) (st' : St) : Prop :=
  (exists st_last a, operation st_last = (Returned a, st') /\ r = Returned a)
  \/ (exists st_last error b,
        operation st_last = (Thrown error, st')
        /\ rethrow_at_once error = Returned b /\ r = Thrown error)
  \/ (exists st_last error e,
        operation st_last = (Thrown error, st')
        /\ rethrow_at_once error = Thrown e /\ r = Thrown e).

Lemma loop_schedule :
  forall fuel attempt lastError st,
    attempt <= maxRetries ->
    (Z.to_nat (maxRetries + 1 - attempt) < fuel)%nat ->
    exists r st' n,
      Retry.loop rethrow_at_once Math_random while_suspended operation
        maxRetries baseDelay fuel attempt lastError st
      = Some (r, st',
              Retry.backoff_schedule (Retry.delay Math_random baseDelay) n
                attempt)
      /\ attempt + Z.of_nat n <= maxRetries
      /\ ends_with r st'.
Proof.
  induction fuel as [| fuel IH]; intros attempt lastError st Hle Hfuel;
    [lia |].
  cbn [Retry.loop].
  destruct (Z.leb_spec attempt maxRetries) as [_ | Hgt]; [| lia].
  destruct (operation st) as [[a | error] st'] eqn:Hop.
  - exists (Returned a), st', O. cbn. split; [reflexivity |].
    split; [lia |]. left. now exists st, a.
  - destruct (rethrow_at_once error) as [[|] | e] eqn:Hre.
    + exists (Thrown error), st', O. cbn. split; [reflexivity |].
      split; [lia |]. right. left. now exists st, error, true.
    + destruct (Z.eqb_spec attempt maxRetries) as [E | N].
      * exists (Thrown error), st', O. cbn. split; [reflexivity |].
        split; [lia |]. right. left. now exists st, error, false.
      * destruct (IH (attempt + 1) error (while_suspended st')
                    ltac:(lia) ltac:(lia)) as (r & st'' & n & Hrec & Hn & Hend).
        rewrite Hrec. exists r, st'', (S n). cbn [Retry.backoff_schedule].
        split; [reflexivity |]. split; [lia | exact Hend].
    + exists (Thrown e), st', O. cbn. split; [reflexivity |].
      split; [lia |]. right. right. now exists st, error, e.
Qed.

Lemma run_schedule (st : St) :
  1 <= maxRetries ->
  exists r st' n,
    Retry.run rethrow_at_once Math_random while_suspended operation
      maxRetries baseDelay st
    = Some (r, st',
            Retry.backoff_schedule (Retry.delay Math_random baseDelay) n 1)
    /\ 1 + Z.of_nat n <= maxRetries
    /\ ends_with r st'.
Proof.
  intro Hmax. unfold Retry.run. apply loop_schedule; lia.
Qed.

(** A test of the catch block that throws ends the helper after the first
    attempt, with the error of the test. *)
Lemma run_test_throws (st st' : St) (error e : Exn) :
  1 <= maxRetries ->
  operation st = (Thrown error, st') ->
  rethrow_at_once error = Thrown e ->
  Retry.run rethrow_at_once Math_random while_suspended operation
    maxRetries baseDelay st
  = Some (Thrown e, st', [Attempted 1]).
Proof.
  intros Hmax Hop Hre. unfold Retry.run. cbn [Retry.loop].
  destruct (Z.leb_spec 1 maxRetries); [| lia].
  now rewrite Hop, Hre.
Qed.
End RetryBudget.

Lemma total_sleep_schedule (Math_random : Z -> Q) (baseDelay : Z) :
  (forall attempt, 0 <= Math_random attempt < 1)%Q ->
  forall n attempt,
    1 <= attempt ->
    (inject_Z (baseDelay * 2 ^ (attempt - 1) * (2 ^ Z.of_nat n - 1))
     <= total_sleep
          (Retry.backoff_schedule (Retry.delay Math_random baseDelay) n
             attempt)
     <= inject_Z (baseDelay * 2 ^ (attempt - 1) * (2 ^ Z.of_nat n - 1))
        + inject_Z (1000 * Z.of_nat n))%Q.
Proof.
  intro Hrandom. induction n as [| n IH]; intros attempt Hattempt.
  - change (2 ^ Z.of_nat 0) with 1.
    replace (baseDelay * 2 ^ (attempt - 1) * (1 - 1)) with 0 by ring.
    change (total_sleep
              (Retry.backoff_schedule (Retry.delay Math_random baseDelay) 0
                 attempt)) with 0%Q.
    change (inject_Z (1000 * Z.of_nat 0)) with 0%Q.
    change (inject_Z 0) with 0%Q. split; lra.
  - change (total_sleep
              (Retry.backoff_schedule (Retry.delay Math_random baseDelay)
                 (S n) attempt))
      with (Retry.delay Math_random baseDelay attempt
            + total_sleep
                (Retry.backoff_schedule (Retry.delay Math_random baseDelay)
                   n (attempt + 1)))%Q.
    specialize (IH (attempt + 1) ltac:(lia)).
    replace (attempt + 1 - 1) with (Z.succ (attempt - 1)) in IH by lia.
    rewrite Z.pow_succ_r in IH by lia.
    rewrite Nat2Z.inj_succ, Z.pow_succ_r by lia.
    set (p := 2 ^ (attempt - 1)) in *. set (P := 2 ^ Z.of_nat n) in *.
    replace (baseDelay * p * (2 * P - 1))
      with (baseDelay * p + baseDelay * (2 * p) * (P - 1)) by ring.
    replace (1000 * Z.succ (Z.of_nat n)) with (1000 + 1000 * Z.of_nat n)
      by lia.
    rewrite !inject_Z_plus.
    set (T := total_sleep _) in *.
    unfold Retry.delay. fold p.
    destruct (Hrandom attempt) as [Hlo Hhi].
    destruct IH as [IHlo IHhi].
    change (inject_Z 1000) with 1000%Q.
    split; lra.
Qed.

(** X18. The budget of a retry.  Each of the three helpers, on any
    operation and with at least one attempt allowed, comes to an end after
    [1 + n <= maxRetries] attempts with one warning and one sleep between
    two attempts; it ends with the outcome of its last attempt (or with the
    error of a test of its catch block); and with [Math.random()] in
    [0, 1) it has slept at least [baseDelay * (2^n - 1)] and at most
    [baseDelay * (2^n - 1) + 1000 * n] milliseconds in all. *)
Theorem retry_budget (h : Helper) (St A : Type) (Math_random : Z -> Q)
    (while_suspended : St -> St) (operation : St -> Completion A * St)
    (maxRetries baseDelay : Z) (st : St) :
  1 <= maxRetries ->
  (forall attempt, 0 <= Math_random attempt < 1)%Q ->
  exists r st' n,
    retry_helper h Math_random while_suspended operation maxRetries
      baseDelay st
    = Some (r, st',
            Retry.backoff_schedule (Retry.delay Math_random baseDelay) n 1)
    /\ 1 + Z.of_nat n <= maxRetries
    /\ ((exists st_last, operation st_last = (r, st'))
        \/ exists e,
             r = Thrown (ThrowObj e) /\ err_name e = "TypeError")
    /\ (inject_Z (baseDelay * (2 ^ Z.of_nat n - 1))
        <= total_sleep
             (Retry.backoff_schedule (Retry.delay Math_random baseDelay) n 1)
        <= inject_Z (baseDelay * (2 ^ Z.of_nat n - 1) + 1000 * Z.of_nat n))%Q.
Proof.
  intros Hmax Hrandom.
  assert (Hsleep : forall n,
            (inject_Z (baseDelay * (2 ^ Z.of_nat n - 1))
             <= total_sleep
                  (Retry.backoff_schedule
                     (Retry.delay Math_random baseDelay) n 1)
             <= inject_Z (baseDelay * (2 ^ Z.of_nat n - 1)
                          + 1000 * Z.of_nat n))%Q).
  { intro n.
    pose proof (total_sleep_schedule Math_random baseDelay Hrandom n 1
                  ltac:(lia)) as H.
    change (2 ^ (1 - 1)) with 1 in H. rewrite Z.mul_1_r in H.
    now rewrite inject_Z_plus. }
  destruct h; cbn [retry_helper].
  - destruct (run_schedule Retell.rethrow_at_once Math_random
                while_suspended operation maxRetries baseDelay st Hmax)
      as (r & st' & n & Hrun & Hn & Hend).
    exists r, st', n. unfold Retell.withRetry.
    split; [exact Hrun |]. split; [exact Hn |]. split; [| apply Hsleep].
    destruct Hend as [(s & a & Hop & ->) | [(s & error & b & Hop & _ & ->)
                                           | (s & error & e & Hop & Hre & ->)]].
    + left. now exists s.
    + left. now exists s.
    + right. destruct error as [| e0]; [| discriminate].
      cbn in Hre. injection Hre as <-. eexists. split; reflexivity.
  - destruct (run_schedule Db.rethrow_at_once Math_random
                while_suspended operation maxRetries baseDelay st Hmax)
      as (r & st' & n & Hrun & Hn & Hend).
    exists r, st', n. unfold Db.withRetry.
    split; [exact Hrun |]. split; [exact Hn |]. split; [| apply Hsleep].
    destruct Hend as [(s & a & Hop & ->) | [(s & error & b & Hop & _ & ->)
                                           | (s & error & e & Hop & Hre & ->)]].
    + left. now exists s.
    + left. now exists s.
    + right. destruct error as [| e0]; [| discriminate].
      cbn in Hre. injection Hre as <-. eexists. split; reflexivity.
  - destruct (run_schedule (fun _ => Returned false) Math_random
                while_suspended operation maxRetries baseDelay st Hmax)
      as (r & st' & n & Hrun & Hn & Hend).
    exists r, st', n. unfold Caller.retryOperation.
    split; [exact Hrun |]. split; [exact Hn |]. split; [| apply Hsleep].
    destruct Hend as [(s & a & Hop & ->) | [(s & error & b & Hop & _ & ->)
                                           | (s & error & e & Hop & Hre & ->)]].
    + left. now exists s.
    + left. now exists s.
    + discriminate.
Qed.

Lemma retry_budget_witness :
  exists r st' n,
    retry_helper RetellWithRetry Examples.half (fun calls => calls)
      Examples.third_time_lucky 3 2000 0%nat
    = Some (r, st',
            Retry.backoff_schedule (Retry.delay Examples.half 2000) n 1)
    /\ 1 + Z.of_nat n <= 3
    /\ ((exists st_last, Examples.third_time_lucky st_last = (r, st'))
        \/ exists e,
             r = Thrown (ThrowObj e) /\ err_name e = "TypeError")
    /\ (inject_Z (2000 * (2 ^ Z.of_nat n - 1))
        <= total_sleep
             (Retry.backoff_schedule (Retry.delay Examples.half 2000) n 1)
        <= inject_Z (2000 * (2 ^ Z.of_nat n - 1) + 1000 * Z.of_nat n))%Q.
Proof.
  apply (retry_budget RetellWithRetry nat string Examples.half
           (fun calls => calls) Examples.third_time_lucky 3 2000 0%nat).
  - lia.
  - apply half_in_unit_interval.
Defined.

(** X19. What the database helper does not retry.  An error whose [code] is
    23505 or 23503 is thrown again after the first attempt, without a
    sleep, and so is the [TypeError] of reading [code] on a thrown
    [undefined]; an error with another code, or with none, is not rethrown
    by that test, whatever its HTTP status: with more than one attempt
    allowed the helper warns, sleeps and makes a second attempt. *)
Theorem db_withRetry_constraint_violations
    (St A : Type) (Math_random : Z -> Q) (while_suspended : St -> St)
    (operation : St -> Completion A * St) (maxRetries baseDelay : Z)
    (st st' : St) (error : Exn) :
  1 <= maxRetries ->
  operation st = (Thrown error, st') ->
  (forall e,
     error = ThrowObj e ->
     err_code e = Some "23505" \/ err_code e = Some "23503" ->
     Db.withRetry Math_random while_suspended operation maxRetries
       baseDelay st
     = Some (Thrown (ThrowObj e), st', [Attempted 1]))
  /\ (error = ThrowUndefined ->
      exists e,
        Db.withRetry Math_random while_suspended operation maxRetries
          baseDelay st
        = Some (Thrown (ThrowObj e), st', [Attempted 1])
        /\ err_name e = "TypeError")
  /\ (forall e,
        error = ThrowObj e ->
        err_code e <> Some "23505" ->
        err_code e <> Some "23503" ->
        Db.rethrow_at_once error = Returned false
        /\ (1 < maxRetries ->
            exists r st'' evs,
              Db.withRetry Math_random while_suspended operation maxRetries
                baseDelay st
              = Some (r, st'',
                      Attempted 1
                        :: Warned 1 (Retry.delay Math_random baseDelay 1)
                        :: Slept (Retry.delay Math_random baseDelay 1)
                        :: Attempted 2 :: evs))).
Proof.
  intros Hmax Hop. split; [| split].
  - intros e -> Hcode. unfold Db.withRetry.
    apply run_rethrown; [exact Hmax | exact Hop |].
    cbn. unfold Db.code_is.
    destruct Hcode as [-> | ->]; reflexivity.
  - intros ->. eexists. split.
    + unfold Db.withRetry.
      apply (run_test_throws Db.rethrow_at_once Math_random while_suspended
               operation maxRetries baseDelay st st' ThrowUndefined _ Hmax
               Hop).
      reflexivity.
    + reflexivity.
  - intros e -> N1 N2.
    assert (Hre : Db.rethrow_at_once (ThrowObj e) = Returned false).
    { cbn. unfold Db.code_is. destruct (err_code e) as [c |]; [| reflexivity].
      destruct (String.eqb_spec c "23505") as [-> | _]; [congruence |].
      destruct (String.eqb_spec c "23503") as [-> | _]; [congruence |].
      reflexivity. }
    split; [exact Hre |]. intro Hmore.
    unfold Db.withRetry, Retry.run.
    remember (Z.to_nat maxRetries) as fuel eqn:Hfuel.
    cbn [Retry.loop].
    destruct (Z.leb_spec 1 maxRetries); [| lia].
    rewrite Hop, Hre.
    destruct (Z.eqb_spec 1 maxRetries); [lia |].
    destruct (loop_schedule Db.rethrow_at_once Math_random while_suspended
                operation maxRetries baseDelay fuel (1 + 1)
                (ThrowObj e) (while_suspended st') ltac:(lia) ltac:(lia))
      as (r & st'' & k & Hrec & _ & _).
    rewrite Hrec. exists r, st''.
    destruct k as [| k]; cbn [Retry.backoff_schedule]; eexists; reflexivity.
Qed.

Lemma db_withRetry_constraint_violations_witness :
  Db.withRetry Examples.half (fun calls => calls)
    (fun calls : nat =>
       (@Thrown string
          (ThrowObj (mkError "error" (Some "duplicate key") None
                       (Some "23505"))), S calls))
    3 1000 0%nat
  = Some (Thrown (ThrowObj (mkError "error" (Some "duplicate key") None
                              (Some "23505"))), 1%nat, [Attempted 1]).
Proof.
  apply (proj1 (db_withRetry_constraint_violations nat string Examples.half
                  (fun calls => calls)
                  (fun calls : nat =>
                     (@Thrown string
                        (ThrowObj (mkError "error" (Some "duplicate key")
                                     None (Some "23505"))), S calls))
                  3 1000 0%nat 1%nat
                  (ThrowObj (mkError "error" (Some "duplicate key") None
                               (Some "23505")))
                  ltac:(lia) eq_refl)).
  - reflexivity.
  - left. reflexivity.
Defined.

(** X20. [retryOperation] retries every failure: on any operation, with at
    least one attempt allowed, it sleeps after each failed attempt but the
    last and throws only after [maxRetries] attempts, the error of the last
    one; an operation that never succeeds is invoked exactly [maxRetries]
    times, permanent HTTP statuses and a thrown [undefined] included. *)
Theorem retryOperation_retries_everything
    (St A : Type) (Math_random : Z -> Q) (while_suspended : St -> St)
    (operation : St -> Completion A * St) (maxRetries baseDelay : Z)
    (st : St) :
  1 <= maxRetries ->
  Retry.backs_off operation (Retry.delay Math_random baseDelay) maxRetries
    (Caller.retryOperation Math_random while_suspended operation maxRetries
       baseDelay st)
  /\ ((forall s, exists error s', operation s = (Thrown error, s')) ->
      exists error st',
        Caller.retryOperation Math_random while_suspended operation
          maxRetries baseDelay st
        = Some (Thrown error, st',
                Retry.backoff_schedule (Retry.delay Math_random baseDelay)
                  (Z.to_nat (maxRetries - 1)) 1)
        /\ Retry.attempts
             (Retry.backoff_schedule (Retry.delay Math_random baseDelay)
                (Z.to_nat (maxRetries - 1)) 1)
           = map (fun k => 1 + Z.of_nat k) (seq 0 (Z.to_nat maxRetries))).
Proof.
  intro Hmax.
  assert (Hback : Retry.backs_off operation
                    (Retry.delay Math_random baseDelay) maxRetries
                    (Caller.retryOperation Math_random while_suspended
                       operation maxRetries baseDelay st)).
  { unfold Caller.retryOperation. apply run_backs_off; [| exact Hmax].
    reflexivity. }
  split; [exact Hback |]. intro Hfails.
  destruct Hback as (r & st' & n & Hrun & Hn & Hthrown).
  destruct r as [a | error].
  - exfalso.
    destruct (run_schedule (fun _ => Returned false) Math_random
                while_suspended operation maxRetries baseDelay st Hmax)
      as (r2 & st2 & n2 & Hrun2 & _ & Hend).
    unfold Caller.retryOperation in Hrun. rewrite Hrun in Hrun2.
    injection Hrun2 as <- <- _.
    destruct Hend as [(s & a' & Hop & _) | [(s & e & b & _ & _ & He)
                                            | (s & e & e' & _ & Hre & _)]];
      try discriminate.
    destruct (Hfails s) as (e & s' & Hop'). congruence.
  - destruct (Hthrown error eq_refl) as [Hlast _].
    replace (Z.to_nat (maxRetries - 1)) with n by lia.
    exists error, st'. split; [exact Hrun |].
    rewrite backoff_schedule_attempts.
    replace (Z.to_nat maxRetries) with (S n) by lia. reflexivity.
Qed.

Lemma retryOperation_retries_everything_witness :
  Retry.backs_off Examples.refused (Retry.delay Examples.half 1000) 3
    (Caller.retryOperation Examples.half (fun calls => calls)
       Examples.refused 3 1000 0%nat).
Proof.
  apply (proj1 (retryOperation_retries_everything nat string Examples.half
                  (fun calls => calls) Examples.refused 3 1000 0%nat
                  ltac:(lia))).
Defined.

(* ================================================================== *)
(** ** Properties of the processing loop *)
(* ================================================================== *)

(** The catch block of [processSingleSurvey] swallows every error
    object. *)
Lemma processSingleSurvey_catch_returns (surveyData : SurveyData)
    (e : ErrorObj) (w : World) :
  exists w',
    Caller.processSingleSurvey_catch surveyData (ThrowObj e) w
    = (Returned JUndefined, w')
    /\ retellClient w' = retellClient w
    /\ retell_requests w' = retell_requests w
    /\ db_statements w' = db_statements w.
Proof.
  unfold Caller.processSingleSurvey_catch, bind, logger, write_log, modify,
    ret.
  destruct (Caller.is_duplicate (ThrowObj e)); cbn.
  - eexists. split; [reflexivity |]. repeat split.
  - destruct (Retell.permanent e); cbn;
      (eexists; split; [reflexivity |]; repeat split).
Qed.

(** What [withRetry] of the Retell client throws is an error object. *)
Lemma retell_withRetry_throws_object {St A : Type} (Math_random : Z -> Q)
    (while_suspended : St -> St) (operation : St -> Completion A * St)
    (maxRetries baseDelay : Z) (st st' : St) (error : Exn)
    (evs : list RetryEvent) :
  1 <= maxRetries ->
  Retell.withRetry Math_random while_suspended operation maxRetries
    baseDelay st = Some (Thrown error, st', evs) ->
  exists e, error = ThrowObj e.
Proof.
  intros Hmax Hrun.
  destruct (run_schedule Retell.rethrow_at_once Math_random while_suspended
              operation maxRetries baseDelay st Hmax)
    as (r & s & n & Hrun' & _ & Hend).
  unfold Retell.withRetry in Hrun. rewrite Hrun in Hrun'.
  injection Hrun' as <- <- _.
  destruct Hend as [(s0 & a & _ & H) | [(s0 & err & b & _ & Hre & H)
                                        | (s0 & err & e & _ & Hre & H)]].
  - discriminate.
  - injection H as ->. destruct err as [| e]; [discriminate |]. now exists e.
  - injection H as ->. destruct err as [| e0]; [| discriminate].
    cbn in Hre. injection Hre as <-. eexists. reflexivity.
Qed.

Lemma processSingleSurvey_returns (Math_random : Z -> Q)
    (while_suspended : World -> World) (surveyData : SurveyData)
    (w : World) :
  exists w' evs,
    Caller.processSingleSurvey Math_random while_suspended surveyData w
    = Some (Returned JUndefined, w', evs)
    /\ (List.length (Retry.attempts evs) <= 3)%nat
    /\ (JsMap.has JsValue_eqb (survey_id surveyData)
          (activeSurveys (retellClient w)) = true ->
        evs = []
        /\ retellClient w' = retellClient w
        /\ retell_requests w' = retell_requests w).
Proof.
  unfold Caller.processSingleSurvey, Retell.isSurveyBeingProcessed,
    Retell.get_activeSurveys, bind, gets, ret.
  destruct (JsMap.has JsValue_eqb (survey_id surveyData)
              (activeSurveys (retellClient w))) eqn:Hhas.
  - cbn. eexists. exists []. split; [reflexivity |].
    split; [cbn; lia |]. intros _. repeat split.
  - cbn [logger write_log modify].
    match goal with
    | |- context [Retell.withRetry ?r ?ws ?op 3 2000 ?w2] =>
        destruct (run_schedule Retell.rethrow_at_once r ws op 3 2000 w2
                    ltac:(lia)) as (res & w3 & n & Hrun & Hn & _);
        pose proof (retell_withRetry_throws_object r ws op 3 2000 w2) as Hobj
    end.
    unfold Retell.withRetry in *. rewrite Hrun in *.
    assert (Hlen : (List.length
                      (Retry.attempts
                         (Retry.backoff_schedule
                            (Retry.delay Math_random 2000) n 1)) <= 3)%nat).
    { rewrite backoff_schedule_attempts, length_map, length_seq. lia. }
    destruct res as [callResponse | error].
    + cbn. eexists. eexists. split; [reflexivity |].
      split; [exact Hlen | discriminate].
    + destruct (Hobj w3 error _ ltac:(lia) eq_refl) as [e ->].
      destruct (processSingleSurvey_catch_returns surveyData e w3)
        as (w4 & Hcatch & _).
      rewrite Hcatch. eexists. eexists. split; [reflexivity |].
      split; [exact Hlen | discriminate].
Qed.

(** X21. [processSingleSurvey] always comes to an end and never throws: for
    every survey, every answer of the remote API and every interleaving, it
    returns [undefined] after at most three attempts to create the call.
    For a survey that is already in flight it makes no attempt and no
    request, and leaves the two maps as they are. *)
Theorem processSingleSurvey_never_throws (Math_random : Z -> Q)
    (while_suspended : World -> World) (surveyData : SurveyData)
    (w : World) :
  exists w' evs,
    Caller.processSingleSurvey Math_random while_suspended surveyData w
    = Some (Returned JUndefined, w', evs)
    /\ (List.length (Retry.attempts evs) <= 3)%nat
    /\ (JsMap.has JsValue_eqb (survey_id surveyData)
          (activeSurveys (retellClient w)) = true ->
        evs = []
        /\ retellClient w' = retellClient w
        /\ retell_requests w' = retell_requests w).
Proof. apply processSingleSurvey_returns. Qed.

Lemma processSingleSurvey_never_throws_witness :
  exists w' evs,
    Caller.processSingleSurvey Examples.half (fun w => w)
      Examples.survey_data_5 Examples.world_tracking_5
    = Some (Returned JUndefined, w', evs)
    /\ (List.length (Retry.attempts evs) <= 3)%nat
    /\ (JsMap.has JsValue_eqb (survey_id Examples.survey_data_5)
          (activeSurveys (retellClient Examples.world_tracking_5)) = true ->
        evs = []
        /\ retellClient w' = retellClient Examples.world_tracking_5
        /\ retell_requests w' = retell_requests Examples.world_tracking_5).
Proof.
  apply (processSingleSurvey_never_throws Examples.half (fun w => w)
           Examples.survey_data_5 Examples.world_tracking_5).
Defined.

(** X22. One cycle of the processing loop always comes to an end and never
    throws: it returns [undefined] after at most three attempts to create a
    call.  During shutdown it does nothing at all.  When [getShardInfo] or
    the dequeue throws, the error is logged and no request goes to the
    remote API; when [getShardInfo] throws, no statement goes to the
    database either. *)
Theorem processSurveyResponses_never_throws (Math_random : Z -> Q)
    (while_suspended : World -> World) (w : World) :
  exists w' evs,
    Caller.processSurveyResponses Math_random while_suspended w
    = Some (Returned JUndefined, w', evs)
    /\ (List.length (Retry.attempts evs) <= 3)%nat
    /\ (isShuttingDown w = true -> w' = w /\ evs = [])
    /\ (isShuttingDown w = false ->
        forall e,
          shard_info w = Thrown e ->
          evs = []
          /\ retell_requests w' = retell_requests w
          /\ db_statements w' = db_statements w
          /\ logs w' = logs w ++ [mkLog LvlError
                                    "Error in survey processing loop" []])
    /\ (isShuttingDown w = false ->
        forall info e w2,
          shard_info w = Returned info ->
          Db.getNextSurveyResponse (Sharding.shardIndex info)
            (Sharding.totalShards info) (activeSurveys (retellClient w))
            (set_logs
               (logs w ++
                [mkLog LvlInfo "Processing survey responses for shard"
                   [("shardIndex", JInt (Sharding.shardIndex info));
                    ("totalShards", JInt (Sharding.totalShards info))]]) w)
          = (Thrown e, w2) ->
          evs = []
          /\ retell_requests w' = retell_requests w
          /\ retellClient w' = retellClient w
          /\ logs w' = logs w2 ++ [mkLog LvlError
                                     "Error in survey processing loop" []]).
Proof.
  unfold Caller.processSurveyResponses.
  destruct (isShuttingDown w) eqn:Hdown.
  { exists w, []. split; [reflexivity |]. split; [cbn; lia |].
    split; [now split |]. split; discriminate. }
  destruct (shard_info w) as [info | e0] eqn:Hinfo.
  2: { cbn. eexists. exists []. split; [reflexivity |].
       split; [cbn; lia |]. split; [discriminate |].
       split; [| intros _ info e w2 Habs; discriminate].
       intros _ e _. repeat split. }
  cbn [logger write_log modify].
  change (retellClient
            (set_logs
               (logs w ++
                [mkLog LvlInfo "Processing survey responses for shard"
                   [("shardIndex", JInt (Sharding.shardIndex info));
                    ("totalShards", JInt (Sharding.totalShards info))]]) w))
    with (retellClient w).
  set (w1 := set_logs _ w).
  pose proof (getNextSurveyResponse_keeps
                (Sharding.shardIndex info) (Sharding.totalShards info)
                (activeSurveys (retellClient w)) w1) as (Hdb & Hclient & Hreq).
  destruct (Db.getNextSurveyResponse (Sharding.shardIndex info)
              (Sharding.totalShards info) (activeSurveys (retellClient w))
              w1) as [[[surveyData |] | e1] w2] eqn:Hnext.
  - destruct (processSingleSurvey_returns Math_random while_suspended
                surveyData w2) as (w3 & evs & Hrun & Hlen & _).
    rewrite Hrun. exists w3, evs. split; [reflexivity |].
    split; [exact Hlen |]. split; [discriminate |].
    split; [intros _ e Habs; discriminate |].
    intros _ info' e w2' Hi. injection Hi as <-. fold w1.
    rewrite Hnext. discriminate.
  - cbn. eexists. exists []. split; [reflexivity |].
    split; [cbn; lia |]. split; [discriminate |].
    split; [intros _ e Habs; discriminate |].
    intros _ info' e w2' Hi. injection Hi as <-. fold w1.
    rewrite Hnext. discriminate.
  - cbn. eexists. exists []. split; [reflexivity |].
    split; [cbn; lia |]. split; [discriminate |].
    split; [intros _ e Habs; discriminate |].
    intros _ info' e w2' Hi. injection Hi as <-. fold w1.
    rewrite Hnext. intro H. injection H as _ <-.
    cbn in Hclient, Hreq. cbn. repeat split; assumption.
Qed.

Lemma processSurveyResponses_never_throws_witness :
  exists w' evs,
    Caller.processSurveyResponses Examples.half (fun w => w)
      Examples.world_shutting_down
    = Some (Returned JUndefined, w', evs)
    /\ (List.length (Retry.attempts evs) <= 3)%nat
    /\ w' = Examples.world_shutting_down /\ evs = [].
Proof.
  destruct (processSurveyResponses_never_throws Examples.half (fun w => w)
              Examples.world_shutting_down)
    as (w' & evs & Hrun & Hlen & Hdown & _).
  exists w', evs. split; [exact Hrun |]. split; [exact Hlen |].
  apply Hdown. reflexivity.
Defined.

(* ================================================================== *)
(** ** Properties of the start-up *)
(* ================================================================== *)

Lemma filter_nil_iff {A : Type} (f : A -> bool) (l : list A) :
  filter f l = [] <-> forall x, In x l -> f x = false.
Proof.
  induction l as [| a l IH]; cbn.
  - split; [intros _ x [] | reflexivity].
  - destruct (f a) eqn:E.
    + split; [discriminate |]. intro H. specialize (H a (or_introl eq_refl)).
      congruence.
    + rewrite IH. split.
      * intros H x [<- | Hx]; [exact E | now apply H].
      * intros H x Hx. apply H. now right.
Qed.

Lemma not_set_false (env : Startup.Env) (name : string) :
  Startup.not_set env name = false
  <-> exists v, env name = Some v /\ v <> "".
Proof.
  unfold Startup.not_set. destruct (env name) as [v |].
  - destruct (String.eqb_spec v "") as [-> | N].
    + split; [discriminate | intros (v & [= <-] & N); congruence].
    + split; [intros _; now exists v | reflexivity].
  - split; [discriminate | intros (v & H & _); discriminate].
Qed.

(** X23. [validateEnvironment] returns exactly when each of the seven
    required variables is set to a non-empty string.  Otherwise it throws,
    writing nothing, an error whose message lists the variables that are
    missing, and only those.  When it returns,
    the [POD_NAME] test of [validateShardConfig] cannot fail on the manager
    built from the same environment: the validation then answers [true]
    exactly when [getShardInfo] returns a pair. *)
Theorem validateEnvironment_accepts (env : Startup.Env) (w : World) :
  (fst (Startup.validateEnvironment env w) = Returned JUndefined
   <-> forall name,
         In name Startup.required -> exists v, env name = Some v /\ v <> "")
  /\ (forall error,
        fst (Startup.validateEnvironment env w) = Thrown error ->
        snd (Startup.validateEnvironment env w) = w
        /\ exists missing,
             missing <> []
             /\ (forall name,
                   In name missing
                   <-> In name Startup.required
                       /\ ~ exists v, env name = Some v /\ v <> "")
             /\ error
                = ThrowObj (new_Error
                    ("Missing required environment variables: "
                     ++ String.concat ", " missing)%string))
  /\ (fst (Startup.validateEnvironment env w) = Returned JUndefined ->
      forall now listNamespacedPod,
        fst (fst (Membership.validateShardConfig now listNamespacedPod
                    (Startup.shardingManager env))) = true
        <-> exists info,
              fst (fst (Membership.getShardInfo now listNamespacedPod
                          (Startup.shardingManager env))) = Returned info).
Proof.
  assert (Hiff : fst (Startup.validateEnvironment env w) = Returned JUndefined
                 <-> forall name,
                       In name Startup.required ->
                       exists v, env name = Some v /\ v <> "").
  { unfold Startup.validateEnvironment.
    destruct (filter (Startup.not_set env) Startup.required)
      as [| x rest] eqn:Hf.
    - cbn. split; [intros _ | reflexivity].
      intros name Hin. apply not_set_false.
      now apply (proj1 (filter_nil_iff _ _) Hf).
    - cbn [List.length]. destruct (Z.gtb_spec (Z.of_nat (S (List.length rest))) 0);
        [| lia].
      cbn. split; [discriminate |]. intro Hall. exfalso.
      assert (Hx : In x (filter (Startup.not_set env) Startup.required))
        by (rewrite Hf; now left).
      apply filter_In in Hx as [Hin Hnot].
      apply Hall, not_set_false in Hin. congruence. }
  split; [exact Hiff |]. split.
  - intros error.
    unfold Startup.validateEnvironment.
    destruct (filter (Startup.not_set env) Startup.required)
      as [| x rest] eqn:Hf.
    + cbn. discriminate.
    + cbn [List.length].
      destruct (Z.gtb_spec (Z.of_nat (S (List.length rest))) 0); [| lia].
      cbn. intros [= <-]. split; [reflexivity |].
      exists (x :: rest). split; [discriminate |]. split; [| reflexivity].
      intro name. rewrite <- Hf, filter_In, <- not_set_false.
      destruct (Startup.not_set env name); split; intros [H1 H2];
        (split; [exact H1 | congruence]).
  - intros Hok now listNamespacedPod.
    assert (Hpod : Membership.podName_missing (Startup.shardingManager env)
                   = false).
    { destruct (proj1 Hiff Hok "POD_NAME") as (v & Hv & N).
      - cbn. tauto.
      - unfold Membership.podName_missing, Startup.shardingManager.
        cbn. rewrite Hv. now apply String.eqb_neq. }
    unfold Membership.validateShardConfig. rewrite Hpod.
    pose proof (getShardInfo_range_cases now listNamespacedPod
                  (Startup.shardingManager env) I) as Hrange.
    destruct (Membership.getShardInfo now listNamespacedPod
                (Startup.shardingManager env))
      as [[[info | error] m'] logs]; cbn [fst snd].
    + destruct Hrange as [[Hlo Hhi] _].
      destruct (Z.ltb_spec (Sharding.shardIndex info) 1); [lia |].
      destruct (Z.gtb_spec (Sharding.shardIndex info)
                  (Sharding.totalShards info)); [lia |].
      destruct (Z.ltb_spec (Sharding.totalShards info) 1); [lia |].
      cbn. split; [intros _; now exists info | reflexivity].
    + split; [discriminate | intros [info H]; discriminate].
Qed.

Lemma validateEnvironment_accepts_witness :
  snd (Startup.validateEnvironment
         (fun name => if String.eqb name "POD_NAME" then None else Some "x")
         Examples.world0) = Examples.world0
  /\ exists missing,
       missing <> []
       /\ (forall name,
             In name missing
             <-> In name Startup.required
                 /\ ~ exists v,
                        (if String.eqb name "POD_NAME" then None
                         else Some "x") = Some v /\ v <> "")
       /\ ThrowObj (new_Error
            "Missing required environment variables: POD_NAME")
          = ThrowObj (new_Error
              ("Missing required environment variables: "
               ++ String.concat ", " missing)%string).
Proof.
  apply (proj1 (proj2 (validateEnvironment_accepts
                         (fun name =>
                            if String.eqb name "POD_NAME" then None
                            else Some "x")
                         Examples.world0))).
  reflexivity.
Defined.
